(** * IMC Prosperity 3 trading bots and replay engine: a verification model

    A shallow embedding of the parts of the repository that its
    specification makes promises about:

    - [Py], [PyMore], [Numpy]   the Python and numpy operations the code
                      relies on
    - [Library]       the outcomes of the calls into jsonpickle and the
                      logger, which are not modelled
    - [DataModel]     the orders, order depths and trading state of datamodel
    - [Backtester]    src/backtest/backtester.py  (historical replay and fills)
    - [TradeTutorial] src/tutorial_round/trade.py
    - [TradeV16]      src/tutorial_round/trade_v16.py
    - [TradeV17]      src/tutorial_round/trade_v17_vwap.py
    - [RoundV7], [RoundV7Trader]   src/round_1/round_v_7.py
    - [RoundV5]       src/round_1/round_v_5.py
    - [Round2V1], [Round2V1Basket] src/round_2/round2_v_1.py
    - [Round2V2], [Round2V2Orders] src/round_2/round2_v_2.py
    - [Round2V3], [Round2V3Orders] src/round_2/round2_v_3.py
    - [Logger]        the [truncate] method of the traders' logger

    Python integers are [Z]; Python floats are idealised as real numbers
    ([R]); a [dict] is a [gmap]; a [dict] whose iteration order is observed
    is an association list in insertion order; a raised exception is the
    [Raise] branch of the [result] type. *)

From Stdlib Require Import ZArith Reals Lra Lia List.
From stdpp Require Import gmap strings list sorting.

Local Open Scope Z_scope.

(** ** Python runtime: exceptions, dictionary access, [min] and [max] *)

Module Py.

Inductive key :=
| StrKey (s : string)
| IntKey (z : Z).

Inductive exn :=
| ValueError
| KeyError (k : key)
| NameError (name : string)
| IndexError.

Inductive result (A : Type) :=
| Ok (a : A)
| Raise (e : exn).
Arguments Ok {A} a.
Arguments Raise {A} e.

Definition bind {A B} (c : result A) (k : A -> result B) : result B :=
  match c with
  | Ok a => k a
  | Raise e => Raise e
  end.

(** [d[k]] on a dictionary with string keys, and with integer keys. *)
Definition getitem {V} (d : gmap string V) (k : string) : result V :=
  match d !! k with
  | Some v => Ok v
  | None => Raise (KeyError (StrKey k))
  end.

Definition getitem_int {V} (d : gmap Z V) (k : Z) : result V :=
  match d !! k with
  | Some v => Ok v
  | None => Raise (KeyError (IntKey k))
  end.

(** [d.keys()] of a price-level dictionary. *)
Definition keys {V} (d : gmap Z V) : list Z := (map_to_list d).*1.

(** [min(xs)] and [max(xs)]: [ValueError] on an empty sequence. *)
Definition py_min (xs : list Z) : result Z :=
  match xs with
  | [] => Raise ValueError
  | x :: rest => Ok (foldl Z.min x rest)
  end.

Definition py_max (xs : list Z) : result Z :=
  match xs with
  | [] => Raise ValueError
  | x :: rest => Ok (foldl Z.max x rest)
  end.

(** [min(xs, default=d)] and [max(xs, default=d)]. *)
Definition py_min_default (xs : list Z) (d : Z) : Z :=
  match py_min xs with Ok m => m | Raise _ => d end.

Definition py_max_default (xs : list Z) (d : Z) : Z :=
  match py_max xs with Ok m => m | Raise _ => d end.

(** [xs[0]] and [xs[-1]]: [IndexError] on an empty list. *)
Definition getitem_first {A} (xs : list A) : result A :=
  match xs with
  | [] => Raise IndexError
  | x :: _ => Ok x
  end.

Definition getitem_last {A} (xs : list A) : result A :=
  match last xs with
  | None => Raise IndexError
  | Some x => Ok x
  end.

(** Truthiness of a dictionary: [if d:] holds when [d] is not empty. *)
Definition truthy {V} (d : gmap Z V) : bool :=
  match map_to_list d with [] => false | _ :: _ => true end.

End Py.

Import Py.

Notation "'let*' x ':=' c 'in' k" := (Py.bind c (fun x => k))
  (at level 10, x name, c at level 100, k at level 200).
Notation "'let*' ' p ':=' c 'in' k" := (Py.bind c (fun p => k))
  (at level 10, p strict pattern, c at level 100, k at level 200).

(** ** datamodel: orders, order depths, trading state *)

Module DataModel.

Record Order := mkOrder {
  symbol : string;
  price : Z;
  quantity : Z
}.

Record OrderDepth := mkOrderDepth {
  buy_orders : gmap Z Z;
  sell_orders : gmap Z Z
}.

(** The fields of [TradingState] that the modelled traders read.  The
    replay engine fills [own_trades] and [market_trades] with empty lists
    and [observations] with an empty dictionary on every tick. *)
Record TradingState := mkTradingState {
  timestamp : Z;
  order_depths : gmap string OrderDepth;
  position : gmap string Z
}.

(** [state.position.get(product, 0)] *)
Definition position_get (st : TradingState) (product : string) : Z :=
  default 0 (position st !! product).

End DataModel.

Import DataModel.

Definition RAINFOREST_RESIN : string := "RAINFOREST_RESIN".
Definition KELP : string := "KELP".
Definition SQUID_INK : string := "SQUID_INK".

(** ** src/backtest/backtester.py *)

Module Backtester.

Inductive side := Buy | Sell.

(** One entry of [self.trade_history]. *)
Record trade := mkTrade {
  tr_timestamp : Z;
  tr_product : string;
  tr_price : Z;
  tr_quantity : Z;
  tr_side : side
}.

(** Per product columns of an output row: [<product>_mid],
    [<product>_best_bid], [<product>_best_ask]; [None] is [np.nan]. *)
Record quote := mkQuote {
  q_mid : R;
  q_best_bid : option Z;
  q_best_ask : option Z
}.

(** One element of [self.results] (the [market_data] dictionary). *)
Record market_data := mkMarketData {
  md_timestamp : Z;
  md_pnl : Z;
  md_quotes : gmap string quote;
  md_resin_position : Z;
  md_kelp_position : Z;
  md_total_volume : Z
}.

(** The mutable fields of a [Backtester] object. *)
Record t := mkBacktester {
  current_positions : gmap string Z;
  pnl : Z;
  trade_history : list trade;
  results : list market_data
}.

(** [__init__], after the input file has been read and validated. *)
Definition init : t :=
  {| current_positions := <[RAINFOREST_RESIN := 0]> (<[KELP := 0]> ∅);
     pnl := 0;
     trade_history := [];
     results := [] |}.

(** [_record_trade] *)
Definition record_trade (bt : t) (product : string) (price quantity : Z)
    (s : side) (timestamp : Z) : result t :=
  let* pos := getitem (current_positions bt) product in
  Ok {| current_positions :=
          <[product := pos + (match s with Buy => quantity | Sell => - quantity end)]>
            (current_positions bt);
        pnl := pnl bt + quantity * (price * (match s with Buy => -1 | Sell => 1 end));
        trade_history :=
          trade_history bt ++
            [ {| tr_timestamp := timestamp; tr_product := product;
                 tr_price := price; tr_quantity := quantity; tr_side := s |} ];
        results := results bt |}.

Definition best_ask (od : OrderDepth) : result Z := py_min (keys (sell_orders od)).
Definition best_bid (od : OrderDepth) : result Z := py_max (keys (buy_orders od)).

(** [_process_order] *)
Definition process_order (bt : t) (product : string) (order : Order)
    (order_depth : OrderDepth) (timestamp : Z) : result t :=
  if 0 <? quantity order then
    let* best_ask := py_min (keys (sell_orders order_depth)) in
    if best_ask <=? price order then
      let* resting := getitem_int (sell_orders order_depth) best_ask in
      record_trade bt product best_ask (Z.min (quantity order) resting) Buy timestamp
    else Ok bt
  else
    let* best_bid := py_max (keys (buy_orders order_depth)) in
    if price order <=? best_bid then
      let* resting := getitem_int (buy_orders order_depth) best_bid in
      record_trade bt product best_bid (Z.min (Z.abs (quantity order)) resting) Sell timestamp
    else Ok bt.

(** Step 4 of [run_backtest]: the loops over [result] and over
    [result[product]].  [result] is the dictionary the trader returned, as
    its items in insertion order; [order_depths[product]] is looked up for
    every order. *)
Fixpoint process_orders (bt : t) (product : string) (orders : list Order)
    (order_depths : gmap string OrderDepth) (timestamp : Z) : result t :=
  match orders with
  | [] => Ok bt
  | order :: rest =>
      let* order_depth := getitem order_depths product in
      let* bt1 := process_order bt product order order_depth timestamp in
      process_orders bt1 product rest order_depths timestamp
  end.

Fixpoint process_result (bt : t) (res : list (string * list Order))
    (order_depths : gmap string OrderDepth) (timestamp : Z) : result t :=
  match res with
  | [] => Ok bt
  | (product, orders) :: rest =>
      let* bt1 := process_orders bt product orders order_depths timestamp in
      process_result bt1 rest order_depths timestamp
  end.

(** One price level of an input row: the cells [bid_price_i] and
    [bid_volume_i] (or the ask ones).  [None] is a missing cell (NaN, or an
    absent column).  The cells of the data files hold whole numbers, on
    which [int(...)] is the identity. *)
Record level := mkLevel {
  lv_price : option Z;
  lv_volume : option Z
}.

(** One row of the input file, without its [timestamp] (the rows are grouped
    by it). *)
Record csv_row := mkRow {
  row_product : string;
  row_bids : level * level * level;
  row_asks : level * level * level;
  row_mid_price : R
}.

Definition levels (l : level * level * level) : list level :=
  let '(l1, l2, l3) := l in [l1; l2; l3].

(** The body of the loops [for i in [1, 2, 3]]. *)
Definition add_level (d : gmap Z Z) (l : level) : gmap Z Z :=
  match lv_price l, lv_volume l with
  | Some p, Some v => <[p := v]> d
  | _, _ => d
  end.

Definition build_order_depth (row : csv_row) : OrderDepth :=
  {| buy_orders := foldl add_level ∅ (levels (row_bids row));
     sell_orders := foldl add_level ∅ (levels (row_asks row)) |}.

(** [max(d.keys(), default=np.nan)] and [min(d.keys(), default=np.nan)]. *)
Definition nan_default (r : result Z) : option Z :=
  match r with Ok z => Some z | Raise _ => None end.

(** Step 1 of [run_backtest]: the loop over the rows of one timestamp. *)
Definition add_row (acc : gmap string OrderDepth * gmap string quote) (row : csv_row)
    : gmap string OrderDepth * gmap string quote :=
  let order_depth := build_order_depth row in
  (<[row_product row := order_depth]> acc.1,
   <[row_product row :=
       {| q_mid := row_mid_price row;
          q_best_bid := nan_default (best_bid order_depth);
          q_best_ask := nan_default (best_ask order_depth) |}]> acc.2).

Definition build_tick (group : list csv_row) : gmap string OrderDepth * gmap string quote :=
  foldl add_row (∅, ∅) group.

(** Step 2: the [TradingState] handed to the trader. *)
Definition make_state (bt : t) (timestamp : Z) (group : list csv_row) : TradingState :=
  {| DataModel.timestamp := timestamp;
     order_depths := (build_tick group).1;
     position := current_positions bt |}.

(** [sum(t['quantity'] for t in self.trade_history[-10:])] *)
Definition trailing_volume (history : list trade) : Z :=
  foldr Z.add 0 (tr_quantity <$> drop (length history - 10)%nat history).

(** Step 5: the output row.  Its [pnl] is the value read when the tick
    began. *)
Definition append_row (bt : t) (timestamp pnl_at_start : Z) (quotes : gmap string quote)
    : result t :=
  let* resin := getitem (current_positions bt) RAINFOREST_RESIN in
  let* kelp := getitem (current_positions bt) KELP in
  Ok {| current_positions := current_positions bt;
        pnl := pnl bt;
        trade_history := trade_history bt;
        results := results bt ++
          [ {| md_timestamp := timestamp; md_pnl := pnl_at_start; md_quotes := quotes;
               md_resin_position := resin; md_kelp_position := kelp;
               md_total_volume := trailing_volume (trade_history bt) |} ] |}.

(** Steps 4 and 5 of one tick, given what [self.trader.run(state)[0]] gave. *)
Definition settle_tick (bt : t) (timestamp : Z) (group : list csv_row)
    (res : list (string * list Order)) : result t :=
  let* bt1 := process_result bt res (build_tick group).1 timestamp in
  append_row bt1 timestamp (pnl bt) (build_tick group).2.

(** The loop of [run_backtest] over [self.data.groupby('timestamp')], whose
    groups come in increasing timestamp order.  The trader is any object
    with a [run] method: [run tr st tr' out] says that [tr.run(st)] may leave
    the trader as [tr'] and return the orders [out], or raise.  A raised
    exception ends the run: nothing in the loop catches it. *)
Section Replay.

Context {trader : Type}.
Variable run : trader -> TradingState -> trader -> result (list (string * list Order)) -> Prop.

Inductive run_backtest : t -> trader -> list (Z * list csv_row) -> result t -> Prop :=
| run_done bt tr :
    run_backtest bt tr [] (Ok bt)
| run_trader_raises bt tr timestamp group rest tr' e :
    run tr (make_state bt timestamp group) tr' (Raise e) ->
    run_backtest bt tr ((timestamp, group) :: rest) (Raise e)
| run_settle_raises bt tr timestamp group rest tr' res e :
    run tr (make_state bt timestamp group) tr' (Ok res) ->
    settle_tick bt timestamp group res = Raise e ->
    run_backtest bt tr ((timestamp, group) :: rest) (Raise e)
| run_tick bt tr timestamp group rest tr' res bt' final :
    run tr (make_state bt timestamp group) tr' (Ok res) ->
    settle_tick bt timestamp group res = Ok bt' ->
    run_backtest bt' tr' rest final ->
    run_backtest bt tr ((timestamp, group) :: rest) final.

(** The rows a run hands back: [pd.DataFrame(self.results)]. *)
Definition output_rows (final : result t) : result (list market_data) :=
  let* bt := final in Ok (results bt).

End Replay.

(** The same loop for a trader whose [run] is a function. *)
Fixpoint run_backtest_with {trader : Type}
    (run : trader -> TradingState -> trader * result (list (string * list Order)))
    (bt : t) (tr : trader) (data : list (Z * list csv_row)) : result t :=
  match data with
  | [] => Ok bt
  | (timestamp, group) :: rest =>
      let '(tr', out) := run tr (make_state bt timestamp group) in
      let* res := out in
      let* bt' := settle_tick bt timestamp group res in
      run_backtest_with run bt' tr' rest
  end.

End Backtester.

(** ** src/tutorial_round/trade_v16.py *)

Module TradeV16.

(** [Trader.resin_strategy] *)
Definition resin_strategy (product : string) (order_depth : OrderDepth)
    (fair_value width position position_limit : Z) : result (list Order) :=
  let orders : list Order := [] in
  let buy_order_volume := 0 in
  let sell_order_volume := 0 in
  let* '(orders, buy_order_volume) :=
    if truthy (sell_orders order_depth) then
      let* best_ask := py_min (keys (sell_orders order_depth)) in
      if best_ask <=? fair_value - width then
        let* resting := getitem_int (sell_orders order_depth) best_ask in
        let quantity := Z.min (- resting) (position_limit - position) in
        if 0 <? quantity then
          Ok (orders ++ [mkOrder product best_ask quantity], buy_order_volume + quantity)
        else Ok (orders, buy_order_volume)
      else Ok (orders, buy_order_volume)
    else Ok (orders, buy_order_volume) in
  let* '(orders, sell_order_volume) :=
    if truthy (buy_orders order_depth) then
      let* best_bid := py_max (keys (buy_orders order_depth)) in
      if fair_value + width <=? best_bid then
        let* resting := getitem_int (buy_orders order_depth) best_bid in
        let quantity := Z.min resting (position_limit + position) in
        if 0 <? quantity then
          Ok (orders ++ [mkOrder product best_bid (- quantity)], sell_order_volume + quantity)
        else Ok (orders, sell_order_volume)
      else Ok (orders, sell_order_volume)
    else Ok (orders, sell_order_volume) in
  let baaf :=
    py_min_default
      (List.filter (fun p => fair_value + width <? p) (keys (sell_orders order_depth)))
      (fair_value + width + 1) in
  let bbbf :=
    py_max_default
      (List.filter (fun p => p <? fair_value - width) (keys (buy_orders order_depth)))
      (fair_value - width - 1) in
  let buy_quantity := position_limit - (position + buy_order_volume) in
  let orders :=
    if 0 <? buy_quantity then orders ++ [mkOrder product (bbbf + 1) buy_quantity]
    else orders in
  let sell_quantity := position_limit + (position - sell_order_volume) in
  let orders :=
    if 0 <? sell_quantity then orders ++ [mkOrder product (baaf - 1) (- sell_quantity)]
    else orders in
  Ok orders.

(** The rolling window of [Trader.kelp_strategy] (the bootstrap, the
    append and the eviction), for a window entry of any type. *)
Definition kelp_vwap_update {A} (kelp_vwap : list A) (entry : A) (timespan : Z) : list A :=
  let kelp_vwap :=
    if (length kelp_vwap =? 0)%nat then kelp_vwap ++ [entry] else kelp_vwap in
  let kelp_vwap := kelp_vwap ++ [entry] in
  if timespan <? Z.of_nat (length kelp_vwap) then tail kelp_vwap else kelp_vwap.

(** One entry of [self.kelp_vwap]: [{"vwap": ..., "vol": ...}]. *)
Record vwap_entry := mkEntry {
  vwap : Z;
  vol : Z
}.

(** The fields of a [Trader] object. *)
Record t := mkTrader {
  kelp_vwap : list vwap_entry;
  tick : Z
}.

(** [Trader.__init__] *)
Definition init : t := {| kelp_vwap := []; tick := 0 |}.

(** [Trader.kelp_strategy].  The first component of the value is
    [self.kelp_vwap] afterwards.  [int(a / b)] on integers is the quotient
    truncated towards zero; [take_spread] and [min_edge] are the whole
    numbers 3.0 and 2.0 at the only call. *)
Definition kelp_strategy (kelp_vwap : list vwap_entry) (product : string)
    (order_depth : OrderDepth) (timespan position position_limit take_spread min_edge : Z)
    : list vwap_entry * result (list Order) :=
  let orders : list Order := [] in
  if truthy (sell_orders order_depth) && truthy (buy_orders order_depth) then
    match
      (let* best_ask := py_min (keys (sell_orders order_depth)) in
       let* best_bid := py_max (keys (buy_orders order_depth)) in
       let* resting_ask := getitem_int (sell_orders order_depth) best_ask in
       let* bid_volume := getitem_int (buy_orders order_depth) best_bid in
       Ok (best_ask, best_bid, - resting_ask, bid_volume))
    with
    | Raise e => (kelp_vwap, Raise e)
    | Ok (best_ask, best_bid, ask_volume, bid_volume) =>
        let total_volume := ask_volume + bid_volume in
        let current_vwap :=
          if 0 <? total_volume then
            Z.quot (best_bid * ask_volume + best_ask * bid_volume) total_volume
          else (best_ask + best_bid) / 2 in
        let kelp_vwap :=
          kelp_vwap_update kelp_vwap (mkEntry current_vwap total_volume) timespan in
        (kelp_vwap,
         let weighted_vwap := foldr Z.add 0 ((fun x => vwap x * vol x) <$> kelp_vwap) in
         let total_vol := foldr Z.add 0 (vol <$> kelp_vwap) in
         let fair_value :=
           if 0 <? total_vol then Z.quot weighted_vwap total_vol else current_vwap in
         let spread := best_ask - best_bid in
         let* newest := getitem_last kelp_vwap in
         let* oldest := getitem_first kelp_vwap in
         let trend := vwap newest - vwap oldest in
         let orders :=
           if take_spread <=? spread then
             let orders :=
               if (best_ask <=? fair_value - min_edge) && (0 <=? trend) then
                 let quantity := Z.min ask_volume (position_limit - position) in
                 if 0 <? quantity then orders ++ [mkOrder product best_ask quantity]
                 else orders
               else orders in
             if (fair_value + min_edge <=? best_bid) && (trend <=? 0) then
               let quantity := Z.min bid_volume (position_limit + position) in
               if 0 <? quantity then orders ++ [mkOrder product best_bid (- quantity)]
               else orders
             else orders
           else orders in
         let baaf :=
           py_min_default
             (List.filter (fun p => fair_value + 1 <? p) (keys (sell_orders order_depth)))
             (fair_value + 2) in
         let bbbf :=
           py_max_default
             (List.filter (fun p => p <? fair_value - 1) (keys (buy_orders order_depth)))
             (fair_value - 2) in
         let buy_quantity := position_limit - position in
         let orders :=
           if 0 <? buy_quantity then orders ++ [mkOrder product (bbbf + 1) buy_quantity]
           else orders in
         let sell_quantity := position_limit + position in
         let orders :=
           if 0 <? sell_quantity then orders ++ [mkOrder product (baaf - 1) (- sell_quantity)]
           else orders in
         Ok orders)
    end
  else (kelp_vwap, Ok orders).

(** [Trader.run]: the trader afterwards and the [result] dictionary (its
    items in insertion order), or the exception a strategy raised. *)
Definition run (self : t) (state : TradingState)
    : t * result (list (string * list Order)) :=
  let res : list (string * list Order) := [] in
  let self := {| kelp_vwap := kelp_vwap self; tick := tick self + 1 |} in
  match
    match order_depths state !! RAINFOREST_RESIN with
    | Some order_depth =>
        let position := position_get state RAINFOREST_RESIN in
        let* orders :=
          resin_strategy RAINFOREST_RESIN order_depth 10000 2 position 50 in
        Ok (res ++ [(RAINFOREST_RESIN, orders)])
    | None => Ok res
    end
  with
  | Raise e => (self, Raise e)
  | Ok res =>
      match order_depths state !! KELP with
      | Some order_depth =>
          let position := position_get state KELP in
          let '(kelp_vwap, out) :=
            kelp_strategy (kelp_vwap self) KELP order_depth 12 position 50 3 2 in
          let self := {| kelp_vwap := kelp_vwap; tick := tick self |} in
          (self, let* orders := out in Ok (res ++ [(KELP, orders)]))
      | None => (self, Ok res)
      end
  end.

End TradeV16.

(** ** src/tutorial_round/trade_v17_vwap.py *)

Module TradeV17.

(** [Trader.fixed_resin_strategy].  [resin_tick] is [self.resin_tick] before
    the call; the first component of the result is its value afterwards. *)
Definition fixed_resin_strategy (resin_tick : Z) (product : string)
    (order_depth : OrderDepth) (position position_limit fair_value base_width : Z)
    : Z * result (list Order) :=
  let orders : list Order := [] in
  let resin_tick := resin_tick + 1 in
  let width := base_width + resin_tick / 1500 in
  (resin_tick,
   let* best_ask := py_min (keys (sell_orders order_depth)) in
   let* best_bid := py_max (keys (buy_orders order_depth)) in
   let* resting_ask := getitem_int (sell_orders order_depth) best_ask in
   let buy_volume := - resting_ask in
   let* sell_volume := getitem_int (buy_orders order_depth) best_bid in
   let orders :=
     if (best_ask <=? fair_value - width) && (position <? position_limit) then
       let qty := Z.min (position_limit - position) buy_volume in
       if 0 <? qty then orders ++ [mkOrder product best_ask qty] else orders
     else orders in
   let orders :=
     if (fair_value + width <=? best_bid) && (- position_limit <? position) then
       let qty := Z.min (position_limit + position) sell_volume in
       if 0 <? qty then orders ++ [mkOrder product best_bid (- qty)] else orders
     else orders in
   let bbbf :=
     py_max_default
       (List.filter (fun p => p <? fair_value - width) (keys (buy_orders order_depth)))
       (fair_value - width - 1) in
   let baaf :=
     py_min_default
       (List.filter (fun p => fair_value + width <? p) (keys (sell_orders order_depth)))
       (fair_value + width + 1) in
   let post_buy_qty := position_limit - position in
   let orders :=
     if 0 <? post_buy_qty then orders ++ [mkOrder product (bbbf + 1) post_buy_qty]
     else orders in
   let post_sell_qty := position_limit + position in
   let orders :=
     if 0 <? post_sell_qty then orders ++ [mkOrder product (baaf - 1) (- post_sell_qty)]
     else orders in
   Ok orders).

(** The fields of a [Trader] object ([kelp_price_history] is never used). *)
Record t := mkTrader {
  kelp_vwap_history : list R;
  resin_tick : Z
}.

(** [Trader.__init__] *)
Definition init : t := {| kelp_vwap_history := []; resin_tick := 0 |}.

(** [Trader.compute_vwap] *)
Definition compute_vwap (order_depth : OrderDepth) : result R :=
  let* best_ask := py_min (keys (sell_orders order_depth)) in
  let* best_bid := py_max (keys (buy_orders order_depth)) in
  let* resting_ask := getitem_int (sell_orders order_depth) best_ask in
  let ask_vol := - resting_ask in
  let* bid_vol := getitem_int (buy_orders order_depth) best_bid in
  let total_vol := ask_vol + bid_vol in
  Ok (if 0 <? total_vol then
        (IZR (best_ask * bid_vol + best_bid * ask_vol) / IZR total_vol)%R
      else (IZR (best_ask + best_bid) / 2)%R).

(** [Trader.kelp_momentum_strategy].  The first component of the value is
    [self.kelp_vwap_history] afterwards. *)
Definition kelp_momentum_strategy (kelp_vwap_history : list R) (product : string)
    (order_depth : OrderDepth) (position position_limit window : Z)
    (take_threshold momentum_threshold : R) : list R * result (list Order) :=
  let orders : list Order := [] in
  if negb (truthy (sell_orders order_depth)) || negb (truthy (buy_orders order_depth)) then
    (kelp_vwap_history, Ok orders)
  else
    match
      (let* best_ask := py_min (keys (sell_orders order_depth)) in
       let* best_bid := py_max (keys (buy_orders order_depth)) in
       let* vwap_now := compute_vwap order_depth in
       Ok (best_ask, best_bid, vwap_now))
    with
    | Raise e => (kelp_vwap_history, Raise e)
    | Ok (best_ask, best_bid, vwap_now) =>
        let kelp_vwap_history := kelp_vwap_history ++ [vwap_now] in
        let kelp_vwap_history :=
          if window <? Z.of_nat (length kelp_vwap_history) then tail kelp_vwap_history
          else kelp_vwap_history in
        (kelp_vwap_history,
         let* momentum :=
           if window <=? Z.of_nat (length kelp_vwap_history) then
             let* oldest := getitem_first kelp_vwap_history in Ok (vwap_now - oldest)%R
           else Ok 0%R in
         let* resting_ask := getitem_int (sell_orders order_depth) best_ask in
         let buy_volume := - resting_ask in
         let* sell_volume := getitem_int (buy_orders order_depth) best_bid in
         if Rlt_dec momentum_threshold momentum then
           if Rle_dec (IZR best_ask) (vwap_now - take_threshold)
           then
             if position <? position_limit then
               let qty := Z.min (position_limit - position) buy_volume in
               if 0 <? qty then Ok (orders ++ [mkOrder product best_ask qty]) else Ok orders
             else Ok orders
           else Ok orders
         else if Rlt_dec momentum (- momentum_threshold) then
           if Rle_dec (vwap_now + take_threshold) (IZR best_bid)
           then
             if - position_limit <? position then
               let qty := Z.min (position_limit + position) sell_volume in
               if 0 <? qty then Ok (orders ++ [mkOrder product best_bid (- qty)])
               else Ok orders
             else Ok orders
           else Ok orders
         else Ok orders)
    end.

(** [Trader.run]: the trader afterwards and the [result] dictionary (its
    items in insertion order), or the exception a strategy raised. *)
Definition run (self : t) (state : TradingState)
    : t * result (list (string * list Order)) :=
  let res : list (string * list Order) := [] in
  match
    match order_depths state !! RAINFOREST_RESIN with
    | Some order_depth =>
        let position := position_get state RAINFOREST_RESIN in
        let '(resin_tick, out) :=
          fixed_resin_strategy (resin_tick self) RAINFOREST_RESIN order_depth
            position 50 10000 2 in
        ({| kelp_vwap_history := kelp_vwap_history self; resin_tick := resin_tick |},
         let* orders := out in Ok (res ++ [(RAINFOREST_RESIN, orders)]))
    | None => (self, Ok res)
    end
  with
  | (self, Raise e) => (self, Raise e)
  | (self, Ok res) =>
      match order_depths state !! KELP with
      | Some order_depth =>
          let position := position_get state KELP in
          let '(kelp_vwap_history, out) :=
            kelp_momentum_strategy (kelp_vwap_history self) KELP order_depth
              position 50 6 (3 / 2) (3 / 10) in
          ({| kelp_vwap_history := kelp_vwap_history; resin_tick := resin_tick self |},
           let* orders := out in Ok (res ++ [(KELP, orders)]))
      | None => (self, Ok res)
      end
  end.

End TradeV17.

(** ** src/round_1/round_v_7.py *)

Module RoundV7.

(** The rolling window of [Trader.pendulum_strategy]:
    [history.append(mid_price)], then [history.pop(0)] when the list is
    longer than [self.maxlen]. *)
Definition history_update {A} (history : list A) (mid_price : A) (maxlen : Z) : list A :=
  let history := history ++ [mid_price] in
  if maxlen <? Z.of_nat (length history) then tail history else history.

(** [Trader.__init__]: [self.maxlen = 50]. *)
Definition maxlen : Z := 50.

End RoundV7.

(** ** numpy and math: the statistics the traders call *)

Module Numpy.

(** A [numpy.float64]: a finite value, [nan], or a signed infinity. *)
Inductive float64 :=
| Finite (r : R)
| NaN
| Inf (negative : bool).

Definition Rsum (xs : list R) : R := foldr Rplus 0%R xs.

(** [np.mean(xs)] *)
Definition mean (xs : list R) : R := (Rsum xs / INR (length xs))%R.

(** [np.std(xs)]: the population standard deviation. *)
Definition std (xs : list R) : R :=
  sqrt (mean ((fun x => ((x - mean xs) * (x - mean xs))%R) <$> xs)).

(** [a / b] on [numpy.float64] operands: a zero divisor raises nothing
    (numpy warns), the quotient is [nan] for [0 / 0] and a signed infinity
    otherwise. *)
Definition divide (a b : R) : float64 :=
  if Req_dec_T b 0 then
    if Req_dec_T a 0 then NaN
    else Inf (if Rlt_dec a 0 then true else false)
  else Finite (a / b).

(** [abs(z) > threshold], which is [False] for [nan]. *)
Definition abs_gt (z : float64) (threshold : R) : bool :=
  match z with
  | Finite r => if Rlt_dec threshold (Rabs r) then true else false
  | NaN => false
  | Inf _ => true
  end.

End Numpy.

(** ** src/round_2/round2_v_2.py *)

Module Round2V2.

(** [Trader.__init__]: [self.window = 20]. *)
Definition window : Z := 20.

(** [Trader.std_dev] *)
Definition std_dev (prices : list R) (mean : R) : R :=
  sqrt (Numpy.Rsum ((fun p => ((p - mean) * (p - mean))%R) <$> prices)
        / INR (length prices)).

(** The z-score of [Trader.run], lines 264 to 266:
    [mean = sum(history) / len(history)], [std = self.std_dev(history, mean)],
    [z = (mid - mean) / std if std > 0 else 0]. *)
Definition zscore (history : list R) (mid : R) : R :=
  let mean := (Numpy.Rsum history / INR (length history))%R in
  let std := std_dev history mean in
  if Rlt_dec 0 std then ((mid - mean) / std)%R else 0%R.

End Round2V2.

(** ** src/round_2/round2_v_1.py *)

Module Round2V1.

(** [StrategyParams.PICNIC] *)
Definition spread_window : Z := 20.
Definition zscore_threshold : R := 2%R.

(** The z-score of [Trader.trade_picnic_baskets], lines 225 to 227. *)
Definition zscore (spread_history : list R) (spread : R) : Numpy.float64 :=
  let spread_mean := Numpy.mean spread_history in
  let spread_std := Numpy.std spread_history in
  Numpy.divide (spread - spread_mean) spread_std.

(** Lines 217 to 230 of [Trader.trade_picnic_baskets] for one basket: the
    update of the spread history, the z-score once the window is full, and
    whether orders are generated.  The result is the history afterwards
    and, when the z-score was computed, its value and the outcome of
    [abs(zscore) > params["zscore_threshold"]]. *)
Definition basket_signal (spread_history : list R) (spread : R)
    : list R * option (Numpy.float64 * bool) :=
  let spread_history := spread_history ++ [spread] in
  let spread_history :=
    if spread_window <? Z.of_nat (length spread_history) then tail spread_history
    else spread_history in
  (spread_history,
   if spread_window <=? Z.of_nat (length spread_history) then
     let z := zscore spread_history spread in
     Some (z, Numpy.abs_gt z zscore_threshold)
   else None).

End Round2V1.

(** ** src/round_2/round2_v_3.py *)

Module Round2V3.

(** What [get_mid_price] returns: a Python [int] or a [float]. *)
Inductive number :=
| Int (z : Z)
| Float (r : R).

(** [Trader.get_mid_price].  On the way, [best_ask] is the least key of the
    sell side or the sentinel [float('inf')], and [best_bid] the greatest key
    of the buy side or [float('-inf')]; the keys are integers, so a
    comparison with a sentinel holds exactly when the side was empty.  [None]
    stands for the sentinel. *)
Definition get_mid_price (order_depth : OrderDepth) : result number :=
  let* best_ask :=
    if truthy (sell_orders order_depth) then
      let* m := py_min (keys (sell_orders order_depth)) in Ok (Some m)
    else Ok None in
  let* best_bid :=
    if truthy (buy_orders order_depth) then
      let* m := py_max (keys (buy_orders order_depth)) in Ok (Some m)
    else Ok None in
  match best_ask, best_bid with
  | None, None => Ok (Int 0)
  | None, Some best_bid => Ok (Int best_bid)
  | Some best_ask, None => Ok (Int best_ask)
  | Some best_ask, Some best_bid => Ok (Float (IZR (best_bid + best_ask) / 2))
  end.

End Round2V3.

(** ** Calls into the logger and into jsonpickle *)

Module Library.

(** The traders of round 1 and round 2 read [state.traderData], decode it
    with [jsonpickle] and end [run] with [logger.flush], which serialises the
    whole state.  These calls are not modelled; what they did during one
    [run] is given to the model:
    - [load] is the outcome of
      [if state.traderData: trader_data = jsonpickle.decode(state.traderData)]
      ([Ok] when the string is empty or decodes, the exception otherwise);
    - [flush res] is the outcome of the statements after the strategies,
      [logger.flush(state, result, ...)] and the [jsonpickle.encode] calls
      around it, when [result] is [res]. *)
Record calls := mkCalls {
  load : result unit;
  flush : list (string * list Order) -> result unit
}.

(** An empty [traderData] and a logger that returns. *)
Definition quiet : calls := {| load := Ok tt; flush := fun _ => Ok tt |}.

End Library.

(** ** src/round_1/round_v_5.py *)

Module RoundV5.

(** [self.historical_data]: per product, named lists of numbers (the
    timestamps are whole numbers, stored here as reals). *)
Definition history := gmap string (list R).

(** [Trader.__init__] *)
Definition init_historical_data : gmap string (gmap string (list R)) :=
  <[KELP := <["timestamps" := []]> (<["mid_prices" := []]> ∅)]>
  (<[SQUID_INK := <["timestamps" := []]> (<["spreads" := []]> ∅)]> ∅).

(** [StrategyParams.RESIN] and [StrategyParams.SQUID] *)
Definition resin_fair_value : Z := 10000.
Definition resin_take_width : Z := 2.
Definition resin_position_limit : Z := 50.
Definition squid_pair_symbol : string := KELP.
Definition squid_hedge_ratio : R := 1%R.
Definition squid_volatility_window : nat := 20.
Definition squid_stop_loss : R := (21 / 10)%R.
Definition squid_position_limit : Z := 50.

(** One round of the loop [for i in range(3)] of [trade_resin]. *)
Definition resin_round (product : string) (best_bid best_ask position : Z)
    (orders : list Order) (i : Z) : list Order :=
  let bid_price := resin_fair_value - resin_take_width - i in
  let ask_price := resin_fair_value + resin_take_width + i in
  let orders :=
    if (best_bid <? bid_price) && (position <? resin_position_limit) then
      orders ++ [mkOrder product bid_price (Z.min 10 (resin_position_limit - position))]
    else orders in
  if (ask_price <? best_ask) && (- resin_position_limit <? position) then
    orders ++ [mkOrder product ask_price (- Z.min 10 (resin_position_limit + position))]
  else orders.

(** [Trader.trade_resin] *)
Definition trade_resin (state : TradingState) : result (list Order) :=
  let product := RAINFOREST_RESIN in
  let position := position_get state product in
  let* order_depth := getitem (order_depths state) product in
  let* best_bid :=
    if truthy (buy_orders order_depth) then py_max (keys (buy_orders order_depth))
    else Ok (resin_fair_value - 2) in
  let* best_ask :=
    if truthy (sell_orders order_depth) then py_min (keys (sell_orders order_depth))
    else Ok (resin_fair_value + 2) in
  Ok (foldl (resin_round product best_bid best_ask position) [] [0; 1; 2]).

(** [hist[name].append(x)], where [hist] is [historical_data[product]]:
    the list is changed in place, inside [self.historical_data]. *)
Definition hist_append (historical_data : gmap string history)
    (product name : string) (x : R) : gmap string history * result unit :=
  match historical_data !! product with
  | None => (historical_data, Raise (KeyError (StrKey product)))
  | Some hist =>
      match hist !! name with
      | None => (historical_data, Raise (KeyError (StrKey name)))
      | Some xs => (<[product := <[name := xs ++ [x]]> hist]> historical_data, Ok tt)
      end
  end.

(** [Trader.trade_kelp].  The name [params] is bound nowhere in this method
    nor in the module, so the first statement that reads it raises
    [NameError]. *)
Definition trade_kelp (historical_data : gmap string history) (state : TradingState)
    : gmap string history * result (list Order) :=
  let product := KELP in
  match getitem (order_depths state) product with
  | Raise e => (historical_data, Raise e)
  | Ok order_depth =>
      match (let* best_ask := py_min (keys (sell_orders order_depth)) in
             let* best_bid := py_max (keys (buy_orders order_depth)) in
             Ok (IZR (best_ask + best_bid) / 2)%R) with
      | Raise ValueError => (historical_data, Ok [])
      | Raise e => (historical_data, Raise e)
      | Ok mid_price =>
          (* self.historical_data.setdefault(product, {...}) *)
          let historical_data :=
            match historical_data !! product with
            | Some _ => historical_data
            | None =>
                <[product := <["prices" := []]> (<["highs" := []]>
                               (<["lows" := []]> (<["atr" := []]> ∅)))]> historical_data
            end in
          match hist_append historical_data product "prices" mid_price with
          | (historical_data, Raise e) => (historical_data, Raise e)
          | (historical_data, Ok _) =>
              match hist_append historical_data product "highs" mid_price with
              | (historical_data, Raise e) => (historical_data, Raise e)
              | (historical_data, Ok _) =>
                  match hist_append historical_data product "lows" mid_price with
                  | (historical_data, Raise e) => (historical_data, Raise e)
                  | (historical_data, Ok _) =>
                      (* hist['prices'] = hist['prices'][-params["window_size"]:] *)
                      (historical_data, Raise (NameError "params"))
                  end
              end
          end
      end
  end.

(** [Trader.trade_squid] *)
Definition trade_squid (historical_data : gmap string history) (state : TradingState)
    : gmap string history * result (list Order) :=
  let product := SQUID_INK in
  let position := position_get state product in
  let pair_depth :=
    default (mkOrderDepth ∅ ∅) (order_depths state !! squid_pair_symbol) in
  match getitem (order_depths state) product with
  | Raise e => (historical_data, Raise e)
  | Ok depth =>
      let squid_bid := py_max_default (keys (buy_orders depth)) 0 in
      let pair_ask := py_min_default (keys (sell_orders pair_depth)) 0 in
      if (squid_bid =? 0) || (pair_ask =? 0) then (historical_data, Ok [])
      else
        let spread := (IZR squid_bid - squid_hedge_ratio * IZR pair_ask)%R in
        match hist_append historical_data product "timestamps" (IZR (timestamp state)) with
        | (historical_data, Raise e) => (historical_data, Raise e)
        | (historical_data, Ok _) =>
            match hist_append historical_data product "spreads" spread with
            | (historical_data, Raise e) => (historical_data, Raise e)
            | (historical_data, Ok _) =>
                let all_spreads :=
                  default [] (default ∅ (historical_data !! product) !! "spreads") in
                let spreads :=
                  drop (length all_spreads - squid_volatility_window)%nat all_spreads in
                if (length spreads <? 2)%nat then (historical_data, Ok [])
                else
                  let spread_mean := Numpy.mean spreads in
                  let spread_std := Numpy.std spreads in
                  if Req_dec_T spread_std 0 then (historical_data, Ok [])
                  else
                    let spread_z := ((spread - spread_mean) / spread_std)%R in
                    let max_size := Z.min (squid_position_limit - Z.abs position) 10 in
                    if Rlt_dec squid_stop_loss spread_z then
                      (historical_data, Ok [mkOrder product (squid_bid - 1) (- max_size)])
                    else if Rlt_dec spread_z (- squid_stop_loss) then
                      (historical_data, Ok [mkOrder product (squid_bid + 1) max_size])
                    else (historical_data, Ok [])
            end
        end
  end.

(** A strategy method as [run] calls it: it may change
    [self.historical_data], and returns orders or raises. *)
Definition policy :=
  gmap string history -> TradingState -> gmap string history * result (list Order).

(** [result[product] = orders] on the dictionary [result], kept as its
    items in insertion order. *)
Fixpoint dict_set (res : list (string * list Order)) (product : string)
    (orders : list Order) : list (string * list Order) :=
  match res with
  | [] => [(product, orders)]
  | (k, v) :: rest =>
      if String.eqb k product then (k, orders) :: rest
      else (k, v) :: dict_set rest product orders
  end.

(** One statement of the [try] block of [run]:
    [if product in state.order_depths: result[product] = self.trade_x(state)]. *)
Definition run_product (product : string) (trade : policy) (state : TradingState)
    (historical_data : gmap string history) (res : list (string * list Order))
    : gmap string history * list (string * list Order) * result unit :=
  match order_depths state !! product with
  | None => (historical_data, res, Ok tt)
  | Some _ =>
      match trade historical_data state with
      | (historical_data, Ok orders) => (historical_data, dict_set res product orders, Ok tt)
      | (historical_data, Raise e) => (historical_data, res, Raise e)
      end
  end.

(** [Trader.run], with the three strategy methods it calls as arguments.
    The decoding of [state.traderData] and the strategies are one [try]
    block: the first exception leaves it, the handler [except Exception]
    logs, and [run] goes on with the [result] dictionary as it stands.  (The
    last statement of the block, [trader_data['historical_data'] = ...],
    changes [trader_data] only.)  After the block comes [logger.flush], whose
    exception nothing catches.  The value is [self.historical_data]
    afterwards and what [run] returns: [result], or the exception of the
    flush. *)
Definition run_with (calls : Library.calls) (trade_resin trade_kelp trade_squid : policy)
    (historical_data : gmap string history) (state : TradingState)
    : gmap string history * result (list (string * list Order)) :=
  let res : list (string * list Order) := [] in
  let '(historical_data, res) :=
    match Library.load calls with
    | Raise _ => (historical_data, res)
    | Ok _ =>
        match run_product RAINFOREST_RESIN trade_resin state historical_data res with
        | (historical_data, res, Raise _) => (historical_data, res)
        | (historical_data, res, Ok _) =>
            match run_product KELP trade_kelp state historical_data res with
            | (historical_data, res, Raise _) => (historical_data, res)
            | (historical_data, res, Ok _) =>
                match run_product SQUID_INK trade_squid state historical_data res with
                | (historical_data, res, _) => (historical_data, res)
                end
            end
        end
    end in
  (historical_data, let* _ := Library.flush calls res in Ok res).

(** [Trader.run] *)
Definition run (calls : Library.calls) : gmap string history -> TradingState
    -> gmap string history * result (list (string * list Order)) :=
  run_with calls (fun historical_data state => (historical_data, trade_resin state))
           trade_kelp trade_squid.

End RoundV5.

(** ** More of the Python runtime: [int] of a float, slices, sorted items *)

Module PyMore.

(** [int(x)] on a float: truncation towards zero. *)
Definition py_int (x : R) : Z :=
  if Rle_dec 0 x then Int_part x else - Int_part (- x).

(** [math.floor(x)] and [math.ceil(x)]. *)
Definition py_floor (x : R) : Z := Int_part x.
Definition py_ceil (x : R) : Z := - Int_part (- x).

(** [xs[:stop]]: a negative [stop] counts from the end. *)
Definition slice_to {A} (xs : list A) (stop : Z) : list A :=
  if 0 <=? stop then take (Z.to_nat stop) xs
  else take (length xs - Z.to_nat (- stop)) xs.

(** [sorted(d.items())] and [sorted(d.items(), reverse=True)]: the keys are
    distinct, so the pairs are ordered by key. *)
Definition key_le (x y : Z * Z) : Prop := x.1 <= y.1.
Definition key_ge (x y : Z * Z) : Prop := y.1 <= x.1.

#[export] Instance key_le_dec : RelDecision key_le := fun x y => Z_le_dec x.1 y.1.
#[export] Instance key_ge_dec : RelDecision key_ge := fun x y => Z_le_dec y.1 x.1.

Definition sorted_items (d : gmap Z Z) : list (Z * Z) :=
  merge_sort key_le (map_to_list d).

Definition sorted_items_reverse (d : gmap Z Z) : list (Z * Z) :=
  merge_sort key_ge (map_to_list d).

(** [x < y] and [x <= y] on floats, as truth values. *)
Definition Rltb (x y : R) : bool := if Rlt_dec x y then true else false.
Definition Rleb (x y : R) : bool := if Rle_dec x y then true else false.

(** Comparisons of a [numpy.float64] with a float: [False] on [nan]. *)
Definition float64_gt (z : Numpy.float64) (x : R) : bool :=
  match z with
  | Numpy.Finite r => if Rlt_dec x r then true else false
  | Numpy.NaN => false
  | Numpy.Inf negative => negb negative
  end.

Definition float64_lt (z : Numpy.float64) (x : R) : bool :=
  match z with
  | Numpy.Finite r => if Rlt_dec r x then true else false
  | Numpy.NaN => false
  | Numpy.Inf negative => negative
  end.

End PyMore.

Import PyMore.

(** ** Logger.truncate (src/round_2/round2_v_3.py; the same in the other
    traders that log) *)

Module Logger.

(** [Logger.truncate]: a string is a list of characters. *)
Definition truncate (value : list Ascii.ascii) (max_length : Z) : list Ascii.ascii :=
  if max_length <? Z.of_nat (length value) then
    slice_to value (max_length - 3) ++ String.list_ascii_of_string "..."
  else value.

End Logger.

(** ** src/round_2/round2_v_3.py: order sizing and hedging *)

Module Round2V3Orders.

(** [Trader.POSITION_LIMITS] *)
Definition POSITION_LIMITS : gmap string Z :=
  <["CROISSANTS" := 250]> (<["JAMS" := 350]> (<["DJEMBES" := 60]>
    (<["PICNIC_BASKET1" := 60]> (<["PICNIC_BASKET2" := 100]> ∅)))).

(** [Trader.calculate_safe_quantity] *)
Definition calculate_safe_quantity (limit current_position : Z) (short : bool)
    (spread_z : R) : Z :=
  let max_qty := if negb short then limit - current_position
                 else limit + current_position in
  let base_qty := Z.max 1 (py_int (IZR max_qty * (2 / 10))) in
  let z_adjusted := Z.max 1 (py_int (IZR base_qty * (Rabs spread_z / 2))) in
  Z.min max_qty z_adjusted.

(** One round of the loop of [Trader.hedge_components]. *)
Definition hedge_component (qty : Z) (order_depths : gmap string OrderDepth)
    (positions : gmap string Z) (buy_components : bool)
    (component_orders : list (string * list Order)) (component : string * Z)
    : result (list (string * list Order)) :=
  let '(product, weight) := component in
  let position := default 0 (positions !! product) in
  let* limit := getitem POSITION_LIMITS product in
  let hedge_qty := weight * qty in
  let max_available := if buy_components then limit - position else limit + position in
  let* depth := getitem order_depths product in
  let best_order := if buy_components then buy_orders depth else sell_orders depth in
  if truthy best_order then
    let* price :=
      if buy_components then py_max (keys best_order) else py_min (keys best_order) in
    let* available_qty := getitem_int best_order price in
    let qty_to_order := Z.min (Z.min hedge_qty available_qty) max_available in
    if 0 <? qty_to_order then
      Ok (RoundV5.dict_set component_orders product [mkOrder product price qty_to_order])
    else Ok component_orders
  else Ok component_orders.

Fixpoint hedge_loop (qty : Z) (order_depths : gmap string OrderDepth)
    (positions : gmap string Z) (buy_components : bool)
    (component_orders : list (string * list Order)) (todo : list (string * Z))
    : result (list (string * list Order)) :=
  match todo with
  | [] => Ok component_orders
  | component :: rest =>
      let* component_orders :=
        hedge_component qty order_depths positions buy_components
          component_orders component in
      hedge_loop qty order_depths positions buy_components component_orders rest
  end.

(** [Trader.hedge_components]: the dictionary it returns, as its items in
    insertion order. *)
Definition hedge_components (components : list string) (weights : list Z) (qty : Z)
    (order_depths : gmap string OrderDepth) (positions : gmap string Z)
    (buy_components : bool) : result (list (string * list Order)) :=
  hedge_loop qty order_depths positions buy_components [] (zip components weights).

End Round2V3Orders.

(** ** src/round_2/round2_v_2.py: taking the best orders *)

Module Round2V2Orders.

(** The loop of [Trader.take_best_order] over the sorted book. *)
Fixpoint take_loop (symbol : string) (is_buy : bool) (sorted_book : list (Z * Z))
    (max_qty : Z) (orders : list Order) : list Order :=
  match sorted_book with
  | [] => orders
  | (price, qty) :: rest =>
      let take_qty := Z.min (Z.abs qty) max_qty in
      if take_qty <=? 0 then orders
      else
        take_loop symbol is_buy rest (max_qty - take_qty)
          (orders ++ [mkOrder symbol price (if is_buy then take_qty else - take_qty)])
  end.

(** [Trader.take_best_order] *)
Definition take_best_order (symbol : string) (depth : OrderDepth) (is_buy : bool)
    (max_qty : Z) : list Order :=
  let book := if is_buy then sell_orders depth else buy_orders depth in
  let sorted_book := if is_buy then sorted_items book else sorted_items_reverse book in
  take_loop symbol is_buy sorted_book max_qty [].

(** [Trader.clear_position] *)
Definition clear_position (symbol : string) (depth : OrderDepth) (position : Z)
    : list Order :=
  if position =? 0 then []
  else take_best_order symbol depth (position <? 0) (Z.abs position).

End Round2V2Orders.

(** ** src/round_2/round2_v_1.py: the synthetic basket *)

Module Round2V1Basket.

(** [Trader.__init__]: [self.position_limits] *)
Definition position_limits : gmap string Z :=
  <["PICNIC_BASKET1" := 60]> (<["PICNIC_BASKET2" := 100]> (<["CROISSANT" := 250]>
    (<["JAM" := 350]> (<["DJEMBE" := 60]> (<[RAINFOREST_RESIN := 50]>
      (<[KELP := 50]> (<[SQUID_INK := 50]> ∅))))))).

(** [StrategyParams.PICNIC]: the components of the two baskets, in the order
    of the dictionaries, and the order size. *)
Definition basket1_components : list (string * Z) :=
  [("CROISSANT", 6); ("JAM", 3); ("DJEMBE", 1)].
Definition basket2_components : list (string * Z) := [("CROISSANT", 4); ("JAM", 2)].
Definition max_order_size : Z := 5.

(** The loop of [Trader.calculate_synthetic_price]; [None] is Python's
    [None]. *)
Fixpoint synthetic_loop (order_depths : gmap string OrderDepth)
    (components : list (string * Z)) (synthetic : R) : result (option R) :=
  match components with
  | [] => Ok (Some synthetic)
  | (product, quantity) :: rest =>
      match order_depths !! product with
      | None => Ok None
      | Some depth =>
          if negb (truthy (buy_orders depth)) || negb (truthy (sell_orders depth))
          then Ok None
          else
            let* best_bid := py_max (keys (buy_orders depth)) in
            let* best_ask := py_min (keys (sell_orders depth)) in
            synthetic_loop order_depths rest
              (synthetic + IZR (best_bid + best_ask) / 2 * IZR quantity)%R
      end
  end.

(** [Trader.calculate_synthetic_price] *)
Definition calculate_synthetic_price (order_depths : gmap string OrderDepth)
    (components : list (string * Z)) : result (option R) :=
  synthetic_loop order_depths components 0%R.

(** [Trader.get_mid_price] *)
Definition get_mid_price (order_depth : OrderDepth) : result (option R) :=
  if truthy (buy_orders order_depth) && truthy (sell_orders order_depth) then
    let* lowest := py_min (keys (sell_orders order_depth)) in
    let* highest := py_max (keys (buy_orders order_depth)) in
    Ok (Some (IZR (lowest + highest) / 2)%R)
  else Ok None.

(** The loops over the components in [Trader.generate_arb_orders]:
    [buy] tells the branch (buying the components after selling the
    basket, or the reverse). *)
Fixpoint component_legs (state : TradingState) (buy : bool) (qty : Z)
    (components : list (string * Z)) (component_orders : list (string * list Order))
    : result (list (string * list Order)) :=
  match components with
  | [] => Ok component_orders
  | (product, quantity) :: rest =>
      let* depth := getitem (order_depths state) product in
      let* best :=
        if buy then py_min (keys (sell_orders depth))
        else py_max (keys (buy_orders depth)) in
      let comp_qty := quantity * qty in
      let* limit := getitem position_limits product in
      let comp_qty :=
        if buy then Z.min comp_qty (limit - position_get state product)
        else Z.min comp_qty (limit + position_get state product) in
      let component_orders :=
        if 0 <? comp_qty then
          let existing :=
            default [] (snd <$> List.find (fun kv => String.eqb kv.1 product)
                                  component_orders) in
          RoundV5.dict_set component_orders product
            (existing ++ [mkOrder product best (if buy then comp_qty else - comp_qty)])
        else component_orders in
      component_legs state buy qty rest component_orders
  end.

(** [Trader.generate_arb_orders]: the basket orders and the component
    orders.  ([spread] and [params] beyond its threshold and order size are
    not read.) *)
Definition generate_arb_orders (state : TradingState) (basket : string)
    (components : list (string * Z)) (position : Z) (zscore : Numpy.float64)
    : result (list Order * list (string * list Order)) :=
  if float64_gt zscore Round2V1.zscore_threshold then
    let* depth := getitem (order_depths state) basket in
    let* best_bid := py_max (keys (buy_orders depth)) in
    let* limit := getitem position_limits basket in
    let qty := Z.min max_order_size (limit + position) in
    let basket_orders := [mkOrder basket best_bid (- qty)] in
    let* component_orders := component_legs state true qty components [] in
    Ok (basket_orders, component_orders)
  else if float64_lt zscore (- Round2V1.zscore_threshold) then
    let* depth := getitem (order_depths state) basket in
    let* best_ask := py_min (keys (sell_orders depth)) in
    let* limit := getitem position_limits basket in
    let qty := Z.min max_order_size (limit - position) in
    let basket_orders := [mkOrder basket best_ask qty] in
    let* component_orders := component_legs state false qty components [] in
    Ok (basket_orders, component_orders)
  else Ok ([], []).

End Round2V1Basket.

(** ** src/round_1/round_v_7.py: the strategies and [run] *)

Module RoundV7Trader.

(** [statistics.stdev(xs)]: the sample standard deviation. *)
Definition stdev (xs : list R) : R :=
  let m := Numpy.mean xs in
  sqrt (Numpy.Rsum ((fun x => ((x - m) * (x - m))%R) <$> xs) / (INR (length xs) - 1)).

(** [xs[-k]] on a list that holds [k] elements at least. *)
Definition from_end (xs : list R) (k : nat) : R := nth (length xs - k) xs 0%R.

(** The trader: [self.history] and [self.tick]. *)
Record t := mkTrader {
  history : gmap string (list R);
  tick : Z
}.

(** [Trader.__init__] *)
Definition init : t :=
  {| history := <[KELP := []]> (<[SQUID_INK := []]> ∅); tick := 0 |}.

(** [Trader.pendulum_strategy]: [self.history] afterwards, and the orders. *)
Definition pendulum_strategy (history : gmap string (list R)) (product : string)
    (order_depth : OrderDepth) (position limit : Z)
    : gmap string (list R) * result (list Order) :=
  let orders : list Order := [] in
  match history !! product with
  | None => (history, Raise (KeyError (StrKey product)))
  | Some hist =>
      if truthy (buy_orders order_depth) && truthy (sell_orders order_depth) then
        match (let* best_bid := py_max (keys (buy_orders order_depth)) in
               let* best_ask := py_min (keys (sell_orders order_depth)) in
               Ok (best_bid, best_ask)) with
        | Raise e => (history, Raise e)
        | Ok (best_bid, best_ask) =>
            let mid_price := (IZR (best_bid + best_ask) / 2)%R in
            let hist := RoundV7.history_update hist mid_price RoundV7.maxlen in
            let history := <[product := hist]> history in
            let momentum :=
              if (3 <=? length hist)%nat then (from_end hist 1 - from_end hist 3)%R
              else 0%R in
            let price_std :=
              if (10 <=? length hist)%nat then stdev (drop (length hist - 10) hist)
              else 1%R in
            let edge := Z.max 1 (py_int (price_std * (8 / 10))) in
            let fair := (Numpy.Rsum hist / INR (length hist))%R in
            let buy_qty := Z.max 0 (limit - position) in
            let sell_qty := Z.max 0 (position + limit) in
            let orders :=
              if Rltb momentum (-1) && Rltb (IZR best_ask) (fair - IZR edge)
                 && (0 <? buy_qty)
              then orders ++ [mkOrder product best_ask buy_qty]
              else if Rltb 1 momentum && Rltb (fair + IZR edge) (IZR best_bid)
                      && (0 <? sell_qty)
              then orders ++ [mkOrder product best_bid (- sell_qty)]
              else orders in
            let passive_buy_price := best_bid - 1 in
            let passive_sell_price := best_ask + 1 in
            let orders :=
              if 0 <? buy_qty then orders ++ [mkOrder product passive_buy_price (buy_qty / 2)]
              else orders in
            let orders :=
              if 0 <? sell_qty
              then orders ++ [mkOrder product passive_sell_price (- sell_qty / 2)]
              else orders in
            (history, Ok orders)
        end
      else (history, Ok orders)
  end.

(** [Trader.resin_strategy]; [width] is a float (1.8 at its call). *)
Definition resin_strategy (order_depth : OrderDepth) (fair_value : Z) (width : R)
    (position position_limit : Z) : result (list Order) :=
  let orders : list Order := [] in
  let buy_qty := Z.max 0 (position_limit - position) in
  let sell_qty := Z.max 0 (position + position_limit) in
  let* orders :=
    if truthy (sell_orders order_depth) then
      let* best_ask := py_min (keys (sell_orders order_depth)) in
      if Rleb (IZR best_ask) (IZR fair_value - width) && (0 <? buy_qty) then
        let* volume := getitem_int (sell_orders order_depth) best_ask in
        Ok (orders ++ [mkOrder RAINFOREST_RESIN best_ask (Z.min (- volume) buy_qty)])
      else Ok orders
    else Ok orders in
  if truthy (buy_orders order_depth) then
    let* best_bid := py_max (keys (buy_orders order_depth)) in
    if Rleb (IZR fair_value + width) (IZR best_bid) && (0 <? sell_qty) then
      let* volume := getitem_int (buy_orders order_depth) best_bid in
      Ok (orders ++ [mkOrder RAINFOREST_RESIN best_bid (- Z.min volume sell_qty)])
    else Ok orders
  else Ok orders.

(** One of the two statements of [run] that call [pendulum_strategy]:
    [if product in state.order_depths: result[product] = ...]. *)
Definition run_pendulum (product : string) (state : TradingState) (position : Z)
    (history : gmap string (list R)) (res : list (string * list Order))
    : gmap string (list R) * result (list (string * list Order)) :=
  match order_depths state !! product with
  | Some order_depth =>
      let '(history, out) := pendulum_strategy history product order_depth position 50 in
      (history, let* orders := out in Ok (RoundV5.dict_set res product orders))
  | None => (history, Ok res)
  end.

(** [Trader.run]: the trader afterwards and the [result] dictionary (its
    items in insertion order), or the exception a strategy or the final
    [logger.flush(state, result, 1, "")] raised. *)
Definition run (calls : Library.calls) (self : t) (state : TradingState)
    : t * result (list (string * list Order)) :=
  let res : list (string * list Order) := [] in
  let tick := tick self + 1 in
  let kelp_pos := position_get state KELP in
  let squid_pos := position_get state SQUID_INK in
  let resin_pos := position_get state RAINFOREST_RESIN in
  match run_pendulum KELP state kelp_pos (history self) res with
  | (history, Raise e) => ({| history := history; tick := tick |}, Raise e)
  | (history, Ok res) =>
      match run_pendulum SQUID_INK state squid_pos history res with
      | (history, Raise e) => ({| history := history; tick := tick |}, Raise e)
      | (history, Ok res) =>
          ({| history := history; tick := tick |},
           let* res :=
             match order_depths state !! RAINFOREST_RESIN with
             | Some order_depth =>
                 let* orders := resin_strategy order_depth 10000 (18 / 10) resin_pos 50 in
                 Ok (RoundV5.dict_set res RAINFOREST_RESIN orders)
             | None => Ok res
             end in
           let* _ := Library.flush calls res in
           Ok res)
      end
  end.

End RoundV7Trader.

(** ** src/tutorial_round/trade.py *)

Module TradeTutorial.

Definition PRODUCTS : list string := [RAINFOREST_RESIN; KELP].

Definition DEFAULT_PRICES : gmap string Z :=
  <[RAINFOREST_RESIN := 10000]> (<[KELP := 10000]> ∅).

(** [Trader.__init__]: [self.position_limit] and [self.ema_param]. *)
Definition position_limit : gmap string Z :=
  <[RAINFOREST_RESIN := 50]> (<[KELP := 50]> ∅).
Definition ema_param : R := (1 / 2)%R.

(** The trader: [self.round] and [self.ema_prices].  ([self.cash] and
    [self.past_prices] are set by [__init__] and never used again.) *)
Record t := mkTrader {
  round : Z;
  ema_prices : gmap string R
}.

(** [Trader.__init__] *)
Definition init : t :=
  {| round := 0;
     ema_prices := <[RAINFOREST_RESIN := 10000%R]> (<[KELP := 10000%R]> ∅) |}.

(** [Trader.get_mid_price].  An [OrderDepth] object is always true, so
    [not order_depth] holds only when the product has no book. *)
Definition get_mid_price (ema_prices : gmap string R) (product : string)
    (state : TradingState) : result R :=
  let* default_price := getitem ema_prices product in
  match order_depths state !! product with
  | None => Ok default_price
  | Some order_depth =>
      let* best_bid :=
        if truthy (buy_orders order_depth)
        then let* b := py_max (keys (buy_orders order_depth)) in Ok (IZR b)
        else Ok default_price in
      let* best_ask :=
        if truthy (sell_orders order_depth)
        then let* a := py_min (keys (sell_orders order_depth)) in Ok (IZR a)
        else Ok default_price in
      Ok ((best_bid + best_ask) / 2)%R
  end.

(** [Trader.update_ema_prices], over the products still to do:
    [self.ema_prices] afterwards, and the exception if one was raised. *)
Fixpoint update_ema_prices (ema_prices : gmap string R) (state : TradingState)
    (products : list string) : gmap string R * result unit :=
  match products with
  | [] => (ema_prices, Ok tt)
  | product :: rest =>
      match (let* mid_price := get_mid_price ema_prices product state in
             let* previous := getitem ema_prices product in
             Ok (ema_param * mid_price + (1 - ema_param) * previous)%R) with
      | Raise e => (ema_prices, Raise e)
      | Ok ema => update_ema_prices (<[product := ema]> ema_prices) state rest
      end
  end.

(** [Trader.resin_strategy] *)
Definition resin_strategy (state : TradingState) : result (list Order) :=
  let position := position_get state RAINFOREST_RESIN in
  let* limit := getitem position_limit RAINFOREST_RESIN in
  let bid_volume := limit - position in
  let* limit := getitem position_limit RAINFOREST_RESIN in
  let ask_volume := - limit - position in
  let* bid_base := getitem DEFAULT_PRICES RAINFOREST_RESIN in
  let* ask_base := getitem DEFAULT_PRICES RAINFOREST_RESIN in
  Ok [mkOrder RAINFOREST_RESIN (bid_base - 1) bid_volume;
      mkOrder RAINFOREST_RESIN (ask_base + 1) ask_volume].

(** [Trader.kelp_strategy] *)
Definition kelp_strategy (ema_prices : gmap string R) (state : TradingState)
    : result (list Order) :=
  let position := position_get state KELP in
  let* current_ema := getitem ema_prices KELP in
  let orders : list Order := [] in
  let* limit := getitem position_limit KELP in
  let bid_volume := limit - position in
  let* limit := getitem position_limit KELP in
  let ask_volume := - limit - position in
  if position =? 0 then
    Ok (orders ++ [mkOrder KELP (py_floor (current_ema - 1)) bid_volume]
               ++ [mkOrder KELP (py_ceil (current_ema + 1)) ask_volume])
  else if 0 <? position then
    Ok (orders ++ [mkOrder KELP (py_floor (current_ema - 2)) bid_volume]
               ++ [mkOrder KELP (py_ceil current_ema) ask_volume])
  else
    Ok (orders ++ [mkOrder KELP (py_floor current_ema) bid_volume]
               ++ [mkOrder KELP (py_ceil (current_ema + 2)) ask_volume]).

(** [Trader.run]: the EMA update stands outside the [try] blocks, each
    strategy inside its own.  (The [print] calls are left out.) *)
Definition run (self : t) (state : TradingState)
    : t * result (list (string * list Order)) :=
  let round := round self + 1 in
  match update_ema_prices (ema_prices self) state PRODUCTS with
  | (ema_prices, Raise e) => ({| round := round; ema_prices := ema_prices |}, Raise e)
  | (ema_prices, Ok _) =>
      let res : list (string * list Order) := [] in
      let res :=
        match resin_strategy state with
        | Ok orders => RoundV5.dict_set res RAINFOREST_RESIN orders
        | Raise _ => res
        end in
      let res :=
        match kelp_strategy ema_prices state with
        | Ok orders => RoundV5.dict_set res KELP orders
        | Raise _ => res
        end in
      ({| round := round; ema_prices := ema_prices |}, Ok res)
  end.

End TradeTutorial.

(** * Properties *)

(** ** Dictionary keys, [min] and [max] *)

Section PyFacts.

Context {V : Type}.
Implicit Types (d : gmap Z V) (xs : list Z).

Lemma elem_of_keys d k : k ∈ keys d <-> is_Some (d !! k).
Proof.
  unfold keys. rewrite list_elem_of_fmap. split.
  - intros [[k' v] [-> Hin]]. apply elem_of_map_to_list in Hin. eauto.
  - intros [v Hv]. exists (k, v). split; [done|]. by apply elem_of_map_to_list.
Qed.

Lemma keys_nil d : keys d = [] <-> d = ∅.
Proof.
  unfold keys. split.
  - intros H. apply fmap_nil_inv in H. by apply map_to_list_empty_iff.
  - intros ->. by rewrite map_to_list_empty.
Qed.

Lemma truthy_keys d : truthy d = true <-> keys d <> [].
Proof.
  unfold truthy, keys. destruct (map_to_list d); simpl; split; congruence.
Qed.

Lemma truthy_false d : truthy d = false <-> d = ∅.
Proof.
  rewrite <- keys_nil. unfold truthy, keys.
  destruct (map_to_list d); simpl; split; congruence.
Qed.

Lemma foldl_min_spec xs x :
  foldl Z.min x xs ∈ x :: xs /\ forall y, y ∈ x :: xs -> foldl Z.min x xs <= y.
Proof.
  revert x. induction xs as [|z xs IH]; intros x; simpl.
  - split; [left|]. intros y Hy. apply list_elem_of_singleton in Hy. lia.
  - destruct (IH (Z.min x z)) as [Hin Hle]. split.
    + apply elem_of_cons in Hin as [Heq|Hin].
      * rewrite Heq. destruct (Z.min_spec x z) as [[_ ->]|[_ ->]];
          [left | right; left].
      * right; by right.
    + intros y Hy. apply elem_of_cons in Hy as [->|Hy].
      * specialize (Hle (Z.min x z)). etrans; [apply Hle; left | lia].
      * apply elem_of_cons in Hy as [->|Hy].
        -- etrans; [apply Hle; left | lia].
        -- apply Hle. by right.
Qed.

Lemma foldl_max_spec xs x :
  foldl Z.max x xs ∈ x :: xs /\ forall y, y ∈ x :: xs -> y <= foldl Z.max x xs.
Proof.
  revert x. induction xs as [|z xs IH]; intros x; simpl.
  - split; [left|]. intros y Hy. apply list_elem_of_singleton in Hy. lia.
  - destruct (IH (Z.max x z)) as [Hin Hle]. split.
    + apply elem_of_cons in Hin as [Heq|Hin].
      * rewrite Heq. destruct (Z.max_spec x z) as [[_ ->]|[_ ->]];
          [right; left | left].
      * right; by right.
    + intros y Hy. apply elem_of_cons in Hy as [->|Hy].
      * specialize (Hle (Z.max x z)). etrans; [|apply Hle; left]. lia.
      * apply elem_of_cons in Hy as [->|Hy].
        -- etrans; [|apply Hle; left]. lia.
        -- apply Hle. by right.
Qed.

Lemma py_min_Ok xs m :
  py_min xs = Ok m <-> m ∈ xs /\ forall y, y ∈ xs -> m <= y.
Proof.
  destruct xs as [|x xs]; simpl.
  - split; [done|]. intros [H _]. by apply elem_of_nil in H.
  - destruct (foldl_min_spec xs x) as [Hin Hle]. split.
    + intros [= <-]. done.
    + intros [Hm Hmin]. f_equal. apply Z.le_antisymm; [by apply Hle | by apply Hmin].
Qed.

Lemma py_max_Ok xs m :
  py_max xs = Ok m <-> m ∈ xs /\ forall y, y ∈ xs -> y <= m.
Proof.
  destruct xs as [|x xs]; simpl.
  - split; [done|]. intros [H _]. by apply elem_of_nil in H.
  - destruct (foldl_max_spec xs x) as [Hin Hle]. split.
    + intros [= <-]. done.
    + intros [Hm Hmax]. f_equal. apply Z.le_antisymm; [by apply Hmax | by apply Hle].
Qed.

Lemma py_min_Raise xs e : py_min xs = Raise e <-> xs = [] /\ e = ValueError.
Proof.
  destruct xs; simpl; split.
  - by intros [= <-].
  - by intros [_ ->].
  - done.
  - by intros [? _].
Qed.

Lemma py_max_Raise xs e : py_max xs = Raise e <-> xs = [] /\ e = ValueError.
Proof.
  destruct xs; simpl; split.
  - by intros [= <-].
  - by intros [_ ->].
  - done.
  - by intros [? _].
Qed.

(** The least key of a dictionary is one of its keys. *)
Lemma min_key_lookup d m : py_min (keys d) = Ok m -> exists v, d !! m = Some v.
Proof. intros [Hin _]%py_min_Ok. by apply elem_of_keys in Hin. Qed.

Lemma max_key_lookup d m : py_max (keys d) = Ok m -> exists v, d !! m = Some v.
Proof. intros [Hin _]%py_max_Ok. by apply elem_of_keys in Hin. Qed.

Lemma py_min_keys_empty : py_min (keys (∅ : gmap Z V)) = Raise ValueError.
Proof. unfold keys. by rewrite map_to_list_empty. Qed.

Lemma py_max_keys_empty : py_max (keys (∅ : gmap Z V)) = Raise ValueError.
Proof. unfold keys. by rewrite map_to_list_empty. Qed.

End PyFacts.

(** ** The fill model of the replay engine *)

Section Fills.

Import Backtester.

(** The book of the specification's example:
    [{bids: {99: 10}, asks: {101: 5}}]. *)
Definition example_book : OrderDepth :=
  {| buy_orders := {[99 := 10]}; sell_orders := {[101 := 5]} |}.

Lemma record_trade_Ok bt product price quantity s timestamp pos :
  current_positions bt !! product = Some pos ->
  record_trade bt product price quantity s timestamp =
    Ok {| current_positions :=
            <[product := pos + (match s with Buy => quantity | Sell => - quantity end)]>
              (current_positions bt);
          pnl := pnl bt + quantity * (price * (match s with Buy => -1 | Sell => 1 end));
          trade_history :=
            trade_history bt ++ [mkTrade timestamp product price quantity s];
          results := results bt |}.
Proof. intros H. unfold record_trade, getitem. by rewrite H. Qed.

Lemma record_trade_KeyError bt product price quantity s timestamp :
  current_positions bt !! product = None ->
  record_trade bt product price quantity s timestamp = Raise (KeyError (StrKey product)).
Proof. intros H. unfold record_trade, getitem. by rewrite H. Qed.

(** C1.  Fill correctness of [_process_order].  Against a book whose sell
    side has a best ask [a], a buy order (quantity > 0) priced below [a]
    leaves the engine untouched (no fill); priced at or above [a] it is
    filled at [a] for [min(order quantity, resting volume at a)]: the
    product's position grows by the fill, cash falls by [a * fill], and one
    buy trade is logged.  Symmetrically a sell order (quantity < 0) is filled
    exactly when its price is at most the best bid [b], at [b], for
    [min(|order quantity|, resting volume at b)]: the position falls by the
    fill and cash grows by [b * fill].  (The product is one the position
    table knows.) *)
Theorem process_order_fill_correct
    (bt : Backtester.t) (product : string) (order : Order) (od : OrderDepth) (ts : Z) :
  (0 < quantity order ->
   forall a, best_ask od = Ok a ->
     (price order < a -> process_order bt product order od ts = Ok bt) /\
     (a <= price order ->
      forall pos, current_positions bt !! product = Some pos ->
      exists resting,
        sell_orders od !! a = Some resting /\
        process_order bt product order od ts =
          Ok {| current_positions :=
                  <[product := pos + Z.min (quantity order) resting]> (current_positions bt);
                pnl := pnl bt - a * Z.min (quantity order) resting;
                trade_history :=
                  trade_history bt ++
                    [mkTrade ts product a (Z.min (quantity order) resting) Buy];
                results := results bt |}))
  /\
  (quantity order < 0 ->
   forall b, best_bid od = Ok b ->
     (b < price order -> process_order bt product order od ts = Ok bt) /\
     (price order <= b ->
      forall pos, current_positions bt !! product = Some pos ->
      exists resting,
        buy_orders od !! b = Some resting /\
        process_order bt product order od ts =
          Ok {| current_positions :=
                  <[product := pos - Z.min (Z.abs (quantity order)) resting]>
                    (current_positions bt);
                pnl := pnl bt + b * Z.min (Z.abs (quantity order)) resting;
                trade_history :=
                  trade_history bt ++
                    [mkTrade ts product b (Z.min (Z.abs (quantity order)) resting) Sell];
                results := results bt |})).
Proof.
  split.
  - intros Hq a Ha. unfold best_ask in Ha. unfold process_order.
    destruct (Z.ltb_spec 0 (quantity order)) as [_|]; [|lia].
    rewrite Ha. simpl. split.
    + intros Hlt. destruct (Z.leb_spec a (price order)); [lia|done].
    + intros Hle pos Hpos. destruct (Z.leb_spec a (price order)); [|lia].
      destruct (min_key_lookup _ _ Ha) as [resting Hres].
      exists resting. split; [done|].
      unfold getitem_int. rewrite Hres. simpl.
      rewrite (record_trade_Ok _ _ _ _ _ _ pos Hpos). do 2 f_equal. lia.
  - intros Hq b Hb. unfold best_bid in Hb. unfold process_order.
    destruct (Z.ltb_spec 0 (quantity order)) as [|_]; [lia|].
    rewrite Hb. simpl. split.
    + intros Hlt. destruct (Z.leb_spec (price order) b); [lia|done].
    + intros Hle pos Hpos. destruct (Z.leb_spec (price order) b); [|lia].
      destruct (max_key_lookup _ _ Hb) as [resting Hres].
      exists resting. split; [done|].
      unfold getitem_int. rewrite Hres. simpl.
      rewrite (record_trade_Ok _ _ _ _ _ _ pos Hpos). do 2 f_equal. lia.
Qed.

(** The example of the specification: against [example_book], the order
    (buy, 101, 8) on KELP is filled at price 101 for quantity 5. *)
Lemma process_order_fill_example :
  process_order init KELP (mkOrder KELP 101 8) example_book 0 =
    Ok {| current_positions := <[KELP := 5]> (current_positions init);
          pnl := - 505;
          trade_history := [mkTrade 0 KELP 101 5 Buy];
          results := [] |}.
Proof.
  destruct (process_order_fill_correct init KELP (mkOrder KELP 101 8) example_book 0)
    as [Hbuy _].
  destruct (Hbuy eq_refl 101 eq_refl) as [_ Hfill].
  destruct (Hfill (Z.le_refl 101) 0 eq_refl) as [resting [Hres ->]].
  vm_compute in Hres. injection Hres as <-. reflexivity.
Defined.

End Fills.

(** A RESIN tick with best bid 10005 (volume 40) and best ask 10006
    (volume 5). *)
Definition rich_bid_row : Backtester.csv_row :=
  Backtester.mkRow RAINFOREST_RESIN
    (Backtester.mkLevel (Some 10005) (Some 40), Backtester.mkLevel None None,
     Backtester.mkLevel None None)
    (Backtester.mkLevel (Some 10006) (Some 5), Backtester.mkLevel None None,
     Backtester.mkLevel None None)
    (20011 / 2).

(** ** Matching against a one-sided book, and unknown products *)

Section Anomalies.

Import Backtester.

(** An order crosses the book when the matching step would fill it; an
    order of quantity 0 takes the sell branch. *)
Definition crosses (od : OrderDepth) (order : Order) : Prop :=
  (0 < quantity order /\ exists a, best_ask od = Ok a /\ a <= price order) \/
  (quantity order <= 0 /\ exists b, best_bid od = Ok b /\ price order <= b).

Lemma process_order_buy_empty_asks bt product order od ts :
  0 < quantity order -> sell_orders od = ∅ ->
  process_order bt product order od ts = Raise ValueError.
Proof.
  intros Hq Hempty. unfold process_order.
  destruct (Z.ltb_spec 0 (quantity order)); [|lia].
  by rewrite Hempty, py_min_keys_empty.
Qed.

Lemma process_order_sell_empty_bids bt product order od ts :
  quantity order <= 0 -> buy_orders od = ∅ ->
  process_order bt product order od ts = Raise ValueError.
Proof.
  intros Hq Hempty. unfold process_order.
  destruct (Z.ltb_spec 0 (quantity order)); [lia|].
  by rewrite Hempty, py_max_keys_empty.
Qed.

Lemma process_order_unknown_product bt product order od ts :
  current_positions bt !! product = None -> crosses od order ->
  process_order bt product order od ts = Raise (KeyError (StrKey product)).
Proof.
  intros Hpos [[Hq [a [Ha Hle]]]|[Hq [b [Hb Hle]]]]; unfold process_order.
  - unfold best_ask in Ha. destruct (Z.ltb_spec 0 (quantity order)); [|lia].
    rewrite Ha. simpl. destruct (Z.leb_spec a (price order)); [|lia].
    destruct (min_key_lookup _ _ Ha) as [resting Hres].
    unfold getitem_int. rewrite Hres. simpl. by apply record_trade_KeyError.
  - unfold best_bid in Hb. destruct (Z.ltb_spec 0 (quantity order)); [lia|].
    rewrite Hb. simpl. destruct (Z.leb_spec (price order) b); [|lia].
    destruct (max_key_lookup _ _ Hb) as [resting Hres].
    unfold getitem_int. rewrite Hres. simpl. by apply record_trade_KeyError.
Qed.

(** The fill step never adds or removes a key of the position table. *)
Lemma record_trade_dom bt product price quantity s ts bt' :
  record_trade bt product price quantity s ts = Ok bt' ->
  dom (current_positions bt') = dom (current_positions bt).
Proof.
  unfold record_trade, getitem.
  destruct (current_positions bt !! product) as [pos|] eqn:Hpos; simpl; [|done].
  intros [= <-]. simpl. by apply dom_insert_lookup_L.
Qed.

Lemma process_order_dom bt product order od ts bt' :
  process_order bt product order od ts = Ok bt' ->
  dom (current_positions bt') = dom (current_positions bt).
Proof.
  unfold process_order.
  destruct (0 <? quantity order).
  - destruct (py_min _) as [a|]; simpl; [|done].
    destruct (a <=? price order); [|by intros [= <-]].
    destruct (getitem_int _ _); simpl; [|done]. apply record_trade_dom.
  - destruct (py_max _) as [b|]; simpl; [|done].
    destruct (price order <=? b); [|by intros [= <-]].
    destruct (getitem_int _ _); simpl; [|done]. apply record_trade_dom.
Qed.

Lemma process_orders_dom bt product orders depths ts bt' :
  process_orders bt product orders depths ts = Ok bt' ->
  dom (current_positions bt') = dom (current_positions bt).
Proof.
  revert bt. induction orders as [|o orders IH]; intros bt; simpl.
  - by intros [= <-].
  - destruct (getitem depths product) as [od|]; simpl; [|done].
    destruct (process_order bt product o od ts) as [bt1|] eqn:H1; simpl; [|done].
    intros H. rewrite (IH _ H). by eapply process_order_dom.
Qed.

Lemma process_result_dom bt res depths ts bt' :
  process_result bt res depths ts = Ok bt' ->
  dom (current_positions bt') = dom (current_positions bt).
Proof.
  revert bt. induction res as [|[product orders] res IH]; intros bt; simpl.
  - by intros [= <-].
  - destruct (process_orders bt product orders depths ts) as [bt1|] eqn:H1; simpl; [|done].
    intros H. rewrite (IH _ H). by eapply process_orders_dom.
Qed.

Lemma settle_tick_dom bt ts group res bt' :
  settle_tick bt ts group res = Ok bt' ->
  dom (current_positions bt') = dom (current_positions bt).
Proof.
  unfold settle_tick.
  destruct (process_result _ _ _ _) as [bt1|] eqn:H1; simpl; [|done].
  unfold append_row.
  destruct (getitem _ RAINFOREST_RESIN); simpl; [|done].
  destruct (getitem _ KELP); simpl; [|done].
  intros [= <-]. simpl. by eapply process_result_dom.
Qed.

Lemma init_dom : dom (current_positions init) = {[RAINFOREST_RESIN; KELP]}.
Proof. simpl. rewrite !dom_insert_L, dom_empty_L. by rewrite (right_id_L ∅ (∪)). Qed.

(** C10.  The position table is created with exactly the two keys
    RAINFOREST_RESIN and KELP; in every engine state with that key set
    (the fill step never changes it), an order on any other product that
    crosses the book makes the recording of its fill raise
    [KeyError(product)]. *)
Theorem unknown_product_fill_raises_KeyError :
  dom (current_positions init) = {[RAINFOREST_RESIN; KELP]} /\
  forall bt product order od ts,
    dom (current_positions bt) = dom (current_positions init) ->
    product <> RAINFOREST_RESIN -> product <> KELP ->
    crosses od order ->
    process_order bt product order od ts = Raise (KeyError (StrKey product)).
Proof.
  split; [apply init_dom|].
  intros bt product order od ts Hdom Hr Hk Hcross.
  apply process_order_unknown_product; [|done].
  apply not_elem_of_dom. rewrite Hdom, init_dom.
  rewrite not_elem_of_union, !not_elem_of_singleton. done.
Qed.

(** A crossing SQUID_INK order in the initial state. *)
Lemma unknown_product_fill_example :
  process_order init SQUID_INK (mkOrder SQUID_INK 2000 5)
    {| buy_orders := {[1995 := 4]}; sell_orders := {[1999 := 3]} |} 0
  = Raise (KeyError (StrKey SQUID_INK)).
Proof.
  apply (proj2 unknown_product_fill_raises_KeyError); [reflexivity|done|done|].
  left. split; [reflexivity|]. exists 1999. split; [reflexivity|]. simpl. lia.
Defined.

(** C4.  The matching step does raise on a one-sided book.  A RESIN tick
    whose ask levels are all missing gives a book with an empty sell side;
    on it [resin_strategy] of trade_v16 posts its passive buy order, and
    matching that order raises [ValueError] ([min] of no keys).  The same
    happens to a sell order when the buy side is empty.  Nothing in
    [run_backtest] catches the exception, so the tick is not settled and a
    replay with the trader of trade_v16 ends there, before its second
    tick. *)
Theorem process_order_raises_on_one_sided_book :
  let bids_only := mkRow RAINFOREST_RESIN
                     (mkLevel (Some 9996) (Some 10), mkLevel None None, mkLevel None None)
                     (mkLevel None None, mkLevel None None, mkLevel None None) 9996 in
  let asks_only := {| buy_orders := ∅; sell_orders := {[10004 := 10]} |} in
  sell_orders (build_order_depth bids_only) = ∅ /\
  TradeV16.resin_strategy RAINFOREST_RESIN (build_order_depth bids_only) 10000 2 0 50
    = Ok [mkOrder RAINFOREST_RESIN 9997 50; mkOrder RAINFOREST_RESIN 10002 (-50)] /\
  process_order init RAINFOREST_RESIN (mkOrder RAINFOREST_RESIN 9997 50)
    (build_order_depth bids_only) 0 = Raise ValueError /\
  process_order init RAINFOREST_RESIN (mkOrder RAINFOREST_RESIN 10002 (-50))
    asks_only 0 = Raise ValueError /\
  settle_tick init 0 [bids_only]
    [(RAINFOREST_RESIN,
      [mkOrder RAINFOREST_RESIN 9997 50; mkOrder RAINFOREST_RESIN 10002 (-50)])]
    = Raise ValueError /\
  run_backtest_with TradeV16.run init TradeV16.init [(0, [bids_only]); (100, [rich_bid_row])]
    = Raise ValueError.
Proof. repeat split; reflexivity. Qed.

End Anomalies.

(** ** Positions and limits across one tick *)

Section Limits.

Import Backtester.

(** What an order asks to buy, and to sell. *)
Definition buy_quantity (o : Order) : Z := if 0 <? quantity o then quantity o else 0.
Definition sell_quantity (o : Order) : Z := if 0 <? quantity o then 0 else - quantity o.

Definition total (f : Order -> Z) (orders : list Order) : Z :=
  foldr (fun o acc => f o + acc) 0 orders.

(** The quantity the trader's [result] asks for on one product. *)
Fixpoint requested (f : Order -> Z) (product : string)
    (res : list (string * list Order)) : Z :=
  match res with
  | [] => 0
  | (k, orders) :: rest =>
      (if String.eqb k product then total f orders else 0) + requested f product rest
  end.

(** A product's position in the engine a tick leaves ([None] when the tick
    raised or the product has no entry). *)
Definition position_after (r : result Backtester.t) (product : string) : option Z :=
  match r with
  | Ok bt => current_positions bt !! product
  | Raise _ => None
  end.

(** Every resting volume of the book is non-negative, as in the data files. *)
Definition nonneg_volumes (od : OrderDepth) : Prop :=
  (forall p v, buy_orders od !! p = Some v -> 0 <= v) /\
  (forall p v, sell_orders od !! p = Some v -> 0 <= v).

Lemma buy_quantity_nonneg o : 0 <= buy_quantity o.
Proof. unfold buy_quantity. destruct (Z.ltb_spec 0 (quantity o)); lia. Qed.

Lemma sell_quantity_nonneg o : 0 <= sell_quantity o.
Proof. unfold sell_quantity. destruct (Z.ltb_spec 0 (quantity o)); lia. Qed.

Lemma total_nonneg f orders : (forall o, 0 <= f o) -> 0 <= total f orders.
Proof. intros Hf. induction orders as [|o orders IH]; simpl; [lia|]. specialize (Hf o). lia. Qed.

Lemma requested_nonneg f product res : (forall o, 0 <= f o) -> 0 <= requested f product res.
Proof.
  intros Hf. induction res as [|[k orders] res IH]; simpl; [lia|].
  pose proof (total_nonneg f orders Hf). destruct (String.eqb k product); lia.
Qed.

(** Matching an order of another product leaves a position alone. *)
Lemma process_order_other bt product o od ts bt' p :
  process_order bt product o od ts = Ok bt' -> p <> product ->
  current_positions bt' !! p = current_positions bt !! p.
Proof.
  intros H Hne. unfold process_order in H.
  destruct (0 <? quantity o).
  - destruct (py_min _) as [a|]; simpl in H; [|done].
    destruct (a <=? price o); [|by injection H as <-].
    destruct (getitem_int _ _) as [resting|]; simpl in H; [|done].
    unfold record_trade, getitem in H.
    destruct (current_positions bt !! product); simpl in H; [|done].
    injection H as <-. simpl. by rewrite lookup_insert_ne.
  - destruct (py_max _) as [b|]; simpl in H; [|done].
    destruct (price o <=? b); [|by injection H as <-].
    destruct (getitem_int _ _) as [resting|]; simpl in H; [|done].
    unfold record_trade, getitem in H.
    destruct (current_positions bt !! product); simpl in H; [|done].
    injection H as <-. simpl. by rewrite lookup_insert_ne.
Qed.

(** Matching one order moves the product's position by at most what the
    order asks for, when the book's volumes are non-negative. *)
Lemma process_order_same bt product o od ts bt' pos :
  process_order bt product o od ts = Ok bt' -> nonneg_volumes od ->
  current_positions bt !! product = Some pos ->
  exists pos', current_positions bt' !! product = Some pos' /\
    pos - sell_quantity o <= pos' <= pos + buy_quantity o.
Proof.
  intros H [Hbuy Hsell] Hpos. unfold process_order in H.
  unfold buy_quantity, sell_quantity.
  destruct (Z.ltb_spec 0 (quantity o)) as [Hq|Hq].
  - destruct (py_min _) as [a|]; simpl in H; [|done].
    destruct (a <=? price o); [|injection H as <-; exists pos; split; [done|lia]].
    unfold getitem_int in H.
    destruct (sell_orders od !! a) as [resting|] eqn:Hres; simpl in H; [|done].
    apply Hsell in Hres.
    rewrite (record_trade_Ok _ _ _ _ _ _ pos Hpos) in H. injection H as <-. simpl.
    rewrite lookup_insert_eq. eexists; split; [done|]. lia.
  - destruct (py_max _) as [b|]; simpl in H; [|done].
    destruct (price o <=? b); [|injection H as <-; exists pos; split; [done|lia]].
    unfold getitem_int in H.
    destruct (buy_orders od !! b) as [resting|] eqn:Hres; simpl in H; [|done].
    apply Hbuy in Hres.
    rewrite (record_trade_Ok _ _ _ _ _ _ pos Hpos) in H. injection H as <-. simpl.
    rewrite lookup_insert_eq. eexists; split; [done|]. lia.
Qed.

Lemma process_orders_other bt product orders depths ts bt' p :
  process_orders bt product orders depths ts = Ok bt' -> p <> product ->
  current_positions bt' !! p = current_positions bt !! p.
Proof.
  revert bt. induction orders as [|o orders IH]; intros bt H Hne; simpl in H.
  - by injection H as <-.
  - destruct (getitem depths product) as [od|]; simpl in H; [|done].
    destruct (process_order bt product o od ts) as [bt1|] eqn:H1; simpl in H; [|done].
    rewrite (IH _ H Hne). by eapply process_order_other.
Qed.

Lemma process_orders_same bt product orders depths ts bt' pos :
  process_orders bt product orders depths ts = Ok bt' ->
  (forall od, depths !! product = Some od -> nonneg_volumes od) ->
  current_positions bt !! product = Some pos ->
  exists pos', current_positions bt' !! product = Some pos' /\
    pos - total sell_quantity orders <= pos' <= pos + total buy_quantity orders.
Proof.
  intros H Hvol. revert bt pos H.
  induction orders as [|o orders IH]; intros bt pos H Hpos; simpl in H.
  - injection H as <-. exists pos. simpl. split; [done|lia].
  - unfold getitem in H.
    destruct (depths !! product) as [od|] eqn:Hod; simpl in H; [|done].
    destruct (process_order bt product o od ts) as [bt1|] eqn:H1; simpl in H; [|done].
    destruct (process_order_same _ _ _ _ _ _ _ H1 (Hvol _ eq_refl) Hpos) as [pos1 [Hpos1 Hb1]].
    destruct (IH _ _ H Hpos1) as [pos' [Hpos' Hb']].
    exists pos'. split; [done|]. simpl. lia.
Qed.

Lemma process_result_bounds bt res depths ts bt' p pos :
  process_result bt res depths ts = Ok bt' ->
  (forall od, depths !! p = Some od -> nonneg_volumes od) ->
  current_positions bt !! p = Some pos ->
  exists pos', current_positions bt' !! p = Some pos' /\
    pos - requested sell_quantity p res <= pos' <= pos + requested buy_quantity p res.
Proof.
  intros H Hvol. revert bt pos H.
  induction res as [|[product orders] res IH]; intros bt pos H Hpos; simpl in H.
  - injection H as <-. exists pos. simpl. split; [done|lia].
  - destruct (process_orders bt product orders depths ts) as [bt1|] eqn:H1;
      simpl in H; [|done].
    simpl. destruct (String.eqb_spec product p) as [->|Hne].
    + destruct (process_orders_same _ _ _ _ _ _ _ H1 Hvol Hpos) as [pos1 [Hpos1 Hb1]].
      destruct (IH _ _ H Hpos1) as [pos' [Hpos' Hb']].
      exists pos'. split; [done|lia].
    + assert (Hpos1 : current_positions bt1 !! p = Some pos).
      { rewrite <- Hpos. eapply process_orders_other; [done|congruence]. }
      destruct (IH _ _ H Hpos1) as [pos' [Hpos' Hb']].
      exists pos'. split; [done|lia].
Qed.

(** C2, as the code has it.  The replay engine applies every fill and
    checks no limit.  Across one settled tick a product's position stays in
    [-limit, limit] provided the book's resting volumes are non-negative and
    the buy quantities the trader asked for on that product sum to at most
    [limit - position], its sell quantities to at most [limit + position]. *)
Theorem settle_tick_position_within_limit
    (bt : Backtester.t) (ts : Z) (group : list csv_row)
    (res : list (string * list Order)) (bt' : Backtester.t)
    (p : string) (pos limit : Z) :
  settle_tick bt ts group res = Ok bt' ->
  current_positions bt !! p = Some pos ->
  (forall od, (build_tick group).1 !! p = Some od -> nonneg_volumes od) ->
  requested buy_quantity p res <= limit - pos ->
  requested sell_quantity p res <= limit + pos ->
  exists pos', current_positions bt' !! p = Some pos' /\ - limit <= pos' <= limit.
Proof.
  intros H Hpos Hvol Hbuy Hsell. unfold settle_tick in H.
  destruct (process_result _ _ _ _) as [bt1|] eqn:H1; simpl in H; [|done].
  destruct (process_result_bounds _ _ _ _ _ _ _ H1 Hvol Hpos) as [pos' [Hpos' Hb]].
  unfold append_row in H.
  destruct (getitem _ RAINFOREST_RESIN); simpl in H; [|done].
  destruct (getitem _ KELP); simpl in H; [|done].
  injection H as <-. simpl. exists pos'. split; [done|lia].
Qed.

Lemma rich_bid_row_depths :
  (build_tick [rich_bid_row]).1 !! RAINFOREST_RESIN =
    Some {| buy_orders := <[10005 := 40]> ∅; sell_orders := <[10006 := 5]> ∅ |}.
Proof. reflexivity. Qed.

Lemma rich_bid_row_nonneg od :
  (build_tick [rich_bid_row]).1 !! RAINFOREST_RESIN = Some od -> nonneg_volumes od.
Proof.
  rewrite rich_bid_row_depths. intros [= <-]. split; simpl; intros p v.
  - intros [[_ <-]|[_ H]]%lookup_insert_Some; [lia|by rewrite lookup_empty in H].
  - intros [[_ <-]|[_ H]]%lookup_insert_Some; [lia|by rewrite lookup_empty in H].
Qed.

(** Replaying that tick with the trader of trade_v16 (sell 40 and sell 10
    at 10005, buy 50 at 9998) leaves the position within the limit. *)
Lemma settle_tick_within_limit_example :
  let orders := [mkOrder RAINFOREST_RESIN 10005 (-40); mkOrder RAINFOREST_RESIN 9998 50;
                 mkOrder RAINFOREST_RESIN 10005 (-10)] in
  exists bt' pos',
    (TradeV16.run TradeV16.init (make_state init 0 [rich_bid_row])).2
      = Ok [(RAINFOREST_RESIN, orders)] /\
    settle_tick init 0 [rich_bid_row] [(RAINFOREST_RESIN, orders)] = Ok bt' /\
    current_positions bt' !! RAINFOREST_RESIN = Some pos' /\ - 50 <= pos' <= 50.
Proof.
  intros orders.
  destruct (settle_tick init 0 [rich_bid_row] _) as [bt'|e] eqn:Hsettle;
    [|by vm_compute in Hsettle].
  destruct (settle_tick_position_within_limit _ _ _ _ _ RAINFOREST_RESIN 0 50 Hsettle)
    as [pos' Hpos'];
    [reflexivity | apply rich_bid_row_nonneg | vm_compute; discriminate
    | vm_compute; discriminate |].
  exists bt', pos'. split; [reflexivity|]. split; [reflexivity|]. exact Hpos'.
Defined.

(** C2 as stated fails.  Replaying that one tick with the trader of
    trade_v17_vwap from the initial state: [fixed_resin_strategy] sells 40 at
    the best bid and posts its full sell capacity of 50 at the same price;
    the engine fills both against the same resting 40, the sells add up to
    80 > limit + position = 50, and the position ends at -80, outside
    [-50, 50]. *)
Lemma settle_tick_limit_counterexample :
  let orders := [mkOrder RAINFOREST_RESIN 10005 (-40); mkOrder RAINFOREST_RESIN 9998 50;
                 mkOrder RAINFOREST_RESIN 10005 (-50)] in
  (TradeV17.run TradeV17.init (make_state init 0 [rich_bid_row])).2
    = Ok [(RAINFOREST_RESIN, orders)] /\
  position_after (settle_tick init 0 [rich_bid_row] [(RAINFOREST_RESIN, orders)])
    RAINFOREST_RESIN = Some (-80) /\
  position_after (run_backtest_with TradeV17.run init TradeV17.init [(0, [rich_bid_row])])
    RAINFOREST_RESIN = Some (-80) /\
  ~ (- 50 <= -80 <= 50).
Proof.
  split; [vm_compute; reflexivity|]. split; [vm_compute; reflexivity|].
  split; [vm_compute; reflexivity|lia].
Qed.

End Limits.

(** ** Capacity of the fixed fair-value market maker *)

Section Capacity.

(** A RESIN book in the sign convention of the exchange (ask volumes are
    negative): 10 offered at 9995, 10 bid at 9990. *)
Definition cheap_ask_book : OrderDepth :=
  {| buy_orders := {[9990 := 10]}; sell_orders := {[9995 := -10]} |}.

Lemma total_app f xs ys : total f (xs ++ ys) = total f xs + total f ys.
Proof. induction xs as [|x xs IH]; simpl; lia. Qed.

Lemma total_singleton f o : total f [o] = f o.
Proof. simpl. lia. Qed.

(** X1.  [resin_strategy] of trade_v16 subtracts what it takes from what it
    posts: for a position within the limit, its buy orders sum to at most
    [limit - position] and its sell orders to at most [limit + position]. *)
Theorem resin_strategy_v16_capacity product od fair_value width position limit orders :
  TradeV16.resin_strategy product od fair_value width position limit = Ok orders ->
  (position <= limit -> total buy_quantity orders <= limit - position) /\
  (- limit <= position -> total sell_quantity orders <= limit + position).
Proof.
  unfold TradeV16.resin_strategy. intros H.
  repeat match type of H with
  | context [if ?b then _ else _] => destruct b eqn:?; simpl in H
  | context [py_min ?xs] => destruct (py_min xs); simpl in H
  | context [py_max ?xs] => destruct (py_max xs); simpl in H
  | context [getitem_int ?d ?k] => destruct (getitem_int d k); simpl in H
  | _ => discriminate H
  end;
  injection H as <-; simpl;
  unfold buy_quantity, sell_quantity; simpl;
  repeat match goal with
  | |- context [0 <? ?q] => destruct (Z.ltb_spec 0 q)
  end;
  repeat match goal with
  | H : (_ <? _) = true |- _ => apply Z.ltb_lt in H
  | H : (_ <? _) = false |- _ => apply Z.ltb_ge in H
  | H : (_ <=? _) = true |- _ => apply Z.leb_le in H
  | H : (_ <=? _) = false |- _ => apply Z.leb_gt in H
  end; split; intros; lia.
Qed.

(** On [cheap_ask_book] at position 0 with limit 50, [resin_strategy] asks
    to buy 50 and to sell 50 in total. *)
Lemma resin_strategy_v16_capacity_example :
  exists orders,
    TradeV16.resin_strategy RAINFOREST_RESIN cheap_ask_book 10000 2 0 50 = Ok orders /\
    total buy_quantity orders <= 50 - 0 /\ total sell_quantity orders <= 50 + 0.
Proof.
  assert (Hrun : TradeV16.resin_strategy RAINFOREST_RESIN cheap_ask_book 10000 2 0 50
                 = Ok [mkOrder RAINFOREST_RESIN 9995 10; mkOrder RAINFOREST_RESIN 9991 40;
                       mkOrder RAINFOREST_RESIN 10002 (-50)]) by reflexivity.
  eexists. split; [exact Hrun|].
  destruct (resin_strategy_v16_capacity _ _ _ _ _ _ _ Hrun) as [Hbuy Hsell].
  split; [apply Hbuy | apply Hsell]; lia.
Defined.

(** C3.  [fixed_resin_strategy] of trade_v17_vwap does not subtract what it
    takes from what it posts.  On [cheap_ask_book] at position 0 with limit
    50 it buys 10 at the best ask and still posts a resting bid for the full
    50: its buy orders of the tick sum to 60 > limit - position = 50.
    [resin_strategy] of trade_v16 on the same input posts 40 and stays at
    50. *)
Theorem fixed_resin_strategy_exceeds_capacity :
  let orders := [mkOrder RAINFOREST_RESIN 9995 10; mkOrder RAINFOREST_RESIN 9991 50;
                 mkOrder RAINFOREST_RESIN 10002 (-50)] in
  (TradeV17.fixed_resin_strategy 0 RAINFOREST_RESIN cheap_ask_book 0 50 10000 2).2
    = Ok orders /\
  total buy_quantity orders = 60 /\
  50 - 0 < total buy_quantity orders /\
  TradeV16.resin_strategy RAINFOREST_RESIN cheap_ask_book 10000 2 0 50
    = Ok [mkOrder RAINFOREST_RESIN 9995 10; mkOrder RAINFOREST_RESIN 9991 40;
          mkOrder RAINFOREST_RESIN 10002 (-50)].
Proof. repeat split; reflexivity. Qed.

End Capacity.

(** ** Rolling windows *)

Section Windows.

Context {A : Type}.
Implicit Types (xs window : list A) (N : nat).

(** The pendulum window after the samples [xs] have arrived, one update
    each, starting from the empty history of [Trader.__init__]. *)
Definition pendulum_window N xs : list A :=
  foldl (fun history x => RoundV7.history_update history x (Z.of_nat N)) [] xs.

(** The same for the VWAP window of trade_v16's [kelp_strategy]. *)
Definition kelp_window N xs : list A :=
  foldl (fun kelp_vwap x => TradeV16.kelp_vwap_update kelp_vwap x (Z.of_nat N)) [] xs.

Lemma tail_drop xs : tail xs = drop 1 xs.
Proof. by destruct xs. Qed.

Lemma history_update_drop N xs x :
  RoundV7.history_update (drop (length xs - N) xs) x (Z.of_nat N)
  = drop (length (xs ++ [x]) - N) (xs ++ [x]).
Proof.
  unfold RoundV7.history_update. rewrite !length_app, length_drop. simpl.
  destruct (Z.ltb_spec (Z.of_nat N) (Z.of_nat (length xs - (length xs - N) + 1))) as [Hlt|Hge].
  - assert (N <= length xs)%nat by lia.
    rewrite tail_drop.
    replace (length xs + 1 - N)%nat with ((length xs - N) + 1)%nat by lia.
    rewrite <- drop_drop. f_equal. by rewrite drop_app_le by lia.
  - assert (length xs < N)%nat by lia.
    replace (length xs - N)%nat with 0%nat by lia.
    replace (length xs + 1 - N)%nat with 0%nat by lia. done.
Qed.

Lemma pendulum_window_snoc N xs x :
  pendulum_window N (xs ++ [x])
  = RoundV7.history_update (pendulum_window N xs) x (Z.of_nat N).
Proof. unfold pendulum_window. by rewrite foldl_app. Qed.

Lemma kelp_window_snoc N xs x :
  kelp_window N (xs ++ [x])
  = TradeV16.kelp_vwap_update (kelp_window N xs) x (Z.of_nat N).
Proof. unfold kelp_window. by rewrite foldl_app. Qed.

Lemma pendulum_window_drop N xs : pendulum_window N xs = drop (length xs - N) xs.
Proof.
  induction xs as [|x xs IH] using rev_ind; [done|].
  rewrite pendulum_window_snoc, IH. apply history_update_drop.
Qed.

Lemma kelp_vwap_update_nonempty N window x :
  window <> [] ->
  TradeV16.kelp_vwap_update window x (Z.of_nat N)
  = RoundV7.history_update window x (Z.of_nat N).
Proof. intros H. unfold TradeV16.kelp_vwap_update. by destruct window. Qed.

Lemma kelp_window_pendulum N x xs :
  (1 <= N)%nat -> kelp_window N (x :: xs) = pendulum_window N (x :: x :: xs).
Proof.
  intros HN. induction xs as [|y xs IH] using rev_ind.
  - unfold kelp_window, pendulum_window. simpl.
    unfold TradeV16.kelp_vwap_update, RoundV7.history_update. simpl.
    destruct (Z.ltb_spec (Z.of_nat N) (Z.of_nat 1)); [lia|]. done.
  - rewrite !app_comm_cons.
    rewrite kelp_window_snoc, pendulum_window_snoc, IH.
    apply kelp_vwap_update_nonempty. rewrite pendulum_window_drop.
    intros Hnil. apply (f_equal length) in Hnil. rewrite length_drop in Hnil.
    simpl in Hnil. lia.
Qed.

(** C7.  A window of capacity [N] never holds more than [N] samples, and
    eviction is first in, first out: after the samples [xs] have been
    pushed, the pendulum window of round_v_7 is [xs] without its first
    [length xs - N] elements, hence exactly the [N] most recent samples, in
    arrival order, once [N] or more have arrived.  The VWAP window of
    trade_v16, which stores its first sample twice, has the same bound and
    the same contents from the [N]-th sample on, for a capacity of at least
    one. *)
Theorem rolling_window_bound_fifo N xs :
  ((length (pendulum_window N xs) <= N)%nat /\
   pendulum_window N xs = drop (length xs - N) xs /\
   ((N <= length xs)%nat -> length (pendulum_window N xs) = N)) /\
  ((1 <= N)%nat ->
   (length (kelp_window N xs) <= N)%nat /\
   ((N <= length xs)%nat ->
    kelp_window N xs = drop (length xs - N) xs /\ length (kelp_window N xs) = N)).
Proof.
  split.
  - rewrite pendulum_window_drop, length_drop. repeat split; lia.
  - intros HN. destruct xs as [|x xs].
    + simpl. split; [lia|]. intros; lia.
    + rewrite kelp_window_pendulum by done. rewrite pendulum_window_drop.
      rewrite length_drop. simpl length. split; [lia|]. intros Hlen.
      replace (S (S (length xs)) - N)%nat with (S (S (length xs) - N)) by lia.
      rewrite skipn_cons. split; [done|lia].
Qed.

End Windows.

(** The example of the specification: 25 increasing values pushed into a
    window of capacity 20 leave the values 6 to 25, in order. *)
Lemma rolling_window_example :
  pendulum_window 20 (seqZ 1 25) = seqZ 6 20 /\
  kelp_window 20 (seqZ 1 25) = seqZ 6 20.
Proof.
  destruct (rolling_window_bound_fifo 20 (seqZ 1 25)) as [[_ [Hp _]] Hk].
  destruct (Hk ltac:(lia)) as [_ Hk']. destruct (Hk' ltac:(vm_compute; lia)) as [Hk'' _].
  split; [rewrite Hp | rewrite Hk'']; reflexivity.
Defined.

(** ** The mid-price utility *)

Section MidPrice.

Import Round2V3.

Lemma truthy_py_min {V} (d : gmap Z V) :
  truthy d = true -> exists m, py_min (keys d) = Ok m.
Proof.
  intros H%truthy_keys. destruct (py_min (keys d)) as [m|e] eqn:Hm; [by exists m|].
  apply py_min_Raise in Hm as [Hnil _]. done.
Qed.

Lemma truthy_py_max {V} (d : gmap Z V) :
  truthy d = true -> exists m, py_max (keys d) = Ok m.
Proof.
  intros H%truthy_keys. destruct (py_max (keys d)) as [m|e] eqn:Hm; [by exists m|].
  apply py_max_Raise in Hm as [Hnil _]. done.
Qed.

Lemma py_min_truthy {V} (d : gmap Z V) m : py_min (keys d) = Ok m -> truthy d = true.
Proof.
  intros H. apply truthy_keys. intros Hnil. rewrite Hnil in H. done.
Qed.

Lemma py_max_truthy {V} (d : gmap Z V) m : py_max (keys d) = Ok m -> truthy d = true.
Proof.
  intros H. apply truthy_keys. intros Hnil. rewrite Hnil in H. done.
Qed.

(** C8, as the code has it.  [get_mid_price] of round2_v_3 never raises,
    whatever the book.  It takes no default and carries no value from one
    call to the next: with both sides empty it returns the constant 0; with
    one side empty it returns the best price of the other side; with both
    sides present it returns the arithmetic mean of the best bid and the
    best ask. *)
Theorem get_mid_price_cases (od : OrderDepth) :
  (exists v, get_mid_price od = Ok v) /\
  (buy_orders od = ∅ -> sell_orders od = ∅ -> get_mid_price od = Ok (Int 0)) /\
  (forall b, sell_orders od = ∅ -> py_max (keys (buy_orders od)) = Ok b ->
     get_mid_price od = Ok (Int b)) /\
  (forall a, buy_orders od = ∅ -> py_min (keys (sell_orders od)) = Ok a ->
     get_mid_price od = Ok (Int a)) /\
  (forall a b, py_min (keys (sell_orders od)) = Ok a ->
     py_max (keys (buy_orders od)) = Ok b ->
     get_mid_price od = Ok (Float ((IZR b + IZR a) / 2))).
Proof.
  unfold get_mid_price. repeat split.
  - destruct (truthy (sell_orders od)) eqn:Hs; destruct (truthy (buy_orders od)) eqn:Hb.
    + destruct (truthy_py_min _ Hs) as [a ->]. destruct (truthy_py_max _ Hb) as [b ->].
      simpl. eauto.
    + destruct (truthy_py_min _ Hs) as [a ->]. simpl. eauto.
    + destruct (truthy_py_max _ Hb) as [b ->]. simpl. eauto.
    + simpl. eauto.
  - intros Hb Hs. apply truthy_false in Hb, Hs. by rewrite Hb, Hs.
  - intros b Hs Hb. rewrite (py_max_truthy _ _ Hb), Hb.
    apply truthy_false in Hs. by rewrite Hs.
  - intros a Hb Ha. rewrite (py_min_truthy _ _ Ha), Ha.
    apply truthy_false in Hb. by rewrite Hb.
  - intros a b Ha Hb.
    rewrite (py_min_truthy _ _ Ha), Ha, (py_max_truthy _ _ Hb), Hb. simpl.
    by rewrite plus_IZR.
Qed.

(** On the book [{bids: {99: 10}, asks: {101: 5}}] the mid price is
    (99 + 101) / 2. *)
Lemma get_mid_price_example :
  get_mid_price example_book = Ok (Float ((99 + 101) / 2)) /\
  get_mid_price (mkOrderDepth ∅ ∅) = Ok (Int 0) /\
  get_mid_price (mkOrderDepth {[99 := 10]} ∅) = Ok (Int 99).
Proof.
  split; [|split].
  - apply (proj2 (proj2 (proj2 (proj2 (get_mid_price_cases example_book))))); reflexivity.
  - apply (proj1 (proj2 (get_mid_price_cases (mkOrderDepth ∅ ∅)))); reflexivity.
  - apply (proj1 (proj2 (proj2 (get_mid_price_cases (mkOrderDepth {[99 := 10]} ∅))))); reflexivity.
Defined.

(** The contract in the words of the specification,
    [mid_price(book, default)]: [default] when both sides are empty, the
    price of the side that exists when one is empty, the arithmetic mean
    otherwise. *)
Definition mid_price_spec (od : OrderDepth) (default : number) : result number :=
  match py_max (keys (buy_orders od)), py_min (keys (sell_orders od)) with
  | Raise _, Raise _ => Ok default
  | Ok best_bid, Raise _ => Ok (Int best_bid)
  | Raise _, Ok best_ask => Ok (Int best_ask)
  | Ok best_bid, Ok best_ask => Ok (Float (IZR (best_bid + best_ask) / 2))
  end.

(** The code is the contract with the default fixed at 0. *)
Lemma get_mid_price_spec_at_zero (od : OrderDepth) :
  get_mid_price od = mid_price_spec od (Int 0).
Proof.
  unfold get_mid_price, mid_price_spec.
  destruct (truthy (sell_orders od)) eqn:Hs; destruct (truthy (buy_orders od)) eqn:Hb.
  - destruct (truthy_py_min _ Hs) as [a ->]. by destruct (truthy_py_max _ Hb) as [b ->].
  - destruct (truthy_py_min _ Hs) as [a ->]. apply truthy_false in Hb. rewrite Hb.
    by rewrite py_max_keys_empty.
  - destruct (truthy_py_max _ Hb) as [b ->]. apply truthy_false in Hs. rewrite Hs.
    by rewrite py_min_keys_empty.
  - apply truthy_false in Hs, Hb. rewrite Hs, Hb.
    by rewrite py_max_keys_empty, py_min_keys_empty.
Qed.

(** C8 as stated fails.  A caller that carries 10000 as its default gets
    10000 from the contract on an empty book; the code, which has nowhere to
    take a default from, returns 0. *)
Lemma get_mid_price_default_counterexample :
  mid_price_spec (mkOrderDepth ∅ ∅) (Int 10000) = Ok (Int 10000) /\
  get_mid_price (mkOrderDepth ∅ ∅) = Ok (Int 0) /\
  get_mid_price (mkOrderDepth ∅ ∅) <> mid_price_spec (mkOrderDepth ∅ ∅) (Int 10000).
Proof. split; [reflexivity|]. split; [reflexivity|]. discriminate. Qed.

End MidPrice.

(** ** Z-scores over a window without dispersion *)

Section ZScore.

Local Open Scope R_scope.

Lemma Rsum_replicate n c : Numpy.Rsum (replicate n c) = INR n * c.
Proof.
  induction n as [|n IH].
  - simpl. lra.
  - rewrite S_INR. change (Numpy.Rsum (replicate (S n) c))
      with (c + Numpy.Rsum (replicate n c)). rewrite IH. lra.
Qed.

Lemma mean_replicate n c : (0 < n)%nat -> Numpy.mean (replicate n c) = c.
Proof.
  intros Hn. unfold Numpy.mean. rewrite Rsum_replicate, length_replicate.
  field. apply not_0_INR. lia.
Qed.

(** A window of equal samples has standard deviation 0. *)
Lemma std_replicate n c : (0 < n)%nat -> Numpy.std (replicate n c) = 0.
Proof.
  intros Hn. unfold Numpy.std. rewrite mean_replicate by done.
  rewrite fmap_replicate.
  replace ((c - c) * (c - c)) with 0 by lra.
  rewrite mean_replicate by done. apply sqrt_0.
Qed.

Lemma std_dev_replicate n c : (0 < n)%nat -> Round2V2.std_dev (replicate n c) c = 0.
Proof.
  intros Hn. unfold Round2V2.std_dev. rewrite fmap_replicate.
  replace ((c - c) * (c - c)) with 0 by lra.
  rewrite Rsum_replicate, length_replicate.
  replace (INR n * 0 / INR n) with 0; [apply sqrt_0|].
  field. apply not_0_INR. lia.
Qed.

Lemma zscore_v2_zero_std history mid :
  Round2V2.std_dev history (Numpy.Rsum history / INR (length history)) = 0 ->
  Round2V2.zscore history mid = 0.
Proof.
  intros Hstd. unfold Round2V2.zscore. rewrite Hstd.
  destruct (Rlt_dec 0 0); [lra|done].
Qed.

(** The two branches of the guard of round2_v_2. *)
Lemma zscore_v2_guarded history mid :
  let mean := Numpy.Rsum history / INR (length history) in
  let std := Round2V2.std_dev history mean in
  (std = 0 -> Round2V2.zscore history mid = 0) /\
  (0 < std -> Round2V2.zscore history mid = (mid - mean) / std).
Proof.
  intros mean std. split.
  - apply zscore_v2_zero_std.
  - intros Hpos. unfold Round2V2.zscore. fold mean. fold std.
    destruct (Rlt_dec 0 std); [done|lra].
Qed.

(** The z-score of the picnic baskets in round2_v_1 divides without a
    guard: with a standard deviation of 0 it is [nan] or an infinity, never
    a finite number. *)
Lemma zscore_v1_zero_std spread_history spread :
  Numpy.std spread_history = 0 ->
  Round2V1.zscore spread_history spread = Numpy.NaN \/
  exists negative, Round2V1.zscore spread_history spread = Numpy.Inf negative.
Proof.
  intros Hstd. unfold Round2V1.zscore, Numpy.divide. rewrite Hstd.
  destruct (Req_dec_T 0 0) as [_|]; [|done].
  destruct (Req_dec_T _ 0); [by left | right; eauto].
Qed.

Lemma zscore_v1_replicate n c :
  (0 < n)%nat -> Round2V1.zscore (replicate n c) c = Numpy.NaN.
Proof.
  intros Hn. unfold Round2V1.zscore, Numpy.divide.
  rewrite std_replicate, mean_replicate by done.
  destruct (Req_dec_T 0 0) as [_|]; [|done].
  destruct (Req_dec_T (c - c) 0) as [_|Hne]; [done|]. exfalso. apply Hne. lra.
Qed.

(** C6.  The z-score of the picnic baskets (round2_v_1) has no guard.  When
    the spread has been 5/2 for 19 ticks and is 5/2 again, the window of 20
    has standard deviation 0, the z-score is [nan] (numpy's 0 / 0) and not 0,
    and the threshold test is False.  On the same window the guarded z-score
    of round2_v_2 is 0. *)
Theorem picnic_zscore_unguarded :
  let window := replicate 20 (5 / 2) in
  Numpy.std window = 0 /\
  Round2V1.zscore window (5 / 2) = Numpy.NaN /\
  Round2V1.basket_signal (replicate 19 (5 / 2)) (5 / 2)
    = (window, Some (Numpy.NaN, false)) /\
  Round2V2.zscore window (5 / 2) = 0.
Proof.
  intros window. split; [|split; [|split]].
  - by apply std_replicate; lia.
  - by apply zscore_v1_replicate; lia.
  - unfold Round2V1.basket_signal. simpl.
    change [5 / 2; 5 / 2; 5 / 2; 5 / 2; 5 / 2; 5 / 2; 5 / 2; 5 / 2; 5 / 2; 5 / 2;
            5 / 2; 5 / 2; 5 / 2; 5 / 2; 5 / 2; 5 / 2; 5 / 2; 5 / 2; 5 / 2; 5 / 2]
      with (replicate 20 (5 / 2)).
    rewrite zscore_v1_replicate by lia. reflexivity.
  - apply zscore_v2_zero_std.
    unfold window. replace (Numpy.Rsum _ / _) with (5 / 2).
    + apply std_dev_replicate. lia.
    + rewrite Rsum_replicate, length_replicate. simpl. lra.
Qed.

(** A window is flat when all its samples are equal. *)
Definition flat (history : list R) : Prop :=
  forall x y, x ∈ history -> y ∈ history -> x = y.

(** [sum(history) / len(history)], the mean the z-score is taken around. *)
Definition window_mean (history : list R) : R :=
  Numpy.Rsum history / INR (length history).

Definition squares (history : list R) (mean : R) : R :=
  Numpy.Rsum ((fun p => (p - mean) * (p - mean)) <$> history).

Lemma squares_cons x history mean :
  squares (x :: history) mean = (x - mean) * (x - mean) + squares history mean.
Proof. reflexivity. Qed.

Lemma squares_nonneg history mean : 0 <= squares history mean.
Proof.
  induction history as [|x xs IH]; [unfold squares; simpl; lra|].
  rewrite squares_cons. pose proof (Rle_0_sqr (x - mean)) as Hx. unfold Rsqr in Hx. lra.
Qed.

Lemma squares_zero history mean :
  squares history mean = 0 -> forall x, x ∈ history -> x = mean.
Proof.
  induction history as [|x xs IH]; intros Hsum y Hy.
  - by apply elem_of_nil in Hy.
  - rewrite squares_cons in Hsum. pose proof (squares_nonneg xs mean) as Hxs.
    pose proof (Rle_0_sqr (x - mean)) as Hx. unfold Rsqr in Hx.
    apply elem_of_cons in Hy as [->|Hy].
    + assert ((x - mean) * (x - mean) = 0) as H0 by lra.
      apply Rmult_integral in H0. lra.
    + apply IH; [lra|done].
Qed.

Lemma flat_replicate history x :
  flat history -> x ∈ history -> history = replicate (length history) x.
Proof.
  intros Hflat Hx. induction history as [|y ys IH]; [done|]. simpl.
  assert (y = x) as -> by (apply Hflat; [left|done]).
  f_equal. destruct ys as [|z zs]; [done|].
  apply IH.
  - intros a b Ha Hb. apply Hflat; by right.
  - assert (z = x) as -> by (apply Hflat; [right; left|done]). left.
Qed.

Lemma flat_mean history x : flat history -> x ∈ history -> window_mean history = x.
Proof.
  intros Hflat Hx. unfold window_mean.
  rewrite (flat_replicate history x Hflat Hx) at 1.
  rewrite Rsum_replicate. field. apply not_0_INR.
  destruct history; [by apply elem_of_nil in Hx|done].
Qed.

Lemma std_dev_squares history mean :
  Round2V2.std_dev history mean = sqrt (squares history mean / INR (length history)).
Proof. reflexivity. Qed.

(** X2.  The z-score of round2_v_2 on a window that is not empty.  On a
    flat window (all samples equal) the standard deviation is 0 and the
    z-score is 0, whatever the mid price: the guard [if std > 0 else 0] keeps
    the division away.  On any other window the standard deviation is
    positive, the z-score is [(mid - mean) / std], and it has the sign of
    [mid - mean]: negative exactly when the mid price is under the window's
    mean, positive exactly when it is over it. *)
Theorem zscore_v2_flat_or_signed (history : list R) (mid : R) :
  history <> [] ->
  (flat history ->
   Round2V2.std_dev history (window_mean history) = 0 /\
   Round2V2.zscore history mid = 0) /\
  (~ flat history ->
   0 < Round2V2.std_dev history (window_mean history) /\
   Round2V2.zscore history mid
     = (mid - window_mean history) / Round2V2.std_dev history (window_mean history) /\
   (Round2V2.zscore history mid < 0 <-> mid < window_mean history) /\
   (0 < Round2V2.zscore history mid <-> window_mean history < mid)).
Proof.
  intros Hne.
  assert (Hlen : 0 < INR (length history)).
  { apply lt_0_INR. destruct history; [done|simpl; lia]. }
  split.
  - intros Hflat.
    assert (Hstd : Round2V2.std_dev history (window_mean history) = 0).
    { destruct history as [|x xs]; [done|].
      rewrite (flat_mean (x :: xs) x Hflat) by left.
      rewrite (flat_replicate (x :: xs) x Hflat) by left.
      apply std_dev_replicate. simpl. lia. }
    split; [done|]. by apply zscore_v2_zero_std.
  - intros Hnflat.
    assert (Hsq : 0 < squares history (window_mean history)).
    { destruct (Rle_lt_or_eq_dec _ _ (squares_nonneg history (window_mean history)))
        as [Hlt|Heq]; [done|].
      exfalso. apply Hnflat. intros x y Hx Hy.
      rewrite (squares_zero _ _ (eq_sym Heq) x Hx).
      by rewrite (squares_zero _ _ (eq_sym Heq) y Hy). }
    assert (Hstd : 0 < Round2V2.std_dev history (window_mean history)).
    { rewrite std_dev_squares. apply sqrt_lt_R0. by apply Rdiv_lt_0_compat. }
    assert (Hz : Round2V2.zscore history mid
                 = (mid - window_mean history)
                   / Round2V2.std_dev history (window_mean history)).
    { unfold Round2V2.zscore. fold (window_mean history).
      destruct (Rlt_dec 0 _) as [_|Hn]; [done|]. by destruct Hn. }
    split; [done|]. split; [done|]. rewrite Hz.
    set (std := Round2V2.std_dev history (window_mean history)) in *.
    assert (Hinv : 0 < / std) by (by apply Rinv_0_lt_compat).
    unfold Rdiv. split; split; intros H; nra.
Qed.

(** A window of 1 and 3 around a mid price of 3: not flat, and the z-score
    is positive. *)
Lemma zscore_v2_flat_or_signed_example :
  ~ flat [1; 3] /\ window_mean [1; 3] = 2 /\ 0 < Round2V2.zscore [1; 3] 3.
Proof.
  assert (Hnflat : ~ flat [1; 3]).
  { intros H. assert (1 = 3) by (apply H; [left|right; left]). lra. }
  assert (Hmean : window_mean [1; 3] = 2).
  { unfold window_mean, Numpy.Rsum. simpl. lra. }
  split; [done|]. split; [done|].
  assert (Hne : [1; 3] <> []) by done.
  apply (proj2 (zscore_v2_flat_or_signed [1; 3] 3 Hne) Hnflat). rewrite Hmean. lra.
Defined.

End ZScore.

(** ** Failures inside the orchestrator of round_v_5 *)

Section Isolation.

Import RoundV5.

(** A tick with a two-sided KELP book and a two-sided SQUID_INK book. *)
Definition kelp_squid_state : TradingState :=
  {| timestamp := 0;
     order_depths :=
       <[KELP := {| buy_orders := {[2000 := 10]}; sell_orders := {[2002 := 10]} |}]>
       (<[SQUID_INK := {| buy_orders := {[1900 := 5]}; sell_orders := {[1905 := 5]} |}]> ∅);
     position := ∅ |}.

(** A KELP policy that does not fail: it returns no orders. *)
Definition quiet_policy : policy := fun historical_data _ => (historical_data, Ok []).

Definition resin_policy : policy :=
  fun historical_data state => (historical_data, trade_resin state).

(** X3.  [trade_kelp] fails on every two-sided KELP book: it reads [hist['prices']]
    (absent from the dictionary [__init__] creates) and, were that key
    present, the unbound name [params]. *)
Theorem trade_kelp_always_raises historical_data state od :
  order_depths state !! KELP = Some od ->
  truthy (buy_orders od) = true -> truthy (sell_orders od) = true ->
  exists historical_data' e, trade_kelp historical_data state = (historical_data', Raise e).
Proof.
  intros Hod Hb Hs. unfold trade_kelp, getitem. rewrite Hod.
  destruct (truthy_py_min _ Hs) as [a ->]. destruct (truthy_py_max _ Hb) as [b ->].
  simpl.
  repeat match goal with
  | |- context [hist_append ?h ?p ?n ?x] =>
      destruct (hist_append h p n x) as [? [[]|?]]
  end; eauto.
Qed.

Lemma trade_kelp_always_raises_example :
  exists historical_data' e,
    trade_kelp init_historical_data kelp_squid_state = (historical_data', Raise e).
Proof.
  apply (trade_kelp_always_raises init_historical_data kelp_squid_state
           {| buy_orders := {[2000 := 10]}; sell_orders := {[2002 := 10]} |});
    reflexivity.
Defined.

(** Once the KELP policy raises, [run] returns what it had collected: the
    SQUID_INK policy is not called. *)
Lemma run_with_kelp_failure calls resin kelp squid historical_data state hd1 res1 hd2 e :
  Library.load calls = Ok tt ->
  run_product RAINFOREST_RESIN resin state historical_data [] = (hd1, res1, Ok tt) ->
  is_Some (order_depths state !! KELP) ->
  kelp hd1 state = (hd2, Raise e) ->
  run_with calls resin kelp squid historical_data state
    = (hd2, let* _ := Library.flush calls res1 in Ok res1).
Proof.
  intros Hload Hresin [od Hod] Hkelp. unfold run_with. rewrite Hload, Hresin.
  unfold run_product at 1. by rewrite Hod, Hkelp.
Qed.

(** C5.  [Trader.run] of round_v_5 wraps all products in one [try] block.
    On [kelp_squid_state], with an empty [traderData] and a logger that
    returns, the KELP policy raises [KeyError('prices')]; [run]
    catches it and returns, but with an empty [result] and an untouched
    history: SQUID_INK has no entry and its spread history did not record
    this tick.  Called on its own, [trade_squid] returns an (empty) order
    list and appends the spread 1900 - 2002 to its history, and so does [run]
    when the KELP policy does not fail. *)
Theorem run_failure_not_isolated :
  let spread := (IZR 1900 - squid_hedge_ratio * IZR 2002)%R in
  let recorded :=
    <[SQUID_INK := <["spreads" := [spread]]> (<["timestamps" := [IZR 0]]>
                     (<["timestamps" := []]> (<["spreads" := []]> ∅)))]>
      init_historical_data in
  (trade_kelp init_historical_data kelp_squid_state).2
    = Raise (KeyError (StrKey "prices")) /\
  run Library.quiet init_historical_data kelp_squid_state = (init_historical_data, Ok []) /\
  trade_squid init_historical_data kelp_squid_state = (recorded, Ok []) /\
  run_with Library.quiet resin_policy quiet_policy trade_squid
    init_historical_data kelp_squid_state
    = (recorded, Ok [(KELP, []); (SQUID_INK, [])]).
Proof.
  intros spread recorded. split; [|split; [|split]].
  - reflexivity.
  - reflexivity.
  - reflexivity.
  - reflexivity.
Qed.

End Isolation.

(** ** The replay loop run as a function *)

Section ReplayFunction.

Import Backtester.

Context {trader : Type}.

(** The relation of a trader whose [run] is a function. *)
Definition graph
    (f : trader -> TradingState -> trader * result (list (string * list Order)))
    : trader -> TradingState -> trader -> result (list (string * list Order)) -> Prop :=
  fun tr st tr' out => f tr st = (tr', out).

(** The loop run as a function is a run of the loop. *)
Lemma run_backtest_with_sound f bt tr data :
  run_backtest (graph f) bt tr data (run_backtest_with f bt tr data).
Proof.
  revert bt tr. induction data as [|[ts group] data IH]; intros bt tr; simpl.
  - constructor.
  - destruct (f tr (make_state bt ts group)) as [tr' [res|e]] eqn:Hf; simpl.
    + destruct (settle_tick bt ts group res) as [bt'|e] eqn:Hs; simpl.
      * eapply run_tick; [exact Hf | exact Hs | apply IH].
      * eapply run_settle_raises; [exact Hf | exact Hs].
    + eapply run_trader_raises. exact Hf.
Qed.

End ReplayFunction.

(** Two ticks with a RESIN and a KELP row each. *)
Definition tutorial_ticks : list (Z * list Backtester.csv_row) :=
  [ (0, [Backtester.mkRow RAINFOREST_RESIN
           (Backtester.mkLevel (Some 9996) (Some 10), Backtester.mkLevel None None,
            Backtester.mkLevel None None)
           (Backtester.mkLevel (Some 9997) (Some 5), Backtester.mkLevel None None,
            Backtester.mkLevel None None) (19993 / 2);
         Backtester.mkRow KELP
           (Backtester.mkLevel (Some 2000) (Some 20), Backtester.mkLevel None None,
            Backtester.mkLevel None None)
           (Backtester.mkLevel (Some 2003) (Some 15), Backtester.mkLevel None None,
            Backtester.mkLevel None None) (4003 / 2)]);
    (100, [Backtester.mkRow RAINFOREST_RESIN
             (Backtester.mkLevel (Some 9996) (Some 10),
              Backtester.mkLevel (Some 9995) (Some 20), Backtester.mkLevel None None)
             (Backtester.mkLevel (Some 10004) (Some 10), Backtester.mkLevel None None,
              Backtester.mkLevel None None) 10000;
           Backtester.mkRow KELP
             (Backtester.mkLevel (Some 2001) (Some 10), Backtester.mkLevel None None,
              Backtester.mkLevel None None)
             (Backtester.mkLevel (Some 2002) (Some 10), Backtester.mkLevel None None,
              Backtester.mkLevel None None) (4003 / 2)]) ].

(** ** The trade log reconciles with cash and positions *)

Section Accounting.

Import Backtester.

(** The cash a logged trade moved, and the quantity it added to a product. *)
Definition cash_flow (t : trade) : Z :=
  match tr_side t with
  | Buy => - (tr_price t * tr_quantity t)
  | Sell => tr_price t * tr_quantity t
  end.

Definition signed_quantity (product : string) (t : trade) : Z :=
  if String.eqb (tr_product t) product then
    match tr_side t with
    | Buy => tr_quantity t
    | Sell => - tr_quantity t
    end
  else 0.

Definition sumZ {A} (f : A -> Z) (xs : list A) : Z := foldr (fun x acc => f x + acc) 0 xs.

(** The engine's cash is the sum of the cash flows of its log, and every
    position it holds is the sum of the logged quantities of that product. *)
Definition reconciled (bt : Backtester.t) : Prop :=
  pnl bt = sumZ cash_flow (trade_history bt) /\
  forall product pos,
    current_positions bt !! product = Some pos ->
    pos = sumZ (signed_quantity product) (trade_history bt).

Lemma sumZ_app {A} (f : A -> Z) xs ys : sumZ f (xs ++ ys) = sumZ f xs + sumZ f ys.
Proof. induction xs as [|x xs IH]; simpl; lia. Qed.

Lemma init_reconciled : reconciled init.
Proof.
  split; [done|]. intros product pos. simpl.
  intros [[_ <-]|[_ H]]%lookup_insert_Some; [done|].
  apply lookup_insert_Some in H as [[_ <-]|[_ H]]; [done|].
  by rewrite lookup_empty in H.
Qed.

Lemma record_trade_reconciled bt product price quantity s ts bt' :
  record_trade bt product price quantity s ts = Ok bt' ->
  reconciled bt -> reconciled bt'.
Proof.
  unfold record_trade, getitem.
  destruct (current_positions bt !! product) as [pos|] eqn:Hpos; simpl; [|done].
  intros [= <-] [Hcash Hposn]. split; simpl.
  - rewrite sumZ_app, <- Hcash. unfold sumZ, cash_flow. simpl. destruct s; lia.
  - intros p pos'. rewrite sumZ_app. unfold sumZ at 2. simpl.
    unfold signed_quantity at 2. simpl.
    destruct (String.eqb_spec product p) as [->|Hne].
    + rewrite lookup_insert_eq. intros [= <-]. rewrite <- (Hposn _ _ Hpos).
      destruct s; lia.
    + rewrite lookup_insert_ne by done. intros H. rewrite <- (Hposn _ _ H). lia.
Qed.

Lemma process_order_reconciled bt product order od ts bt' :
  process_order bt product order od ts = Ok bt' ->
  reconciled bt -> reconciled bt'.
Proof.
  unfold process_order.
  destruct (0 <? quantity order).
  - destruct (py_min _) as [a|]; simpl; [|done].
    destruct (a <=? price order); [|by intros [= <-]].
    destruct (getitem_int _ _); simpl; [|done]. apply record_trade_reconciled.
  - destruct (py_max _) as [b|]; simpl; [|done].
    destruct (price order <=? b); [|by intros [= <-]].
    destruct (getitem_int _ _); simpl; [|done]. apply record_trade_reconciled.
Qed.

Lemma process_orders_reconciled bt product orders depths ts bt' :
  process_orders bt product orders depths ts = Ok bt' ->
  reconciled bt -> reconciled bt'.
Proof.
  revert bt. induction orders as [|o orders IH]; intros bt; simpl.
  - by intros [= <-].
  - destruct (getitem depths product) as [od|]; simpl; [|done].
    destruct (process_order bt product o od ts) as [bt1|] eqn:H1; simpl; [|done].
    intros H Hrec. eapply IH; [done|]. by eapply process_order_reconciled.
Qed.

Lemma process_result_reconciled bt res depths ts bt' :
  process_result bt res depths ts = Ok bt' ->
  reconciled bt -> reconciled bt'.
Proof.
  revert bt. induction res as [|[product orders] res IH]; intros bt; simpl.
  - by intros [= <-].
  - destruct (process_orders bt product orders depths ts) as [bt1|] eqn:H1; simpl; [|done].
    intros H Hrec. eapply IH; [done|]. by eapply process_orders_reconciled.
Qed.

Lemma settle_tick_reconciled bt ts group res bt' :
  settle_tick bt ts group res = Ok bt' ->
  reconciled bt -> reconciled bt'.
Proof.
  unfold settle_tick.
  destruct (process_result _ _ _ _) as [bt1|] eqn:H1; simpl; [|done].
  unfold append_row.
  destruct (getitem _ RAINFOREST_RESIN); simpl; [|done].
  destruct (getitem _ KELP); simpl; [|done].
  intros [= <-] Hrec. exact (process_result_reconciled _ _ _ _ _ H1 Hrec).
Qed.

Lemma run_backtest_reconciled {trader : Type}
    (run : trader -> TradingState -> trader -> result (list (string * list Order)) -> Prop)
    bt tr data final :
  run_backtest run bt tr data final ->
  forall bt', final = Ok bt' -> reconciled bt -> reconciled bt'.
Proof.
  induction 1 as [bt tr| | |bt tr ts group rest tr' res bt1 final Hrun Hsettle Hrest IH];
    intros bt' Hfinal Hrec; try done.
  - by injection Hfinal as <-.
  - apply IH; [done|]. by eapply settle_tick_reconciled.
Qed.

(** X4.  Whatever the trader does, a replay that starts from a fresh engine
    and ends without an exception leaves an engine whose cash is the sum,
    over the trade log, of [-price * quantity] for buys and
    [price * quantity] for sells, and whose position in each product is the
    sum of the logged buy quantities minus the logged sell quantities of that
    product. *)
Theorem run_backtest_log_reconciles {trader : Type}
    (run : trader -> TradingState -> trader -> result (list (string * list Order)) -> Prop)
    (tr : trader) (data : list (Z * list csv_row)) (bt' : Backtester.t) :
  run_backtest run init tr data (Ok bt') -> reconciled bt'.
Proof.
  intros H. eapply run_backtest_reconciled; [exact H|done|apply init_reconciled].
Qed.

End Accounting.

Lemma run_backtest_log_reconciles_example :
  exists bt',
    Backtester.run_backtest_with TradeV16.run Backtester.init TradeV16.init tutorial_ticks
      = Ok bt' /\
    reconciled bt' /\ Backtester.pnl bt' = - 70005.
Proof.
  pose proof (run_backtest_with_sound TradeV16.run Backtester.init TradeV16.init
                tutorial_ticks) as Hsound.
  assert (Hpnl : match Backtester.run_backtest_with TradeV16.run Backtester.init
                         TradeV16.init tutorial_ticks with
                 | Ok bt => Backtester.pnl bt = - 70005
                 | Raise _ => False
                 end) by (vm_compute; reflexivity).
  destruct (Backtester.run_backtest_with TradeV16.run Backtester.init TradeV16.init
              tutorial_ticks) as [bt'|e]; [|done].
  exists bt'. split; [done|]. split; [|done].
  exact (run_backtest_log_reconciles _ _ _ _ Hsound).
Defined.

(** ** The rows a replay returns, and the books it builds *)

Section Rows.

Import Backtester.

(** Whatever [_record_trade] preserves, the matching of a whole [result]
    dictionary preserves. *)
Lemma process_result_preserves (P : Backtester.t -> Prop) :
  (forall bt product price quantity s ts bt',
     record_trade bt product price quantity s ts = Ok bt' -> P bt -> P bt') ->
  forall res bt depths ts bt',
    process_result bt res depths ts = Ok bt' -> P bt -> P bt'.
Proof.
  intros Hrec.
  assert (Horder : forall bt product order od ts bt',
             process_order bt product order od ts = Ok bt' -> P bt -> P bt').
  { intros bt product order od ts bt'. unfold process_order.
    destruct (0 <? quantity order).
    - destruct (py_min _) as [a|]; simpl; [|done].
      destruct (a <=? price order); [|by intros [= <-]].
      destruct (getitem_int _ _); simpl; [|done]. apply Hrec.
    - destruct (py_max _) as [b|]; simpl; [|done].
      destruct (price order <=? b); [|by intros [= <-]].
      destruct (getitem_int _ _); simpl; [|done]. apply Hrec. }
  assert (Horders : forall orders bt product depths ts bt',
             process_orders bt product orders depths ts = Ok bt' -> P bt -> P bt').
  { induction orders as [|o orders IH]; intros bt product depths ts bt'; simpl.
    - by intros [= <-].
    - destruct (getitem depths product) as [od|]; simpl; [|done].
      destruct (process_order bt product o od ts) as [bt1|] eqn:H1; simpl; [|done].
      intros H HP. eapply IH; [done|]. by eapply Horder. }
  induction res as [|[product orders] res IH]; intros bt depths ts bt'; simpl.
  - by intros [= <-].
  - destruct (process_orders bt product orders depths ts) as [bt1|] eqn:H1; simpl; [|done].
    intros H HP. eapply IH; [done|]. by eapply Horders.
Qed.

Lemma process_result_results bt res depths ts bt' :
  process_result bt res depths ts = Ok bt' -> results bt' = results bt.
Proof.
  intros H.
  apply (process_result_preserves (fun b => results b = results bt)) in H; [done| |done].
  intros b product price quantity s ts' b'. unfold record_trade.
  destruct (getitem _ _); simpl; [|done]. by intros [= <-].
Qed.

Lemma settle_tick_rows_step bt ts group res bt' :
  settle_tick bt ts group res = Ok bt' ->
  exists row, results bt' = results bt ++ [row] /\ md_timestamp row = ts.
Proof.
  unfold settle_tick.
  destruct (process_result _ _ _ _) as [bt1|] eqn:H1; simpl; [|done].
  unfold append_row.
  destruct (getitem _ RAINFOREST_RESIN); simpl; [|done].
  destruct (getitem _ KELP); simpl; [|done].
  intros [= <-]. eexists. simpl. rewrite (process_result_results _ _ _ _ _ H1). done.
Qed.

(** X5.  A settled tick appends exactly one row to the output.  The row
    carries the tick's timestamp; its [pnl] is the cash the engine held
    before the tick's orders were matched, while its two position columns
    and its trailing volume are read after they were matched. *)
Theorem settle_tick_row
    (bt : Backtester.t) (ts : Z) (group : list csv_row)
    (res : list (string * list Order)) (bt' : Backtester.t) :
  settle_tick bt ts group res = Ok bt' ->
  exists row,
    results bt' = results bt ++ [row] /\
    md_timestamp row = ts /\
    md_pnl row = pnl bt /\
    current_positions bt' !! RAINFOREST_RESIN = Some (md_resin_position row) /\
    current_positions bt' !! KELP = Some (md_kelp_position row) /\
    md_total_volume row = trailing_volume (trade_history bt').
Proof.
  unfold settle_tick.
  destruct (process_result _ _ _ _) as [bt1|] eqn:H1; simpl; [|done].
  unfold append_row, getitem.
  destruct (current_positions bt1 !! RAINFOREST_RESIN) as [r|] eqn:Hr; simpl; [|done].
  destruct (current_positions bt1 !! KELP) as [k|] eqn:Hk; simpl; [|done].
  intros [= <-]. eexists. simpl. rewrite (process_result_results _ _ _ _ _ H1).
  repeat split; done.
Qed.

(** The tick of [rich_bid_row] replayed with the orders of trade_v16: the
    row shows a cash of 0 and the position of -50 reached by the fills. *)
Lemma settle_tick_row_example :
  exists bt' row,
    settle_tick init 0 [rich_bid_row]
      [(RAINFOREST_RESIN,
        [mkOrder RAINFOREST_RESIN 10005 (-40); mkOrder RAINFOREST_RESIN 9998 50;
         mkOrder RAINFOREST_RESIN 10005 (-10)])] = Ok bt' /\
    results bt' = [row] /\ md_pnl row = 0 /\ md_resin_position row = -50 /\
    pnl bt' = 500250.
Proof.
  destruct (settle_tick init 0 [rich_bid_row] _) as [bt'|e] eqn:Hsettle;
    [|by vm_compute in Hsettle].
  destruct (settle_tick_row _ _ _ _ _ Hsettle)
    as (row & Hrows & _ & Hpnl & Hresin & _ & _).
  exists bt', row. split; [done|]. split; [exact Hrows|]. split; [exact Hpnl|].
  assert (Hafter : current_positions bt' !! RAINFOREST_RESIN = Some (-50) /\
                   pnl bt' = 500250).
  { vm_compute in Hsettle. injection Hsettle as <-. split; reflexivity. }
  destruct Hafter as [Hpos Hcash]. split; [congruence|done].
Defined.

Lemma run_backtest_rows {trader : Type}
    (run : trader -> TradingState -> trader -> result (list (string * list Order)) -> Prop)
    bt tr data final :
  run_backtest run bt tr data final ->
  forall bt', final = Ok bt' ->
    md_timestamp <$> results bt' = (md_timestamp <$> results bt) ++ data.*1.
Proof.
  induction 1 as [bt tr| | |bt tr ts group rest tr' res bt1 final Hrun Hsettle Hrest IH];
    intros bt' Hfinal; try done.
  - injection Hfinal as <-. simpl. by rewrite app_nil_r.
  - rewrite (IH _ Hfinal).
    destruct (settle_tick_rows_step _ _ _ _ _ Hsettle) as (row & -> & <-).
    rewrite fmap_app. simpl. by rewrite <- app_assoc.
Qed.

(** X6.  A replay that starts from a fresh engine and ends without an
    exception returns exactly one row per tick of its input, in the order of
    the ticks: the timestamps of its rows are the timestamps of the input
    groups. *)
Theorem run_backtest_one_row_per_tick {trader : Type}
    (run : trader -> TradingState -> trader -> result (list (string * list Order)) -> Prop)
    (tr : trader) (data : list (Z * list csv_row)) (bt' : Backtester.t) :
  run_backtest run init tr data (Ok bt') ->
  md_timestamp <$> results bt' = data.*1 /\ length (results bt') = length data.
Proof.
  intros H. pose proof (run_backtest_rows _ _ _ _ _ H _ eq_refl) as Hrows.
  simpl in Hrows. split; [done|].
  apply (f_equal length) in Hrows. by rewrite !length_fmap in Hrows.
Qed.

Lemma foldl_add_level_lookup ls d p v :
  foldl add_level d ls !! p = Some v ->
  d !! p = Some v \/
  exists l, l ∈ ls /\ lv_price l = Some p /\ lv_volume l = Some v.
Proof.
  revert d. induction ls as [|l ls IH]; intros d; simpl; [by left|].
  intros H. destruct (IH _ H) as [Hd|(l' & Hin & Hp & Hv)].
  - unfold add_level in Hd.
    destruct (lv_price l) as [p'|] eqn:Hp; [|by left].
    destruct (lv_volume l) as [v'|] eqn:Hv; [|by left].
    apply lookup_insert_Some in Hd as [[-> ->]|[_ Hd]]; [|by left].
    right. exists l. split; [left|done].
  - right. exists l'. split; [by right|done].
Qed.

Lemma foldl_add_level_some ls d p :
  is_Some (d !! p) \/
  (exists l, l ∈ ls /\ lv_price l = Some p /\ is_Some (lv_volume l)) ->
  is_Some (foldl add_level d ls !! p).
Proof.
  revert d. induction ls as [|l ls IH]; intros d; simpl.
  - intros [H|(l & Hin & _)]; [done|]. by apply elem_of_nil in Hin.
  - intros [H|(l' & Hin & Hp & Hv)].
    + apply IH. left. unfold add_level.
      destruct (lv_price l) as [p'|]; [|done]. destruct (lv_volume l) as [v'|]; [|done].
      destruct (decide (p' = p)) as [->|Hne].
      * rewrite lookup_insert_eq. eauto.
      * by rewrite lookup_insert_ne.
    + apply elem_of_cons in Hin as [->|Hin].
      * apply IH. left. unfold add_level. rewrite Hp. destruct Hv as [v ->].
        rewrite lookup_insert_eq. eauto.
      * apply IH. right. eauto.
Qed.

(** X7.  The book built from an input row holds a price exactly when some
    level of that side has both its price cell and its volume cell present,
    and the volume it holds at a price is the volume cell of such a level: a
    level with a missing cell is skipped, never entered with volume 0. *)
Theorem build_order_depth_levels (row : csv_row) :
  (forall p, is_Some (buy_orders (build_order_depth row) !! p) <->
     exists l, l ∈ levels (row_bids row) /\ lv_price l = Some p /\ is_Some (lv_volume l)) /\
  (forall p v, buy_orders (build_order_depth row) !! p = Some v ->
     exists l, l ∈ levels (row_bids row) /\ lv_price l = Some p /\ lv_volume l = Some v) /\
  (forall p, is_Some (sell_orders (build_order_depth row) !! p) <->
     exists l, l ∈ levels (row_asks row) /\ lv_price l = Some p /\ is_Some (lv_volume l)) /\
  (forall p v, sell_orders (build_order_depth row) !! p = Some v ->
     exists l, l ∈ levels (row_asks row) /\ lv_price l = Some p /\ lv_volume l = Some v).
Proof.
  assert (Hgen : forall ls,
    (forall p, is_Some (foldl add_level ∅ ls !! p) <->
       exists l, l ∈ ls /\ lv_price l = Some p /\ is_Some (lv_volume l)) /\
    (forall p v, foldl add_level ∅ ls !! p = Some v ->
       exists l, l ∈ ls /\ lv_price l = Some p /\ lv_volume l = Some v)).
  { intros ls. split.
    - intros p. split.
      + intros [v Hv]. apply foldl_add_level_lookup in Hv as [Hv|(l & ? & ? & ?)].
        * by rewrite lookup_empty in Hv.
        * exists l. eauto.
      + intros H. apply foldl_add_level_some. by right.
    - intros p v Hv. apply foldl_add_level_lookup in Hv as [Hv|H]; [|done].
      by rewrite lookup_empty in Hv. }
  unfold build_order_depth. simpl.
  destruct (Hgen (levels (row_bids row))) as [? ?].
  destruct (Hgen (levels (row_asks row))) as [? ?]. done.
Qed.

End Rows.

Lemma run_backtest_one_row_per_tick_example :
  exists bt',
    Backtester.run_backtest_with TradeV16.run Backtester.init TradeV16.init tutorial_ticks
      = Ok bt' /\
    Backtester.md_timestamp <$> Backtester.results bt' = [0; 100].
Proof.
  pose proof (run_backtest_with_sound TradeV16.run Backtester.init TradeV16.init
                tutorial_ticks) as Hsound.
  destruct (Backtester.run_backtest_with TradeV16.run Backtester.init TradeV16.init
              tutorial_ticks) as [bt'|e] eqn:Hrun; [|by vm_compute in Hrun].
  exists bt'. split; [done|].
  exact (proj1 (run_backtest_one_row_per_tick _ _ _ _ Hsound)).
Defined.

(** ** The trader of trade_v16: no exception, no order on the wrong side *)

Section TraderV16.

Lemma getitem_int_min_key {V} (d : gmap Z V) a :
  py_min (keys d) = Ok a -> exists v, getitem_int d a = Ok v.
Proof. intros [v Hv]%min_key_lookup. exists v. unfold getitem_int. by rewrite Hv. Qed.

Lemma getitem_int_max_key {V} (d : gmap Z V) b :
  py_max (keys d) = Ok b -> exists v, getitem_int d b = Ok v.
Proof. intros [v Hv]%max_key_lookup. exists v. unfold getitem_int. by rewrite Hv. Qed.

Lemma resin_strategy_v16_total product od fair_value width position limit :
  exists orders,
    TradeV16.resin_strategy product od fair_value width position limit = Ok orders.
Proof.
  unfold TradeV16.resin_strategy.
  destruct (truthy (sell_orders od)) eqn:Hs.
  - destruct (truthy_py_min _ Hs) as [a Ha]. rewrite Ha.
    destruct (getitem_int_min_key _ _ Ha) as [ra Hra]. simpl. rewrite Hra. simpl.
    destruct (truthy (buy_orders od)) eqn:Hb.
    + destruct (truthy_py_max _ Hb) as [b Hb']. rewrite Hb'.
      destruct (getitem_int_max_key _ _ Hb') as [rb Hrb]. simpl. rewrite Hrb. simpl.
      repeat match goal with
      | |- context [if ?c then _ else _] => destruct c; simpl
      end; eauto.
    + repeat match goal with
      | |- context [if ?c then _ else _] => destruct c; simpl
      end; eauto.
  - simpl. destruct (truthy (buy_orders od)) eqn:Hb.
    + destruct (truthy_py_max _ Hb) as [b Hb']. rewrite Hb'.
      destruct (getitem_int_max_key _ _ Hb') as [rb Hrb]. simpl. rewrite Hrb. simpl.
      repeat match goal with
      | |- context [if ?c then _ else _] => destruct c; simpl
      end; eauto.
    + simpl.
      repeat match goal with
      | |- context [if ?c then _ else _] => destruct c; simpl
      end; eauto.
Qed.

Lemma kelp_vwap_update_not_nil {A} (kelp_vwap : list A) entry timespan :
  TradeV16.kelp_vwap_update kelp_vwap entry timespan <> [].
Proof.
  unfold TradeV16.kelp_vwap_update. destruct kelp_vwap as [|x w]; simpl.
  - destruct (_ <? _); done.
  - destruct (_ <? _); simpl; [|done]. by destruct w.
Qed.

Lemma getitem_first_Ok {A} (xs : list A) : xs <> [] -> exists x, getitem_first xs = Ok x.
Proof. destruct xs; [done|]. simpl. eauto. Qed.

Lemma getitem_last_Ok {A} (xs : list A) : xs <> [] -> exists x, getitem_last xs = Ok x.
Proof.
  intros H. unfold getitem_last. destruct (last xs) eqn:Hl; [eauto|].
  by apply last_None in Hl.
Qed.

Lemma kelp_strategy_v16_total kelp_vwap product od timespan position limit
    take_spread min_edge :
  exists kelp_vwap' orders,
    TradeV16.kelp_strategy kelp_vwap product od timespan position limit
      take_spread min_edge = (kelp_vwap', Ok orders).
Proof.
  unfold TradeV16.kelp_strategy.
  destruct (truthy (sell_orders od)) eqn:Hs; simpl; [|eauto].
  destruct (truthy (buy_orders od)) eqn:Hb; simpl; [|eauto].
  destruct (truthy_py_min _ Hs) as [a Ha]. rewrite Ha.
  destruct (truthy_py_max _ Hb) as [b Hb']. rewrite Hb'.
  destruct (getitem_int_min_key _ _ Ha) as [ra Hra].
  destruct (getitem_int_max_key _ _ Hb') as [rb Hrb].
  simpl. rewrite Hra, Hrb. simpl.
  match goal with
  | |- context [getitem_last ?w] =>
      destruct (getitem_last_Ok w) as [newest ->];
        [apply kelp_vwap_update_not_nil|];
      destruct (getitem_first_Ok w) as [oldest ->];
        [apply kelp_vwap_update_not_nil|]
  end.
  simpl. eauto.
Qed.

(** X8.  [Trader.run] of trade_v16 never raises, whatever the state and
    whatever the trader's history: the lookups of its strategies are all
    guarded, and the VWAP window is never empty when its ends are read.  In
    a replay with this trader every exception comes from the engine. *)
Theorem run_v16_never_raises (self : TradeV16.t) (state : TradingState) :
  exists self' res, TradeV16.run self state = (self', Ok res).
Proof.
  unfold TradeV16.run. cbn [TradeV16.kelp_vwap TradeV16.tick].
  destruct (order_depths state !! RAINFOREST_RESIN) as [od|].
  - destruct (resin_strategy_v16_total RAINFOREST_RESIN od 10000 2
                (position_get state RAINFOREST_RESIN) 50) as [orders ->].
    cbn [Py.bind].
    destruct (order_depths state !! KELP) as [odk|]; [|eauto].
    destruct (kelp_strategy_v16_total (TradeV16.kelp_vwap self) KELP odk 12
                (position_get state KELP) 50 3 2) as (w & ko & ->).
    cbn [Py.bind]. eauto.
  - destruct (order_depths state !! KELP) as [odk|]; [|eauto].
    destruct (kelp_strategy_v16_total (TradeV16.kelp_vwap self) KELP odk 12
                (position_get state KELP) 50 3 2) as (w & ko & ->).
    cbn [Py.bind]. eauto.
Qed.

Lemma py_max_default_filter_lt xs bound d :
  d < bound -> py_max_default (List.filter (fun p => p <? bound) xs) d < bound.
Proof.
  intros Hd. unfold py_max_default.
  destruct (py_max _) as [m|] eqn:Hm; [|done].
  apply py_max_Ok in Hm as [Hin _]. apply list_elem_of_In, filter_In in Hin as [_ Hlt].
  by apply Z.ltb_lt.
Qed.

Lemma py_min_default_filter_gt xs bound d :
  bound < d -> bound < py_min_default (List.filter (fun p => bound <? p) xs) d.
Proof.
  intros Hd. unfold py_min_default.
  destruct (py_min _) as [m|] eqn:Hm; [|done].
  apply py_min_Ok in Hm as [Hin _]. apply list_elem_of_In, filter_In in Hin as [_ Hlt].
  by apply Z.ltb_lt.
Qed.

(** What [resin_strategy] promises about one of its orders: it is on the
    product, it is not empty, a buy is priced at or below
    [fair_value - width] and a sell at or above [fair_value + width]. *)
Definition keeps_edge (product : string) (fair_value width : Z) (o : Order) : Prop :=
  symbol o = product /\ quantity o <> 0 /\
  (0 < quantity o -> price o <= fair_value - width) /\
  (quantity o < 0 -> fair_value + width <= price o).

(** X9.  Every order [resin_strategy] of trade_v16 returns keeps the edge:
    it never bids above [fair_value - width], never offers below
    [fair_value + width], and never sends an order of quantity 0, on any
    book and at any position. *)
Theorem resin_strategy_v16_keeps_edge
    (product : string) (od : OrderDepth) (fair_value width position limit : Z)
    (orders : list Order) :
  TradeV16.resin_strategy product od fair_value width position limit = Ok orders ->
  Forall (keeps_edge product fair_value width) orders.
Proof.
  intros H.
  pose proof (py_max_default_filter_lt (keys (buy_orders od)) (fair_value - width)
                (fair_value - width - 1) ltac:(lia)) as Hbbbf.
  pose proof (py_min_default_filter_gt (keys (sell_orders od)) (fair_value + width)
                (fair_value + width + 1) ltac:(lia)) as Hbaaf.
  unfold TradeV16.resin_strategy in H.
  set (bbbf := py_max_default _ _) in *. set (baaf := py_min_default _ _) in *.
  clearbody bbbf baaf.
  repeat match type of H with
  | context [if ?b then _ else _] => destruct b eqn:?; simpl in H
  | context [py_min ?xs] => destruct (py_min xs); simpl in H
  | context [py_max ?xs] => destruct (py_max xs); simpl in H
  | context [getitem_int ?d ?k] => destruct (getitem_int d k); simpl in H
  | _ => discriminate H
  end;
  injection H as <-;
  repeat match goal with
  | H : (_ <? _) = true |- _ => apply Z.ltb_lt in H
  | H : (_ <? _) = false |- _ => apply Z.ltb_ge in H
  | H : (_ <=? _) = true |- _ => apply Z.leb_le in H
  | H : (_ <=? _) = false |- _ => apply Z.leb_gt in H
  end;
  repeat constructor; simpl; lia.
Qed.

Lemma resin_strategy_v16_keeps_edge_example :
  Forall (keeps_edge RAINFOREST_RESIN 10000 2)
    [mkOrder RAINFOREST_RESIN 9995 10; mkOrder RAINFOREST_RESIN 9991 40;
     mkOrder RAINFOREST_RESIN 10002 (-50)].
Proof.
  apply (resin_strategy_v16_keeps_edge RAINFOREST_RESIN cheap_ask_book 10000 2 0 50).
  reflexivity.
Defined.

End TraderV16.

(** ** The trader of trade_v17_vwap *)

Section TraderV17.

Lemma not_empty_truthy {V} (d : gmap Z V) : d <> ∅ -> truthy d = true.
Proof. intros H. destruct (truthy d) eqn:Ht; [done|]. by apply truthy_false in Ht. Qed.

(** X10.  [fixed_resin_strategy] of trade_v17_vwap reads the best ask and
    the best bid without a guard: it raises [ValueError] when either side of
    the book is empty, and returns orders when both sides hold a level.  The
    tick counter is advanced either way. *)
Theorem fixed_resin_strategy_one_sided_book
    (resin_tick : Z) (product : string) (od : OrderDepth)
    (position limit fair_value base_width : Z) :
  (TradeV17.fixed_resin_strategy resin_tick product od position limit
     fair_value base_width).1 = resin_tick + 1 /\
  (sell_orders od = ∅ \/ buy_orders od = ∅ ->
   (TradeV17.fixed_resin_strategy resin_tick product od position limit
      fair_value base_width).2 = Raise ValueError) /\
  (sell_orders od <> ∅ -> buy_orders od <> ∅ ->
   exists orders,
     (TradeV17.fixed_resin_strategy resin_tick product od position limit
        fair_value base_width).2 = Ok orders).
Proof.
  unfold TradeV17.fixed_resin_strategy. simpl. split; [done|]. split.
  - intros [Hs|Hb].
    + by rewrite Hs, py_min_keys_empty.
    + rewrite Hb, py_max_keys_empty.
      destruct (py_min (keys (sell_orders od))) as [a|e] eqn:Ha; [done|].
      by apply py_min_Raise in Ha as [_ ->].
  - intros Hs%not_empty_truthy Hb%not_empty_truthy.
    destruct (truthy_py_min _ Hs) as [a Ha]. rewrite Ha.
    destruct (truthy_py_max _ Hb) as [b Hb']. rewrite Hb'.
    destruct (getitem_int_min_key _ _ Ha) as [ra Hra].
    destruct (getitem_int_max_key _ _ Hb') as [rb Hrb].
    simpl. rewrite Hra, Hrb. simpl. eauto.
Qed.

Lemma compute_vwap_value od a b ra rb :
  py_min (keys (sell_orders od)) = Ok a ->
  py_max (keys (buy_orders od)) = Ok b ->
  sell_orders od !! a = Some ra -> buy_orders od !! b = Some rb ->
  TradeV17.compute_vwap od =
    Ok (if 0 <? - ra + rb then (IZR (a * rb + b * - ra) / IZR (- ra + rb))%R
        else (IZR (a + b) / 2)%R).
Proof.
  intros Ha Hb Hra Hrb. unfold TradeV17.compute_vwap, getitem_int.
  rewrite Ha, Hb. simpl. rewrite Hra, Hrb. done.
Qed.

(** X11.  On a book that is not crossed and whose volumes have the signs of
    the exchange (the resting volume at the best ask is at most 0, the one
    at the best bid at least 0), [compute_vwap] returns a price between the
    best bid and the best ask. *)
Theorem compute_vwap_within_spread (od : OrderDepth) (a b ra rb : Z) :
  py_min (keys (sell_orders od)) = Ok a ->
  py_max (keys (buy_orders od)) = Ok b ->
  sell_orders od !! a = Some ra -> buy_orders od !! b = Some rb ->
  ra <= 0 -> 0 <= rb -> b <= a ->
  exists v, TradeV17.compute_vwap od = Ok v /\ (IZR b <= v <= IZR a)%R.
Proof.
  intros Ha Hb Hra Hrb Hsa Hsb Hba.
  rewrite (compute_vwap_value _ _ _ _ _ Ha Hb Hra Hrb). eexists. split; [done|].
  apply IZR_le in Hba as Hba'.
  destruct (Z.ltb_spec 0 (- ra + rb)) as [Hpos|Hzero].
  - assert (Ht : (0 < IZR (- ra + rb))%R) by (by apply IZR_lt).
    split.
    + apply Rmult_le_reg_r with (IZR (- ra + rb)); [done|].
      unfold Rdiv. rewrite Rmult_assoc, Rinv_l, Rmult_1_r by lra.
      rewrite <- mult_IZR. apply IZR_le. nia.
    + apply Rmult_le_reg_r with (IZR (- ra + rb)); [done|].
      unfold Rdiv. rewrite Rmult_assoc, Rinv_l, Rmult_1_r by lra.
      rewrite <- mult_IZR. apply IZR_le. nia.
  - rewrite plus_IZR. lra.
Qed.

Lemma compute_vwap_within_spread_example :
  exists v, TradeV17.compute_vwap cheap_ask_book = Ok v /\ (IZR 9990 <= v <= IZR 9995)%R.
Proof.
  apply (compute_vwap_within_spread cheap_ask_book 9995 9990 (-10) 10);
    try reflexivity; lia.
Defined.

Lemma compute_vwap_total od :
  truthy (sell_orders od) = true -> truthy (buy_orders od) = true ->
  exists v, TradeV17.compute_vwap od = Ok v.
Proof.
  intros Hs Hb.
  destruct (truthy_py_min _ Hs) as [a Ha]. destruct (truthy_py_max _ Hb) as [b Hb'].
  destruct (min_key_lookup _ _ Ha) as [ra Hra].
  destruct (max_key_lookup _ _ Hb') as [rb Hrb].
  rewrite (compute_vwap_value _ _ _ _ _ Ha Hb' Hra Hrb). eauto.
Qed.

(** X12.  [kelp_momentum_strategy] of trade_v17_vwap has a warm-up: as long
    as its VWAP history holds fewer than [window] samples after the update,
    it returns no order (for a momentum threshold that is not negative, as
    the 0.3 of its caller).  Whenever it returns, it returns at most one
    order. *)
Theorem kelp_momentum_warm_up
    (kelp_vwap_history : list R) (product : string) (od : OrderDepth)
    (position limit window : Z) (take_threshold momentum_threshold : R) :
  (0 <= momentum_threshold)%R ->
  (Z.of_nat (length (TradeV17.kelp_momentum_strategy kelp_vwap_history product od
                       position limit window take_threshold momentum_threshold).1)
     < window ->
   (TradeV17.kelp_momentum_strategy kelp_vwap_history product od
      position limit window take_threshold momentum_threshold).2 = Ok []) /\
  (forall orders,
     (TradeV17.kelp_momentum_strategy kelp_vwap_history product od
        position limit window take_threshold momentum_threshold).2 = Ok orders ->
     (length orders <= 1)%nat).
Proof.
  intros Hthr. unfold TradeV17.kelp_momentum_strategy.
  destruct (truthy (sell_orders od)) eqn:Hs; cbn [negb orb fst snd];
    [|split; [done|intros ? [= <-]; simpl; lia]].
  destruct (truthy (buy_orders od)) eqn:Hb; cbn [negb orb fst snd];
    [|split; [done|intros ? [= <-]; simpl; lia]].
  destruct (truthy_py_min _ Hs) as [a Ha]. rewrite Ha.
  destruct (truthy_py_max _ Hb) as [b Hb']. rewrite Hb'.
  destruct (compute_vwap_total _ Hs Hb) as [v ->].
  destruct (getitem_int_min_key _ _ Ha) as [ra Hra].
  destruct (getitem_int_max_key _ _ Hb') as [rb Hrb].
  cbn [Py.bind fst snd]. rewrite Hra, Hrb.
  set (history := if window <? _ then _ else _).
  split.
  - intros Hshort. destruct (Z.leb_spec window (Z.of_nat (length history))); [lia|].
    cbn [Py.bind].
    destruct (Rlt_dec momentum_threshold 0); [lra|].
    destruct (Rlt_dec 0 (- momentum_threshold)); [lra|done].
  - intros orders.
    destruct (window <=? Z.of_nat (length history)).
    + destruct (getitem_first history) as [oldest|e]; cbn [Py.bind]; [|done].
      repeat match goal with
      | |- context [if ?c then _ else _] => destruct c
      end; intros [= <-]; simpl; lia.
    + cbn [Py.bind].
      repeat match goal with
      | |- context [if ?c then _ else _] => destruct c
      end; intros [= <-]; simpl; lia.
Qed.

(** The first KELP tick of a fresh trader: one sample in the history, no
    order. *)
Lemma kelp_momentum_warm_up_example :
  (TradeV17.kelp_momentum_strategy [] KELP cheap_ask_book 0 50 6 (3 / 2) (3 / 10)).2
    = Ok [].
Proof.
  apply (kelp_momentum_warm_up [] KELP cheap_ask_book 0 50 6 (3 / 2) (3 / 10)).
  - lra.
  - unfold TradeV17.kelp_momentum_strategy.
    replace (truthy (sell_orders cheap_ask_book)) with true by reflexivity.
    replace (truthy (buy_orders cheap_ask_book)) with true by reflexivity.
    replace (py_min (keys (sell_orders cheap_ask_book))) with (Ok 9995 : result Z)
      by reflexivity.
    replace (py_max (keys (buy_orders cheap_ask_book))) with (Ok 9990 : result Z)
      by reflexivity.
    destruct (compute_vwap_total cheap_ask_book eq_refl eq_refl) as [v ->].
    simpl. lia.
Defined.

End TraderV17.

(** ** More facts of the runtime *)

Section RuntimeFacts.

Lemma Forall_dict_set (P : string * list Order -> Prop) res product orders :
  Forall P res -> P (product, orders) -> Forall P (RoundV5.dict_set res product orders).
Proof.
  intros Hres HP. induction Hres as [|[k v] res Hkv Hres IH]; simpl.
  - by constructor.
  - destruct (String.eqb_spec k product) as [->|Hne]; constructor; done.
Qed.

Lemma getitem_Ok {V} (d : gmap string V) k v : getitem d k = Ok v <-> d !! k = Some v.
Proof. unfold getitem. destruct (d !! k); split; congruence. Qed.

Lemma getitem_int_Ok {V} (d : gmap Z V) k v : getitem_int d k = Ok v <-> d !! k = Some v.
Proof. unfold getitem_int. destruct (d !! k); split; congruence. Qed.

Lemma bind_Ok {A B} (c : result A) (k : A -> result B) b :
  Py.bind c k = Ok b <-> exists a, c = Ok a /\ k a = Ok b.
Proof.
  destruct c as [a|e]; simpl; split.
  - intros H. by exists a.
  - by intros (a' & [= <-] & H).
  - done.
  - by intros (a' & ? & _).
Qed.

End RuntimeFacts.

(** ** Taking the best orders of a book (round2_v_2 and round2_v_3) *)

Section TakeBest.
Import Round2V2Orders.

(** The number of units a list of orders asks for, buys and sells alike. *)
Definition units (orders : list Order) : Z := total (fun o => Z.abs (quantity o)) orders.

(** The number of units resting on one side of a book. *)
Definition resting (book : list (Z * Z)) : Z := sumZ (fun kv => Z.abs kv.2) book.

(** The side of the book that [take_best_order] walks. *)
Definition walked (depth : OrderDepth) (is_buy : bool) : gmap Z Z :=
  if is_buy then sell_orders depth else buy_orders depth.

(** An order of [take_best_order]: for the right symbol, on the right
    side, at a price level of the book it walks and for no more than that
    level holds. *)
Definition takes_from (sym : string) (is_buy : bool) (book : list (Z * Z)) (o : Order)
    : Prop :=
  symbol o = sym /\
  (if is_buy then 0 < quantity o else quantity o < 0) /\
  exists v, (price o, v) ∈ book /\ Z.abs (quantity o) <= Z.abs v.

Lemma take_loop_spec sym is_buy sorted_book : forall max_qty orders,
  exists taken,
    take_loop sym is_buy sorted_book max_qty orders = orders ++ taken /\
    Forall (takes_from sym is_buy sorted_book) taken /\
    units taken <= Z.max 0 max_qty /\
    price <$> taken `prefix_of` sorted_book.*1.
Proof.
  induction sorted_book as [|[p q] rest IH]; intros max_qty orders; simpl.
  - exists []. rewrite app_nil_r. repeat split; [constructor|unfold units; simpl; lia|done].
  - destruct (Z.leb_spec (Z.min (Z.abs q) max_qty) 0) as [Hle|Hgt].
    + exists []. rewrite app_nil_r.
      repeat split; [constructor|unfold units; simpl; lia|apply prefix_nil].
    + destruct (IH (max_qty - Z.min (Z.abs q) max_qty)
                  (orders ++ [mkOrder sym p (if is_buy then Z.min (Z.abs q) max_qty
                                             else - Z.min (Z.abs q) max_qty)]))
        as (taken & -> & Hall & Htot & Hpre).
      eexists (_ :: taken). rewrite <- app_assoc. split; [reflexivity|]. repeat split.
      * constructor.
        -- repeat split; simpl; [destruct is_buy; lia|].
           exists q. split; [left|destruct is_buy; lia].
        -- eapply Forall_impl; [exact Hall|]. intros o (? & ? & v & ? & ?).
           repeat split; [done..|]. exists v. split; [by right|done].
      * unfold units in *. simpl. destruct is_buy; simpl; lia.
      * simpl. by apply prefix_cons.
Qed.

Lemma resting_nonneg book : 0 <= resting book.
Proof. induction book as [|[p q] rest IH]; unfold resting in *; simpl; lia. Qed.

Lemma take_loop_exact sym is_buy sorted_book : forall max_qty orders,
  Forall (fun kv => kv.2 <> 0) sorted_book -> 0 <= max_qty ->
  exists taken,
    take_loop sym is_buy sorted_book max_qty orders = orders ++ taken /\
    units taken = Z.min max_qty (resting sorted_book).
Proof.
  induction sorted_book as [|[p q] rest IH]; intros max_qty orders Hnz Hmax; simpl.
  - exists []. rewrite app_nil_r. split; [done|]. unfold units, resting. simpl. lia.
  - apply Forall_cons in Hnz as [Hq Hnz]. simpl in Hq.
    pose proof (resting_nonneg rest) as Hrest.
    destruct (Z.leb_spec (Z.min (Z.abs q) max_qty) 0) as [Hle|Hgt].
    + exists []. rewrite app_nil_r. split; [done|].
      unfold units, resting in *. simpl. lia.
    + destruct (IH (max_qty - Z.min (Z.abs q) max_qty)
                  (orders ++ [mkOrder sym p (if is_buy then Z.min (Z.abs q) max_qty
                                             else - Z.min (Z.abs q) max_qty)]))
        as (taken & -> & Htot); [done|lia|].
      eexists (_ :: taken). rewrite <- app_assoc. split; [reflexivity|].
      unfold units, resting in *. simpl. destruct is_buy; simpl; lia.
Qed.

Lemma resting_Permutation l1 l2 : l1 ≡ₚ l2 -> resting l1 = resting l2.
Proof.
  unfold resting. induction 1 as [|x l l' _ IH|x y l|l l' l'' _ IH1 _ IH2]; simpl; lia.
Qed.

#[local] Instance key_le_trans : Transitive key_le.
Proof. intros x y z. unfold key_le. lia. Qed.
#[local] Instance key_le_total : Total key_le.
Proof. intros x y. unfold key_le. lia. Qed.
#[local] Instance key_ge_trans : Transitive key_ge.
Proof. intros x y z. unfold key_ge. lia. Qed.
#[local] Instance key_ge_total : Total key_ge.
Proof. intros x y. unfold key_ge. lia. Qed.

Lemma strict_keys (lt : Z -> Z -> Prop) (le : Z * Z -> Z * Z -> Prop) (l : list (Z * Z)) :
  (forall x y, le x y -> x.1 <> y.1 -> lt x.1 y.1) ->
  StronglySorted le l -> NoDup l.*1 -> StronglySorted lt l.*1.
Proof.
  intros Hlt Hs. induction Hs as [|x l Hs IH Hall]; simpl; intros Hnd; [constructor|].
  apply NoDup_cons in Hnd as [Hx Hnd]. constructor; [by apply IH|].
  apply Forall_fmap, Forall_forall. intros y Hy. simpl.
  apply Hlt; [by eapply Forall_forall in Hall|].
  intros Heq. apply Hx. rewrite Heq. by apply list_elem_of_fmap_2.
Qed.

Lemma StronglySorted_prefix {A} (R : relation A) (l1 l2 : list A) :
  l1 `prefix_of` l2 -> StronglySorted R l2 -> StronglySorted R l1.
Proof.
  intros [k ->]. revert k. induction l1 as [|x l1 IH]; intros k Hs; [constructor|].
  simpl in Hs. apply StronglySorted_inv in Hs as [Hs Hall].
  constructor; [by eapply IH|]. by apply Forall_app in Hall as [? _].
Qed.

Lemma sorted_items_keys d : StronglySorted Z.lt (sorted_items d).*1.
Proof.
  apply (strict_keys Z.lt key_le).
  - unfold key_le. intros; lia.
  - apply StronglySorted_merge_sort; apply _.
  - unfold sorted_items. rewrite merge_sort_Permutation. apply NoDup_fst_map_to_list.
Qed.

Lemma sorted_items_reverse_keys d : StronglySorted Z.gt (sorted_items_reverse d).*1.
Proof.
  apply (strict_keys Z.gt key_ge).
  - unfold key_ge. intros; lia.
  - apply StronglySorted_merge_sort; apply _.
  - unfold sorted_items_reverse. rewrite merge_sort_Permutation. apply NoDup_fst_map_to_list.
Qed.

Lemma sorted_items_elem d p v : (p, v) ∈ sorted_items d <-> d !! p = Some v.
Proof.
  unfold sorted_items. rewrite merge_sort_Permutation. apply elem_of_map_to_list.
Qed.

Lemma sorted_items_reverse_elem d p v : (p, v) ∈ sorted_items_reverse d <-> d !! p = Some v.
Proof.
  unfold sorted_items_reverse. rewrite merge_sort_Permutation. apply elem_of_map_to_list.
Qed.

(** What [take_best_order] returns, read through [take_loop_spec]. *)
Lemma take_best_order_spec sym depth is_buy max_qty :
  let orders := take_best_order sym depth is_buy max_qty in
  Forall (fun o =>
    symbol o = sym /\
    (if is_buy then 0 < quantity o else quantity o < 0) /\
    exists v, walked depth is_buy !! price o = Some v /\
              Z.abs (quantity o) <= Z.abs v) orders /\
  units orders <= Z.max 0 max_qty /\
  StronglySorted (if is_buy then Z.lt else Z.gt) (price <$> orders).
Proof.
  unfold take_best_order, walked. simpl.
  destruct is_buy.
  - destruct (take_loop_spec sym true (sorted_items (sell_orders depth)) max_qty [])
      as (taken & Heq & Hall & Htot & Hpre).
    rewrite Heq. simpl. repeat split; [|done|].
    + eapply Forall_impl; [exact Hall|]. intros o (? & ? & v & Hin & ?).
      repeat split; [done..|]. exists v. split; [|done]. by apply sorted_items_elem.
    + eapply StronglySorted_prefix; [exact Hpre|]. apply sorted_items_keys.
  - destruct (take_loop_spec sym false (sorted_items_reverse (buy_orders depth)) max_qty [])
      as (taken & Heq & Hall & Htot & Hpre).
    rewrite Heq. simpl. repeat split; [|done|].
    + eapply Forall_impl; [exact Hall|]. intros o (? & ? & v & Hin & ?).
      repeat split; [done..|]. exists v. split; [|done].
      by apply sorted_items_reverse_elem.
    + eapply StronglySorted_prefix; [exact Hpre|]. apply sorted_items_reverse_keys.
Qed.

Lemma units_elem o orders : o ∈ orders -> Z.abs (quantity o) <= units orders.
Proof.
  unfold units. induction orders as [|o' orders IH]; intros Hin.
  - by apply elem_of_nil in Hin.
  - assert (0 <= total (fun o => Z.abs (quantity o)) orders)
      by (apply total_nonneg; intros; lia).
    apply elem_of_cons in Hin as [->|Hin]; simpl; [lia|]. specialize (IH Hin). lia.
Qed.

(** The walk takes the levels in the order of the book and moves on only
    from a level it has taken whole. *)
Lemma take_loop_walk sym (is_buy : bool) sorted_book :
  StronglySorted (if is_buy then Z.lt else Z.gt) sorted_book.*1 ->
  forall max_qty orders,
  exists taken,
    take_loop sym is_buy sorted_book max_qty orders = orders ++ taken /\
    forall o p v, o ∈ taken -> (p, v) ∈ sorted_book ->
      (if is_buy then p < price o else price o < p) ->
      exists o', o' ∈ taken /\ price o' = p /\ Z.abs (quantity o') = Z.abs v.
Proof.
  induction sorted_book as [|[p q] rest IH]; intros Hsorted max_qty orders.
  - exists []. rewrite app_nil_r. split; [done|]. intros o ? ? Hin. by apply elem_of_nil in Hin.
  - cbn [take_loop]. simpl in Hsorted. apply StronglySorted_inv in Hsorted as [Hrest Hfirst].
    destruct (Z.leb_spec (Z.min (Z.abs q) max_qty) 0) as [Hle|Hgt].
    { exists []. rewrite app_nil_r. split; [done|]. intros o ? ? Hin.
      by apply elem_of_nil in Hin. }
    set (o0 := mkOrder sym p (if is_buy then Z.min (Z.abs q) max_qty
                              else - Z.min (Z.abs q) max_qty)).
    destruct (IH Hrest (max_qty - Z.min (Z.abs q) max_qty) (orders ++ [o0]))
      as (taken & Heq & Hwalk).
    destruct (take_loop_spec sym is_buy rest (max_qty - Z.min (Z.abs q) max_qty)
                (orders ++ [o0])) as (taken' & Heq' & Hall & Hunits & _).
    assert (taken' = taken) as -> by (rewrite Heq in Heq'; by apply app_inv_head in Heq').
    exists (o0 :: taken). rewrite Heq, <- app_assoc. split; [done|].
    intros o p' v' Ho Hlevel Hbetter.
    assert (Hkey : forall o, o ∈ taken -> price o ∈ rest.*1 /\ 0 < Z.abs (quantity o)).
    { intros o1 Ho1. eapply Forall_forall in Hall as (_ & Hsign & v1 & Hin1 & _); [|exact Ho1].
      split; [|destruct is_buy; lia].
      apply list_elem_of_fmap. by exists (price o1, v1). }
    assert (Hlater : forall k, k ∈ rest.*1 -> if is_buy then p < k else k < p).
    { intros k Hk. eapply Forall_forall in Hfirst; [|exact Hk]. destruct is_buy; lia. }
    apply elem_of_cons in Ho as [->|Ho].
    + (* the first order: no level of the book is better than its price *)
      exfalso. cbn [price o0] in Hbetter.
      apply elem_of_cons in Hlevel as [[= -> ->]|Hlevel].
      * destruct is_buy; lia.
      * assert (p' ∈ rest.*1) as Hk by (apply list_elem_of_fmap; by exists (p', v')).
        specialize (Hlater _ Hk). destruct is_buy; lia.
    + destruct (Hkey o Ho) as [Hprice Hpos].
      apply elem_of_cons in Hlevel as [[= -> ->]|Hlevel].
      * (* the first level was taken whole, or nothing would follow it *)
        exists o0. split; [left|]. split; [done|].
        pose proof (units_elem o taken Ho) as Hu.
        unfold o0. destruct is_buy; cbn [quantity]; lia.
      * destruct (Hwalk o p' v' Ho Hlevel Hbetter) as (o' & Ho' & Hp' & Hq').
        exists o'. split; [by right|done].
Qed.

Lemma take_best_order_walk sym depth (is_buy : bool) max_qty o p v :
  o ∈ take_best_order sym depth is_buy max_qty ->
  walked depth is_buy !! p = Some v ->
  (if is_buy then p < price o else price o < p) ->
  exists o', o' ∈ take_best_order sym depth is_buy max_qty /\
             price o' = p /\ Z.abs (quantity o') = Z.abs v.
Proof.
  unfold take_best_order, walked. destruct is_buy.
  - destruct (take_loop_walk sym true (sorted_items (sell_orders depth))
                (sorted_items_keys _) max_qty []) as (taken & -> & Hwalk).
    cbn [app]. intros Ho Hv Hbetter. apply (Hwalk o p v Ho); [|done].
    by apply sorted_items_elem.
  - destruct (take_loop_walk sym false (sorted_items_reverse (buy_orders depth))
                (sorted_items_reverse_keys _) max_qty []) as (taken & -> & Hwalk).
    cbn [app]. intros Ho Hv Hbetter. apply (Hwalk o p v Ho); [|done].
    by apply sorted_items_reverse_elem.
Qed.

(** X13.  [take_best_order] stays within its budget and on its side, and
    walks the book from the best price.  Every order it returns is for the
    symbol asked, is a buy when [is_buy] and a sell otherwise, sits at a
    price level of the side of the book it walks and asks for no more than
    that level holds; together the orders ask for at most [max_qty] units,
    and for nothing when [max_qty] is not positive.  No two orders share a
    price and the prices go from the best one on (rising asks for a buy,
    falling bids for a sell) without skipping a level: every level of the
    book with a better price than an order's has an order of its own, for
    all that the level holds. *)
Theorem take_best_order_within_budget
    (sym : string) (depth : OrderDepth) (is_buy : bool) (max_qty : Z) :
  Forall (fun o =>
    symbol o = sym /\
    (if is_buy then 0 < quantity o else quantity o < 0) /\
    exists v, walked depth is_buy !! price o = Some v /\
              Z.abs (quantity o) <= Z.abs v)
    (take_best_order sym depth is_buy max_qty) /\
  units (take_best_order sym depth is_buy max_qty) <= Z.max 0 max_qty /\
  StronglySorted (if is_buy then Z.lt else Z.gt)
    (price <$> take_best_order sym depth is_buy max_qty) /\
  (forall o p v,
     o ∈ take_best_order sym depth is_buy max_qty ->
     walked depth is_buy !! p = Some v ->
     (if is_buy then p < price o else price o < p) ->
     exists o', o' ∈ take_best_order sym depth is_buy max_qty /\
                price o' = p /\ Z.abs (quantity o') = Z.abs v).
Proof.
  destruct (take_best_order_spec sym depth is_buy max_qty) as (Hall & Hunits & Hsorted).
  split; [exact Hall|]. split; [exact Hunits|]. split; [exact Hsorted|].
  intros o p v. apply take_best_order_walk.
Qed.

(** X14.  On a book without an empty level, [take_best_order] takes all it
    can: the units it asks for are [max_qty] or all the units resting on the
    side it walks, whichever is less. *)
Theorem take_best_order_fills_budget
    (sym : string) (depth : OrderDepth) (is_buy : bool) (max_qty : Z) :
  (forall p v, walked depth is_buy !! p = Some v -> v <> 0) ->
  0 <= max_qty ->
  units (take_best_order sym depth is_buy max_qty)
    = Z.min max_qty (resting (map_to_list (walked depth is_buy))).
Proof.
  intros Hnz Hmax. unfold take_best_order, walked in *.
  destruct is_buy.
  - destruct (take_loop_exact sym true (sorted_items (sell_orders depth)) max_qty [])
      as (taken & -> & Hu); [|done|].
    + apply Forall_forall. intros [p v] Hin. simpl. apply (Hnz p).
      by apply sorted_items_elem.
    + simpl. rewrite Hu. f_equal. apply resting_Permutation. apply merge_sort_Permutation.
  - destruct (take_loop_exact sym false (sorted_items_reverse (buy_orders depth)) max_qty [])
      as (taken & -> & Hu); [|done|].
    + apply Forall_forall. intros [p v] Hin. simpl. apply (Hnz p).
      by apply sorted_items_reverse_elem.
    + simpl. rewrite Hu. f_equal. apply resting_Permutation. apply merge_sort_Permutation.
Qed.

(** Eight units bought from two ask levels of 5 and 7. *)
Definition two_level_asks : OrderDepth :=
  {| buy_orders := {[4300 := 20]}; sell_orders := <[4302 := -5]> {[4303 := -7]} |}.

Lemma take_best_order_fills_budget_example :
  take_best_order "JAMS" two_level_asks true 8
    = [mkOrder "JAMS" 4302 5; mkOrder "JAMS" 4303 3] /\
  units (take_best_order "JAMS" two_level_asks true 8)
    = Z.min 8 (resting (map_to_list (walked two_level_asks true))).
Proof.
  split; [vm_compute; reflexivity|].
  apply (take_best_order_fills_budget "JAMS" two_level_asks true 8); [|lia].
  intros p v. simpl.
  intros [[<- <-]|[_ [<- <-]%lookup_singleton_Some]]%lookup_insert_Some; lia.
Defined.

Lemma total_quantity_sign (is_buy : bool) orders :
  Forall (fun o => if is_buy then 0 < quantity o else quantity o < 0) orders ->
  total quantity orders = if is_buy then units orders else - units orders.
Proof.
  unfold units. induction 1 as [|o orders Ho _ IH]; simpl; [by destruct is_buy|].
  destruct is_buy; lia.
Qed.

(** X15.  [clear_position] never trades through flat: it returns nothing
    at position 0, only sells when the position is long and only buys when
    it is short, and the position that results if every order fills lies
    between the current position and 0. *)
Theorem clear_position_never_overshoots
    (sym : string) (depth : OrderDepth) (position : Z) :
  (position = 0 -> clear_position sym depth position = []) /\
  Forall (fun o => symbol o = sym /\
                   if position <? 0 then 0 < quantity o else quantity o < 0)
    (clear_position sym depth position) /\
  (0 <= position ->
   0 <= position + total quantity (clear_position sym depth position) <= position) /\
  (position <= 0 ->
   position <= position + total quantity (clear_position sym depth position) <= 0).
Proof.
  unfold clear_position.
  destruct (Z.eqb_spec position 0) as [->|Hne].
  { repeat split; simpl; try lia; constructor. }
  destruct (take_best_order_spec sym depth (position <? 0) (Z.abs position))
    as (Hall & Htot & _).
  assert (Hsign : Forall (fun o => if position <? 0 then 0 < quantity o
                                   else quantity o < 0)
                    (take_best_order sym depth (position <? 0) (Z.abs position))).
  { eapply Forall_impl; [exact Hall|]. by intros o (? & ? & ?). }
  pose proof (total_quantity_sign _ _ Hsign) as Hq.
  assert (0 <= units (take_best_order sym depth (position <? 0) (Z.abs position))).
  { apply total_nonneg. intros; lia. }
  split; [done|]. split.
  - eapply Forall_impl; [exact Hall|]. by intros o (? & ? & ?).
  - rewrite Hq. destruct (Z.ltb_spec position 0); lia.
Qed.

End TakeBest.

(** ** Hedging a basket with its components (round2_v_3) *)

Section Hedging.
Import Round2V3Orders.

(** An entry of the dictionary [hedge_components] returns: a single order
    for the entry's product, with a positive quantity that is at most the
    hedge, at most what rests at the level it is priced at, and at most the
    room left; the level is the best bid when [buy_components] holds and the
    best ask otherwise. *)
Definition hedge_entry (qty : Z) (order_depths : gmap string OrderDepth)
    (positions : gmap string Z) (buy_components : bool) (todo : list (string * Z))
    (kv : string * list Order) : Prop :=
  exists o weight limit depth volume,
    kv.2 = [o] /\ symbol o = kv.1 /\ (kv.1, weight) ∈ todo /\
    POSITION_LIMITS !! kv.1 = Some limit /\ order_depths !! kv.1 = Some depth /\
    (if buy_components
     then py_max (keys (buy_orders depth)) = Ok (price o) /\
          buy_orders depth !! price o = Some volume
     else py_min (keys (sell_orders depth)) = Ok (price o) /\
          sell_orders depth !! price o = Some volume) /\
    0 < quantity o /\ quantity o <= weight * qty /\ quantity o <= volume /\
    quantity o <= (if buy_components then limit - default 0 (positions !! kv.1)
                   else limit + default 0 (positions !! kv.1)).

Lemma hedge_component_entry qty ods positions b all acc product weight acc' :
  (product, weight) ∈ all ->
  Forall (hedge_entry qty ods positions b all) acc ->
  hedge_component qty ods positions b acc (product, weight) = Ok acc' ->
  Forall (hedge_entry qty ods positions b all) acc'.
Proof.
  intros Hin Hacc. unfold hedge_component.
  intros (limit & Hlimit%getitem_Ok & H)%bind_Ok.
  apply bind_Ok in H as (depth & Hdepth%getitem_Ok & H).
  destruct (truthy (if b then buy_orders depth else sell_orders depth)); [|by injection H as <-].
  apply bind_Ok in H as (p & Hp & H).
  apply bind_Ok in H as (volume & Hvol%getitem_int_Ok & H).
  destruct (Z.ltb_spec 0 (Z.min (Z.min (weight * qty) volume)
                            (if b then limit - default 0 (positions !! product)
                             else limit + default 0 (positions !! product))))
    as [Hpos|_]; [|by injection H as <-].
  injection H as <-. apply Forall_dict_set; [done|].
  exists (mkOrder product p (Z.min (Z.min (weight * qty) volume)
                     (if b then limit - default 0 (positions !! product)
                      else limit + default 0 (positions !! product)))),
    weight, limit, depth, volume.
  simpl. repeat split; try done; try lia.
  destruct b; done.
Qed.

Lemma hedge_loop_entries qty ods positions b all todo : forall acc res,
  todo ⊆ all ->
  Forall (hedge_entry qty ods positions b all) acc ->
  hedge_loop qty ods positions b acc todo = Ok res ->
  Forall (hedge_entry qty ods positions b all) res.
Proof.
  induction todo as [|[product weight] todo IH]; intros acc res Hsub Hacc; simpl.
  - by intros [= <-].
  - intros (acc' & Hstep & Hrest)%bind_Ok.
    apply (IH acc'); [set_solver| |done].
    eapply hedge_component_entry; [|done|exact Hstep]. set_solver.
Qed.

(** X16.  [hedge_components] only ever buys.  Every entry of the
    dictionary it returns is a single order with a positive quantity, for at
    most [weight * qty] units, at most the volume of the level it is priced
    at and at most the room left under the position limit, whatever
    [buy_components] says; asked to buy, it bids at the best bid, and asked
    to sell the components it reads the best ask and, on a book whose ask
    volumes have the sign of the exchange (not positive), returns no order
    at all. *)
Theorem hedge_components_only_buys
    (components : list string) (weights : list Z) (qty : Z)
    (order_depths : gmap string OrderDepth) (positions : gmap string Z)
    (buy_components : bool) (res : list (string * list Order)) :
  hedge_components components weights qty order_depths positions buy_components = Ok res ->
  Forall (hedge_entry qty order_depths positions buy_components (zip components weights))
    res /\
  (buy_components = false ->
   (forall product depth p v,
      order_depths !! product = Some depth -> sell_orders depth !! p = Some v -> v <= 0) ->
   res = []).
Proof.
  intros Hres.
  assert (Hall : Forall (hedge_entry qty order_depths positions buy_components
                           (zip components weights)) res).
  { eapply hedge_loop_entries; [| |exact Hres]; [done|constructor]. }
  split; [done|]. intros -> Hneg.
  destruct res as [|kv res]; [done|]. exfalso.
  apply Forall_cons in Hall as [(o & w & limit & depth & v & _ & _ & _ & _ & Hd & [_ Hv] & Hq & _ & Hle & _) _].
  specialize (Hneg _ _ _ _ Hd Hv). lia.
Qed.

(** The second basket hedged for one unit on books whose ask volumes are
    positive, as the replay engine builds them: asked to sell the
    components, the trader buys them at the best ask. *)
Definition picnic_depths : gmap string OrderDepth :=
  <["CROISSANTS" := {| buy_orders := {[4300 := 20]}; sell_orders := {[4302 := 3]} |}]>
  (<["JAMS" := {| buy_orders := {[6600 := 20]}; sell_orders := {[6603 := 15]} |}]> ∅).

Lemma hedge_components_only_buys_example :
  hedge_components ["CROISSANTS"; "JAMS"] [4; 2] 1 picnic_depths ∅ false
    = Ok [("CROISSANTS", [mkOrder "CROISSANTS" 4302 3]); ("JAMS", [mkOrder "JAMS" 6603 2])] /\
  Forall (hedge_entry 1 picnic_depths ∅ false (zip ["CROISSANTS"; "JAMS"] [4; 2]))
    [("CROISSANTS", [mkOrder "CROISSANTS" 4302 3]); ("JAMS", [mkOrder "JAMS" 6603 2])].
Proof.
  assert (H : hedge_components ["CROISSANTS"; "JAMS"] [4; 2] 1 picnic_depths ∅ false
    = Ok [("CROISSANTS", [mkOrder "CROISSANTS" 4302 3]); ("JAMS", [mkOrder "JAMS" 6603 2])])
    by (vm_compute; reflexivity).
  split; [exact H|].
  exact (proj1 (hedge_components_only_buys _ _ _ _ _ _ _ H)).
Defined.

Lemma hedge_loop_returns qty ods positions b todo : forall acc,
  (exists res, hedge_loop qty ods positions b acc todo = Ok res) <->
  Forall (fun c => is_Some (POSITION_LIMITS !! c.1) /\ is_Some (ods !! c.1)) todo.
Proof.
  induction todo as [|[product weight] todo IH]; intros acc; cbn [hedge_loop].
  - split; [constructor|by eexists].
  - split.
    + intros (res & (acc' & Hstep & Hrest)%bind_Ok).
      constructor; [|apply (IH acc'); by eexists].
      unfold hedge_component in Hstep.
      apply bind_Ok in Hstep as (limit & Hlimit%getitem_Ok & H).
      apply bind_Ok in H as (depth & Hdepth%getitem_Ok & _). simpl. eauto.
    + intros [[[limit Hlimit] [depth Hdepth]] Hrest]%Forall_cons. cbn [fst] in *.
      assert (exists acc', hedge_component qty ods positions b acc (product, weight) = Ok acc')
        as [acc' ->].
      { unfold hedge_component, getitem. rewrite Hlimit, Hdepth. cbn [Py.bind].
        destruct b.
        - destruct (truthy (buy_orders depth)) eqn:Ht; [|by eexists].
          destruct (truthy_py_max _ Ht) as [p Hp]. rewrite Hp. cbn [Py.bind].
          destruct (getitem_int_max_key _ _ Hp) as [v ->].
          cbn [Py.bind]. destruct (0 <? _); by eexists.
        - destruct (truthy (sell_orders depth)) eqn:Ht; [|by eexists].
          destruct (truthy_py_min _ Ht) as [p Hp]. rewrite Hp. cbn [Py.bind].
          destruct (getitem_int_min_key _ _ Hp) as [v ->].
          cbn [Py.bind]. destruct (0 <? _); by eexists. }
      cbn [Py.bind]. by apply IH.
Qed.

(** X17.  [hedge_components] returns exactly when every component it is
    given has a position limit and an order depth in the state; otherwise it
    raises ([KeyError], from [self.POSITION_LIMITS[product]] or
    [order_depths[product]]).  An empty or one-sided book of a component
    raises nothing. *)
Theorem hedge_components_returns
    (components : list string) (weights : list Z) (qty : Z)
    (order_depths : gmap string OrderDepth) (positions : gmap string Z)
    (buy_components : bool) :
  (exists res,
     hedge_components components weights qty order_depths positions buy_components
       = Ok res) <->
  Forall (fun c => is_Some (POSITION_LIMITS !! c.1) /\ is_Some (order_depths !! c.1))
    (zip components weights).
Proof. apply hedge_loop_returns. Qed.

End Hedging.

(** ** Order sizing (round2_v_3) *)

Section Sizing.
Import Round2V3Orders.

Lemma py_int_0 : py_int 0 = 0.
Proof.
  unfold py_int. destruct (Rle_dec 0 0) as [_|H]; [|lra].
  symmetry. apply Int_part_spec. lra.
Qed.

(** The room left on the side an order would go to. *)
Definition room (limit current_position : Z) (short : bool) : Z :=
  if short then limit + current_position else limit - current_position.

(** X18.  [calculate_safe_quantity] never returns more than the room left
    under the limit, and returns at least 1 when there is room.  Without a
    [spread_z] argument, as at each of its four calls, the z-score factor is
    0 and the result is one unit at most: [min(max_qty, 1)], whatever the
    limit and the position. *)
Theorem calculate_safe_quantity_one_unit
    (limit current_position : Z) (short : bool) (spread_z : R) :
  calculate_safe_quantity limit current_position short spread_z
    <= room limit current_position short /\
  (1 <= room limit current_position short ->
   1 <= calculate_safe_quantity limit current_position short spread_z) /\
  calculate_safe_quantity limit current_position short 0
    = Z.min (room limit current_position short) 1.
Proof.
  unfold calculate_safe_quantity, room. destruct short; simpl.
  all: repeat split; try lia.
  all: rewrite Rabs_R0; replace (0 / 2)%R with 0%R by lra; rewrite Rmult_0_r, py_int_0; lia.
Qed.

End Sizing.

(** ** The logger's truncation *)

Section Truncation.
Import Logger.

Lemma slice_to_length {A} (xs : list A) stop :
  0 <= stop -> Z.of_nat (length (slice_to xs stop)) = Z.min stop (Z.of_nat (length xs)).
Proof.
  intros H. unfold slice_to. destruct (Z.leb_spec 0 stop); [|lia].
  rewrite length_take. lia.
Qed.

(** X19.  [Logger.truncate] keeps a value that fits as it is, and otherwise
    returns a prefix of the value followed by three dots.  For a maximum
    length of at least 3 the result never exceeds the maximum; for a smaller
    maximum a value that does not fit comes back longer than the maximum
    (the three dots alone exceed it). *)
Theorem truncate_length (value : list Ascii.ascii) (max_length : Z) :
  (Z.of_nat (length value) <= max_length -> truncate value max_length = value) /\
  (max_length < Z.of_nat (length value) ->
   exists kept, kept `prefix_of` value /\
     truncate value max_length = kept ++ String.list_ascii_of_string "...") /\
  (3 <= max_length -> Z.of_nat (length (truncate value max_length)) <= max_length) /\
  (max_length < 3 -> max_length < Z.of_nat (length value) ->
   max_length < Z.of_nat (length (truncate value max_length))).
Proof.
  unfold truncate. destruct (Z.ltb_spec max_length (Z.of_nat (length value))) as [Hlong|Hfit].
  - split; [intros; lia|]. split; [|split].
    + intros _. exists (slice_to value (max_length - 3)). split; [|done].
      unfold slice_to. destruct (0 <=? max_length - 3); apply prefix_take.
    + intros H3. rewrite length_app, Nat2Z.inj_add, slice_to_length by lia. simpl. lia.
    + intros H3 _. rewrite length_app, Nat2Z.inj_add. simpl. lia.
  - repeat split; try done; intros; lia.
Qed.

End Truncation.

(** ** The synthetic basket and its arbitrage orders (round2_v_1) *)

Section Basket.
Import Round2V1Basket.

(** A product whose book is in the state and has both sides. *)
Definition two_sided (order_depths : gmap string OrderDepth) (product : string) : Prop :=
  exists depth, order_depths !! product = Some depth /\
                buy_orders depth <> ∅ /\ sell_orders depth <> ∅.

Lemma synthetic_loop_spec ods components : forall synthetic,
  exists r, synthetic_loop ods components synthetic = Ok r /\
            (is_Some r <-> Forall (two_sided ods) components.*1).
Proof.
  induction components as [|[product quantity] rest IH]; intros synthetic; simpl.
  - eexists. split; [done|]. split; [constructor|by eexists].
  - destruct (ods !! product) as [depth|] eqn:Hd.
    2:{ exists None. split; [done|]. split; [by intros [? ?]|].
        intros [(d & Hd' & _) _]%Forall_cons. congruence. }
    destruct (truthy (buy_orders depth)) eqn:Hb; simpl.
    2:{ exists None. split; [done|]. split; [by intros [? ?]|].
        intros [(d & Hd' & Hne & _) _]%Forall_cons.
        apply truthy_false in Hb. congruence. }
    destruct (truthy (sell_orders depth)) eqn:Hs; simpl.
    2:{ exists None. split; [done|]. split; [by intros [? ?]|].
        intros [(d & Hd' & _ & Hne) _]%Forall_cons.
        apply truthy_false in Hs. congruence. }
    destruct (truthy_py_max _ Hb) as [b ->]. destruct (truthy_py_min _ Hs) as [a ->].
    cbn [Py.bind].
    destruct (IH (synthetic + IZR (b + a) / 2 * IZR quantity)%R) as (r & -> & Hr).
    exists r. split; [done|]. rewrite Hr. split.
    + intros H. constructor; [|done]. exists depth. repeat split; [done| |].
      * intros He. apply truthy_false in He. congruence.
      * intros He. apply truthy_false in He. congruence.
    + by intros [_ ?]%Forall_cons.
Qed.

(** X20.  [calculate_synthetic_price] never raises, and returns a price
    rather than [None] exactly when every component has a book in the state
    with a bid and an ask. *)
Theorem calculate_synthetic_price_defined
    (order_depths : gmap string OrderDepth) (components : list (string * Z)) :
  exists r, calculate_synthetic_price order_depths components = Ok r /\
            (is_Some r <-> Forall (two_sided order_depths) components.*1).
Proof. apply synthetic_loop_spec. Qed.

(** What a leg of the arbitrage may be: an order for the entry's product
    that buys at most the room left to the limit, or sells at most the room
    left to the opposite limit, and never for 0 units. *)
Definition leg_entry (state : TradingState) (buy : bool) (kv : string * list Order) : Prop :=
  Forall (fun o =>
    symbol o = kv.1 /\
    exists limit, position_limits !! kv.1 = Some limit /\
      if buy then 0 < quantity o <= limit - position_get state kv.1
      else 0 < - quantity o <= limit + position_get state kv.1) kv.2.

Lemma find_entry (res : list (string * list Order)) product kv :
  List.find (fun kv => String.eqb kv.1 product) res = Some kv -> kv ∈ res /\ kv.1 = product.
Proof.
  intros [Hin Heq]%find_some. split; [by apply list_elem_of_In|].
  by apply String.eqb_eq.
Qed.

Lemma component_legs_entries state buy qty components : forall acc res,
  Forall (leg_entry state buy) acc ->
  component_legs state buy qty components acc = Ok res ->
  Forall (leg_entry state buy) res.
Proof.
  induction components as [|[product quantity] rest IH]; intros acc res Hacc;
    cbn [component_legs].
  - by intros [= <-].
  - intros (depth & _ & H)%bind_Ok.
    apply bind_Ok in H as (best & _ & H).
    apply bind_Ok in H as (limit & Hlimit%getitem_Ok & H).
    revert H. apply IH.
    destruct (Z.ltb_spec 0 (if buy then Z.min (quantity * qty) (limit - position_get state product)
                            else Z.min (quantity * qty) (limit + position_get state product)))
      as [Hpos|_]; [|done].
    apply Forall_dict_set; [done|]. unfold leg_entry. cbn [fst snd].
    apply Forall_app. split.
    + destruct (List.find _ acc) as [kv|] eqn:Hfind; simpl; [|constructor].
      apply find_entry in Hfind as [Hin <-].
      by eapply Forall_forall in Hacc.
    + constructor; [|constructor]. simpl. split; [done|]. exists limit. split; [done|].
      destruct buy; lia.
Qed.

Lemma component_legs_returns state buy qty components : forall acc,
  Forall (two_sided (order_depths state)) components.*1 ->
  Forall (fun c => is_Some (position_limits !! c.1)) components ->
  exists res, component_legs state buy qty components acc = Ok res.
Proof.
  induction components as [|[product quantity] rest IH]; intros acc Hbooks Hlimits;
    cbn [component_legs].
  - by eexists.
  - apply Forall_cons in Hbooks as [(depth & Hd & Hb & Hs) Hbooks].
    apply Forall_cons in Hlimits as [[limit Hlimit] Hlimits]. cbn [fst] in *.
    unfold getitem at 1. rewrite Hd. cbn [Py.bind].
    assert (exists best, (if buy then py_min (keys (sell_orders depth))
                          else py_max (keys (buy_orders depth))) = Ok best) as [best ->].
    { destruct buy.
      - apply truthy_py_min. by apply not_empty_truthy.
      - apply truthy_py_max. by apply not_empty_truthy. }
    cbn [Py.bind]. unfold getitem. rewrite Hlimit. cbn [Py.bind]. by apply IH.
Qed.

(** X21.  [generate_arb_orders] cannot fail where [trade_picnic_baskets]
    calls it.  The caller goes on only when [calculate_synthetic_price] and
    [get_mid_price] both returned a price; then the basket and every
    component have a two-sided book, and for a basket and components that
    have a position limit the unguarded [max] and [min] and the dictionary
    reads of [generate_arb_orders] all succeed, for every z-score and every
    position. *)
Theorem generate_arb_orders_after_checks
    (state : TradingState) (basket : string) (components : list (string * Z))
    (position : Z) (zscore : Numpy.float64) (depth : OrderDepth) (synthetic mid : R) :
  order_depths state !! basket = Some depth ->
  get_mid_price depth = Ok (Some mid) ->
  calculate_synthetic_price (order_depths state) components = Ok (Some synthetic) ->
  is_Some (position_limits !! basket) ->
  Forall (fun c => is_Some (position_limits !! c.1)) components ->
  exists basket_orders component_orders,
    generate_arb_orders state basket components position zscore
      = Ok (basket_orders, component_orders).
Proof.
  intros Hd Hmid Hsyn [limit Hlimit] Hlimits.
  assert (Hbooks : Forall (two_sided (order_depths state)) components.*1).
  { destruct (synthetic_loop_spec (order_depths state) components 0%R) as (r & Hr & Hiff).
    apply Hiff. unfold calculate_synthetic_price in Hsyn. rewrite Hsyn in Hr.
    injection Hr as <-. by eexists. }
  unfold get_mid_price in Hmid.
  destruct (truthy (buy_orders depth)) eqn:Hb; [|done].
  destruct (truthy (sell_orders depth)) eqn:Hs; [|done].
  destruct (truthy_py_max _ Hb) as [b Hbest_bid]. destruct (truthy_py_min _ Hs) as [a Hbest_ask].
  unfold generate_arb_orders.
  destruct (float64_gt zscore Round2V1.zscore_threshold).
  - unfold getitem at 1. rewrite Hd. cbn [Py.bind]. rewrite Hbest_bid. cbn [Py.bind].
    unfold getitem at 1. rewrite Hlimit. cbn [Py.bind].
    destruct (component_legs_returns state true (Z.min max_order_size (limit + position))
                components [] Hbooks Hlimits) as [res ->].
    cbn [Py.bind]. by eexists _, _.
  - destruct (float64_lt zscore (- Round2V1.zscore_threshold)); [|by eexists _, _].
    unfold getitem at 1. rewrite Hd. cbn [Py.bind]. rewrite Hbest_ask. cbn [Py.bind].
    unfold getitem at 1. rewrite Hlimit. cbn [Py.bind].
    destruct (component_legs_returns state false (Z.min max_order_size (limit - position))
                components [] Hbooks Hlimits) as [res ->].
    cbn [Py.bind]. by eexists _, _.
Qed.

(** A state with the second basket and its two components, all with
    two-sided books, and no position. *)
Definition picnic_state : TradingState :=
  {| timestamp := 0;
     order_depths :=
       <["PICNIC_BASKET2" := {| buy_orders := {[30500 := 4]}; sell_orders := {[30510 := -4]} |}]>
       (<["CROISSANT" := {| buy_orders := {[4300 := 20]}; sell_orders := {[4302 := -20]} |}]>
       (<["JAM" := {| buy_orders := {[6600 := 20]}; sell_orders := {[6603 := -15]} |}]> ∅));
     position := {["JAM" := 345]} |}.

Lemma generate_arb_orders_after_checks_example :
  exists basket_orders component_orders,
    generate_arb_orders picnic_state "PICNIC_BASKET2" basket2_components 0 (Numpy.Finite 3)
      = Ok (basket_orders, component_orders).
Proof.
  apply (generate_arb_orders_after_checks picnic_state "PICNIC_BASKET2" basket2_components
           0 (Numpy.Finite 3)
           {| buy_orders := {[30500 := 4]}; sell_orders := {[30510 := -4]} |}
           (0 + IZR (4300 + 4302) / 2 * IZR 4 + IZR (6600 + 6603) / 2 * IZR 2)%R
           (IZR (30510 + 30500) / 2)%R).
  - reflexivity.
  - reflexivity.
  - reflexivity.
  - by eexists.
  - repeat constructor; by eexists.
Defined.

(** X22.  With the basket position within its limit, the orders of
    [generate_arb_orders] keep every position within its limit: there is at
    most one basket order, for at most [max_order_size] units (and possibly
    for 0 units, at the limit), a sell when the z-score is above the
    threshold and a buy when it is below its opposite; and every component
    order goes the other way, for at least one unit and at most the room
    left to that component's limit. *)
Theorem generate_arb_orders_within_limits
    (state : TradingState) (basket : string) (components : list (string * Z))
    (position : Z) (zscore : Numpy.float64) (limit : Z)
    (basket_orders : list Order) (component_orders : list (string * list Order)) :
  position_limits !! basket = Some limit ->
  - limit <= position <= limit ->
  generate_arb_orders state basket components position zscore
    = Ok (basket_orders, component_orders) ->
  (length basket_orders <= 1)%nat /\
  Forall (fun o =>
    symbol o = basket /\ Z.abs (quantity o) <= max_order_size /\
    - limit <= position + quantity o <= limit /\
    if float64_gt zscore Round2V1.zscore_threshold then quantity o <= 0
    else 0 <= quantity o) basket_orders /\
  Forall (leg_entry state (float64_gt zscore Round2V1.zscore_threshold)) component_orders.
Proof.
  intros Hlimit Hpos. unfold generate_arb_orders, max_order_size.
  destruct (float64_gt zscore Round2V1.zscore_threshold).
  - intros (depth & _ & H)%bind_Ok.
    apply bind_Ok in H as (best_bid & _ & H).
    apply bind_Ok in H as (limit' & Hl%getitem_Ok & H).
    apply bind_Ok in H as (res & Hlegs & [= <- <-]).
    assert (limit' = limit) as -> by congruence.
    split; [simpl; lia|]. split.
    + constructor; [|constructor]. simpl. split; [done|lia].
    + eapply component_legs_entries; [|exact Hlegs]. constructor.
  - destruct (float64_lt zscore (- Round2V1.zscore_threshold)).
    + intros (depth & _ & H)%bind_Ok.
      apply bind_Ok in H as (best_ask & _ & H).
      apply bind_Ok in H as (limit' & Hl%getitem_Ok & H).
      apply bind_Ok in H as (res & Hlegs & [= <- <-]).
      assert (limit' = limit) as -> by congruence.
      split; [simpl; lia|]. split.
      * constructor; [|constructor]. simpl. split; [done|lia].
      * eapply component_legs_entries; [|exact Hlegs]. constructor.
    + intros [= <- <-]. split; [simpl; lia|]. split; constructor.
Qed.

(** The second basket sold on a z-score of 3, with JAM five units under
    its limit of 350: the JAM leg is cut from 10 to 5. *)
Lemma generate_arb_orders_within_limits_example :
  generate_arb_orders picnic_state "PICNIC_BASKET2" basket2_components 0 (Numpy.Finite 3)
    = Ok ([mkOrder "PICNIC_BASKET2" 30500 (-5)],
          [("CROISSANT", [mkOrder "CROISSANT" 4302 20]); ("JAM", [mkOrder "JAM" 6603 5])]) /\
  Forall (leg_entry picnic_state (float64_gt (Numpy.Finite 3) Round2V1.zscore_threshold))
    [("CROISSANT", [mkOrder "CROISSANT" 4302 20]); ("JAM", [mkOrder "JAM" 6603 5])].
Proof.
  assert (H : generate_arb_orders picnic_state "PICNIC_BASKET2" basket2_components 0
                (Numpy.Finite 3)
    = Ok ([mkOrder "PICNIC_BASKET2" 30500 (-5)],
          [("CROISSANT", [mkOrder "CROISSANT" 4302 20]); ("JAM", [mkOrder "JAM" 6603 5])])).
  { unfold generate_arb_orders, float64_gt, Round2V1.zscore_threshold.
    destruct (Rlt_dec 2 3) as [_|Hn]; [|lra]. vm_compute. reflexivity. }
  split; [exact H|].
  assert (Hpos : - 100 <= 0 <= 100) by lia.
  exact (proj2 (proj2 (generate_arb_orders_within_limits picnic_state "PICNIC_BASKET2"
                         basket2_components 0 (Numpy.Finite 3) 100 _ _ eq_refl Hpos H))).
Defined.

End Basket.

(** ** The trader of round_v_7 *)

Section TraderV7.
Import RoundV7Trader.

(** What the pendulum keeps of the book and of its window. *)
Lemma pendulum_strategy_spec history product od position limit hist :
  history !! product = Some hist ->
  exists hist' orders,
    pendulum_strategy history product od position limit
      = (<[product := hist']> history, Ok orders) /\
    (length orders <= 3)%nat /\
    Forall (fun o => symbol o = product) orders /\
    total buy_quantity orders
      <= Z.max 0 (limit - position) + Z.max 0 (limit - position) / 2 /\
    total sell_quantity orders
      <= Z.max 0 (position + limit) + (Z.max 0 (position + limit) + 1) / 2 /\
    (buy_orders od = ∅ \/ sell_orders od = ∅ -> hist' = hist /\ orders = []).
Proof.
  intros Hh. unfold pendulum_strategy. rewrite Hh.
  destruct (truthy (buy_orders od)) eqn:Hb; cbn [andb].
  2:{ exists hist, []. rewrite insert_id by done. repeat split; simpl; try lia; try constructor.
      all: pose proof (Z.div_pos (Z.max 0 (limit - position)) 2);
        pose proof (Z.div_pos (Z.max 0 (position + limit) + 1) 2); lia. }
  destruct (truthy (sell_orders od)) eqn:Hs.
  2:{ exists hist, []. rewrite insert_id by done. repeat split; simpl; try lia; try constructor.
      all: pose proof (Z.div_pos (Z.max 0 (limit - position)) 2);
        pose proof (Z.div_pos (Z.max 0 (position + limit) + 1) 2); lia. }
  destruct (truthy_py_max _ Hb) as [b ->]. destruct (truthy_py_min _ Hs) as [a ->].
  cbn [Py.bind].
  set (hist' := RoundV7.history_update hist (IZR (b + a) / 2)%R RoundV7.maxlen).
  set (buy_qty := Z.max 0 (limit - position)).
  set (sell_qty := Z.max 0 (position + limit)).
  set (c1 := Rltb _ _ && _ && _). set (c2 := Rltb _ _ && _ && _).
  clearbody c1 c2 hist'.
  assert (Hnb : buy_orders od <> ∅) by (intros He; apply truthy_false in He; congruence).
  assert (Hns : sell_orders od <> ∅) by (intros He; apply truthy_false in He; congruence).
  assert (0 <= buy_qty) by lia. assert (0 <= sell_qty) by lia.
  clearbody buy_qty sell_qty.
  eexists hist', _. split; [reflexivity|].
  assert (Hb2 : 0 <= buy_qty / 2 <= buy_qty) by (Z.div_mod_to_equations; lia).
  assert (Hs2 : - ((sell_qty + 1) / 2) <= (- sell_qty) / 2 <= 0).
  { Z.div_mod_to_equations; lia. }
  assert (Hs3 : (sell_qty + 1) / 2 <= sell_qty + 1) by (Z.div_mod_to_equations; lia).
  destruct c1, c2, (Z.ltb_spec 0 buy_qty), (Z.ltb_spec 0 sell_qty).
  all: cbn [app length].
  all: split; [lia|]; split; [repeat constructor|]; split; [|split]; [| |intros [?|?]; done].
  all: unfold total, buy_quantity, sell_quantity; cbn [foldr quantity].
  all: repeat match goal with
       | |- context [0 <? ?q] => destruct (Z.ltb_spec 0 q)
       end; lia.
Qed.

(** X23.  [pendulum_strategy] returns, for a product that has a history:
    at most three orders, all for that product, and none on a book with an
    empty side, which also leaves the history as it was.  The aggressive
    order already asks for all the room left under the limit and the passive
    one adds half of it again: together the buys can reach one and a half
    times [limit - position] and the sells one and a half times
    [limit + position] (rounded up), and no more. *)
Theorem pendulum_strategy_bounds
    (history : gmap string (list R)) (product : string) (od : OrderDepth)
    (position limit : Z) (hist : list R) :
  history !! product = Some hist ->
  exists orders,
    (pendulum_strategy history product od position limit).2 = Ok orders /\
    (length orders <= 3)%nat /\
    Forall (fun o => symbol o = product) orders /\
    total buy_quantity orders
      <= Z.max 0 (limit - position) + Z.max 0 (limit - position) / 2 /\
    total sell_quantity orders
      <= Z.max 0 (position + limit) + (Z.max 0 (position + limit) + 1) / 2 /\
    (buy_orders od = ∅ \/ sell_orders od = ∅ ->
     orders = [] /\ (pendulum_strategy history product od position limit).1 = history).
Proof.
  intros Hh.
  destruct (pendulum_strategy_spec history product od position limit hist Hh)
    as (hist' & orders & -> & Hlen & Hsym & Hbuy & Hsell & Hempty).
  exists orders. cbn [fst snd]. repeat split; try done.
  - by apply Hempty.
  - destruct (Hempty H) as [-> _]. by apply insert_id.
Qed.

Lemma py_int_small x : (0 <= x < 1)%R -> py_int x = 0.
Proof.
  intros Hx. unfold py_int. destruct (Rle_dec 0 x) as [_|Hn]; [|lra].
  symmetry. apply Int_part_spec. simpl. lra.
Qed.

Lemma Rltb_true x y : (x < y)%R -> Rltb x y = true.
Proof. intros H. unfold Rltb. by destruct (Rlt_dec x y). Qed.

(** A falling KELP market: two samples in the window, then a book around
    95.  The pendulum buys 50 at the ask and bids for 25 more. *)
Definition falling_history : gmap string (list R) :=
  <[KELP := [100%R; 99%R]]> (<[SQUID_INK := []]> ∅).

Definition falling_book : OrderDepth :=
  {| buy_orders := {[94 := 10]}; sell_orders := {[96 := -10]} |}.

Lemma pendulum_strategy_bounds_example :
  (pendulum_strategy falling_history KELP falling_book 0 50).2
    = Ok [mkOrder KELP 96 50; mkOrder KELP 93 25; mkOrder KELP 97 (-25)] /\
  exists orders,
    (pendulum_strategy falling_history KELP falling_book 0 50).2 = Ok orders /\
    (length orders <= 3)%nat /\
    Forall (fun o => symbol o = KELP) orders /\
    total buy_quantity orders <= Z.max 0 (50 - 0) + Z.max 0 (50 - 0) / 2 /\
    total sell_quantity orders <= Z.max 0 (0 + 50) + (Z.max 0 (0 + 50) + 1) / 2 /\
    (buy_orders falling_book = ∅ \/ sell_orders falling_book = ∅ ->
     orders = [] /\
     (pendulum_strategy falling_history KELP falling_book 0 50).1 = falling_history).
Proof.
  split.
  - unfold pendulum_strategy.
    replace (falling_history !! KELP) with (Some [100%R; 99%R]) by reflexivity.
    replace (truthy (buy_orders falling_book)) with true by reflexivity.
    replace (truthy (sell_orders falling_book)) with true by reflexivity.
    replace (py_max (keys (buy_orders falling_book))) with (Ok 94 : result Z) by reflexivity.
    replace (py_min (keys (sell_orders falling_book))) with (Ok 96 : result Z) by reflexivity.
    cbn [Py.bind andb].
    replace (RoundV7.history_update [100%R; 99%R] (IZR (94 + 96) / 2)%R RoundV7.maxlen)
      with [100%R; 99%R; (IZR (94 + 96) / 2)%R] by reflexivity.
    cbn [length Nat.leb from_end Nat.sub nth snd].
    rewrite (py_int_small (1 * (8 / 10))) by lra.
    rewrite (Rltb_true (IZR (94 + 96) / 2 - 100) (-1)) by (rewrite plus_IZR; lra).
    change (Z.max 1 0) with 1. replace (INR 3) with 3%R by (simpl; lra).
    rewrite (Rltb_true 96) by (unfold Numpy.Rsum; cbn [foldr]; rewrite plus_IZR; lra).
    reflexivity.
  - apply (pendulum_strategy_bounds falling_history KELP falling_book 0 50 [100%R; 99%R]).
    reflexivity.
Defined.

(** An order of [resin_strategy]: for RAINFOREST_RESIN, either at the best
    ask, which is then at most [fair_value - width], for the smaller of the
    volume resting there (negated) and the room to the limit, or at the best
    bid, which is then at least [fair_value + width], for the smaller of the
    volume resting there and the room to the opposite limit, negated. *)
Definition takes_at_touch (od : OrderDepth) (fair_value : Z) (width : R)
    (position limit : Z) (o : Order) : Prop :=
  symbol o = RAINFOREST_RESIN /\
  ((exists v, py_min (keys (sell_orders od)) = Ok (price o) /\
      sell_orders od !! price o = Some v /\
      (IZR (price o) <= IZR fair_value - width)%R /\ position < limit /\
      quantity o = Z.min (- v) (limit - position)) \/
   (exists v, py_max (keys (buy_orders od)) = Ok (price o) /\
      buy_orders od !! price o = Some v /\
      (IZR fair_value + width <= IZR (price o))%R /\ - limit < position /\
      quantity o = - Z.min v (position + limit))).

Lemma resin_strategy_v7_spec od fair_value width position limit :
  exists takes gives,
    resin_strategy od fair_value width position limit = Ok (takes ++ gives) /\
    ((takes = [] /\
      forall a, py_min (keys (sell_orders od)) = Ok a ->
                (IZR a <= IZR fair_value - width)%R -> position < limit -> False) \/
     exists a v, py_min (keys (sell_orders od)) = Ok a /\ sell_orders od !! a = Some v /\
       (IZR a <= IZR fair_value - width)%R /\ position < limit /\
       takes = [mkOrder RAINFOREST_RESIN a (Z.min (- v) (limit - position))]) /\
    ((gives = [] /\
      forall b, py_max (keys (buy_orders od)) = Ok b ->
                (IZR fair_value + width <= IZR b)%R -> - limit < position -> False) \/
     exists b v, py_max (keys (buy_orders od)) = Ok b /\ buy_orders od !! b = Some v /\
       (IZR fair_value + width <= IZR b)%R /\ - limit < position /\
       gives = [mkOrder RAINFOREST_RESIN b (- Z.min v (position + limit))]).
Proof.
  unfold resin_strategy.
  assert (exists takes,
    (if truthy (sell_orders od)
     then let* best_ask := py_min (keys (sell_orders od)) in
          if Rleb (IZR best_ask) (IZR fair_value - width) && (0 <? Z.max 0 (limit - position))
          then let* volume := getitem_int (sell_orders od) best_ask in
               Ok ([] ++ [mkOrder RAINFOREST_RESIN best_ask
                            (Z.min (- volume) (Z.max 0 (limit - position)))])
          else Ok []
     else Ok []) = Ok takes /\
    ((takes = [] /\
      forall a, py_min (keys (sell_orders od)) = Ok a ->
                (IZR a <= IZR fair_value - width)%R -> position < limit -> False) \/
     exists a v, py_min (keys (sell_orders od)) = Ok a /\ sell_orders od !! a = Some v /\
       (IZR a <= IZR fair_value - width)%R /\ position < limit /\
       takes = [mkOrder RAINFOREST_RESIN a (Z.min (- v) (limit - position))]))
    as (takes & -> & Htakes).
  { destruct (truthy (sell_orders od)) eqn:Hs.
    2:{ eexists; split; [done|]. left. split; [done|]. intros a Ha _ _.
        apply py_min_truthy in Ha. congruence. }
    destruct (truthy_py_min _ Hs) as [a Ha]. rewrite Ha. cbn [Py.bind].
    unfold Rleb. destruct (Rle_dec _ _) as [Hle|Hnle]; cbn [andb].
    2:{ eexists; split; [done|]. left. split; [done|]. intros a' Ha' Hle' _.
        assert (a' = a) as -> by congruence. done. }
    destruct (Z.ltb_spec 0 (Z.max 0 (limit - position))).
    2:{ eexists; split; [done|]. left. split; [done|]. intros; lia. }
    destruct (min_key_lookup _ _ Ha) as [v Hv]. unfold getitem_int. rewrite Hv.
    cbn [Py.bind app]. eexists. split; [done|]. right. exists a, v.
    repeat split; try done; try lia. do 3 f_equal. lia. }
  cbn [Py.bind]. exists takes.
  destruct (truthy (buy_orders od)) eqn:Hb.
  2:{ exists []. rewrite app_nil_r. repeat split; [done|]. left. split; [done|].
      intros b Hbb _ _. apply py_max_truthy in Hbb. congruence. }
  destruct (truthy_py_max _ Hb) as [b Hbb]. rewrite Hbb. cbn [Py.bind].
  unfold Rleb. destruct (Rle_dec _ _) as [Hle|Hnle]; cbn [andb].
  2:{ exists []. rewrite app_nil_r. repeat split; [done|]. left. split; [done|].
      intros b' Hb' Hle' _. assert (b' = b) as -> by congruence. done. }
  destruct (Z.ltb_spec 0 (Z.max 0 (position + limit))).
  2:{ exists []. rewrite app_nil_r. repeat split; [done|]. left. split; [done|].
      intros; lia. }
  destruct (max_key_lookup _ _ Hbb) as [v Hv]. unfold getitem_int. rewrite Hv.
  cbn [Py.bind]. eexists. split; [done|]. split; [done|]. right. exists b, v.
  repeat split; try done; try lia. do 3 f_equal. lia.
Qed.

(** X24.  [resin_strategy] of round_v_7 never raises and only takes, at
    the touch.  Each order it returns is for RAINFOREST_RESIN and is priced
    at the best ask, which is then at most [fair_value - width], or at the
    best bid, which is then at least [fair_value + width], and it returns one
    at the best ask whenever that price is low enough and the position is
    under the limit, and one at the best bid whenever that price is high
    enough and the position is above the opposite limit.  On a book with the
    signs of the exchange (ask volumes negative, bid volumes positive) the
    buy is for at most [limit - position] units and the sell for at most
    [limit + position], and none is for 0 units.  On a book whose ask volumes
    are positive the order at the best ask comes out with a negative
    quantity: every order returned is then a sell. *)
Theorem resin_strategy_v7_takes_within_limit
    (od : OrderDepth) (fair_value : Z) (width : R) (position limit : Z) :
  exists orders,
    resin_strategy od fair_value width position limit = Ok orders /\
    (length orders <= 2)%nat /\
    Forall (takes_at_touch od fair_value width position limit) orders /\
    (forall a, py_min (keys (sell_orders od)) = Ok a ->
       (IZR a <= IZR fair_value - width)%R -> position < limit ->
       exists o v, o ∈ orders /\ price o = a /\ sell_orders od !! a = Some v /\
                   quantity o = Z.min (- v) (limit - position)) /\
    (forall b, py_max (keys (buy_orders od)) = Ok b ->
       (IZR fair_value + width <= IZR b)%R -> - limit < position ->
       exists o v, o ∈ orders /\ price o = b /\ buy_orders od !! b = Some v /\
                   quantity o = - Z.min v (position + limit)) /\
    ((forall p v, sell_orders od !! p = Some v -> v < 0) ->
     (forall p v, buy_orders od !! p = Some v -> 0 < v) ->
     total buy_quantity orders <= Z.max 0 (limit - position) /\
     total sell_quantity orders <= Z.max 0 (position + limit) /\
     Forall (fun o => quantity o <> 0) orders) /\
    ((forall p v, sell_orders od !! p = Some v -> 0 < v) ->
     (forall p v, buy_orders od !! p = Some v -> 0 < v) ->
     Forall (fun o => quantity o < 0) orders).
Proof.
  destruct (resin_strategy_v7_spec od fair_value width position limit)
    as (takes & gives & -> & Htakes & Hgives).
  exists (takes ++ gives). split; [done|].
  assert (Htouch : Forall (takes_at_touch od fair_value width position limit)
                     (takes ++ gives)).
  { apply Forall_app. split.
    - destruct Htakes as [[-> _]|(a & v & Ha & Hv & Hle & Hroom & ->)]; [constructor|].
      apply Forall_cons. split; [|constructor]. split; [done|]. left. by exists v.
    - destruct Hgives as [[-> _]|(b & v & Hb & Hv & Hle & Hroom & ->)]; [constructor|].
      apply Forall_cons. split; [|constructor]. split; [done|]. right. by exists v. }
  assert (Hask : forall a, py_min (keys (sell_orders od)) = Ok a ->
       (IZR a <= IZR fair_value - width)%R -> position < limit ->
       exists o v, o ∈ takes ++ gives /\ price o = a /\ sell_orders od !! a = Some v /\
                   quantity o = Z.min (- v) (limit - position)).
  { intros a Ha Hle Hroom.
    destruct Htakes as [[_ Hno]|(a' & v & Ha' & Hv & _ & _ & ->)]; [by destruct (Hno a)|].
    rewrite Ha in Ha'. injection Ha' as <-.
    eexists _, v. split; [apply elem_of_app; left; apply list_elem_of_singleton; done|].
    done. }
  assert (Hbid : forall b, py_max (keys (buy_orders od)) = Ok b ->
       (IZR fair_value + width <= IZR b)%R -> - limit < position ->
       exists o v, o ∈ takes ++ gives /\ price o = b /\ buy_orders od !! b = Some v /\
                   quantity o = - Z.min v (position + limit)).
  { intros b Hb Hle Hroom.
    destruct Hgives as [[_ Hno]|(b' & v & Hb' & Hv & _ & _ & ->)]; [by destruct (Hno b)|].
    rewrite Hb in Hb'. injection Hb' as <-.
    eexists _, v. split; [apply elem_of_app; right; apply list_elem_of_singleton; done|].
    done. }
  split; [|split; [exact Htouch|split; [exact Hask|split; [exact Hbid|]]]].
  { destruct Htakes as [[-> _]|(? & ? & _ & _ & _ & _ & ->)];
      destruct Hgives as [[-> _]|(? & ? & _ & _ & _ & _ & ->)]; simpl; lia. }
  clear Htouch Hask Hbid.
  destruct Htakes as [[-> _]|(a & va & _ & Hva & _ & Hroom & ->)];
    destruct Hgives as [[-> _]|(b & vb & _ & Hvb & _ & Hroom' & ->)].
  all: split; intros Hsell Hbuy.
  all: try (specialize (Hsell _ _ Hva)); try (specialize (Hbuy _ _ Hvb)).
  all: unfold total, buy_quantity, sell_quantity; cbn [app foldr quantity].
  all: repeat match goal with
       | |- context [0 <? ?q] => destruct (Z.ltb_spec 0 q)
       end.
  all: repeat split; try lia; repeat constructor; cbn [quantity]; lia.
Qed.

Lemma run_pendulum_keys product state position history res hist :
  history !! product = Some hist ->
  exists history' res',
    run_pendulum product state position history res = (history', Ok res') /\
    (forall k, is_Some (history !! k) -> is_Some (history' !! k)) /\
    res' = match order_depths state !! product with
           | Some od =>
               RoundV5.dict_set res product
                 (match (pendulum_strategy history product od position 50).2 with
                  | Ok orders => orders
                  | Raise _ => []
                  end)
           | None => res
           end.
Proof.
  intros Hh. unfold run_pendulum.
  destruct (order_depths state !! product) as [od|]; [|by eexists _, _].
  destruct (pendulum_strategy_spec history product od position 50 hist Hh)
    as (hist' & orders & -> & _).
  cbn [Py.bind snd]. eexists _, _. split; [done|]. split; [|done]. intros k Hk.
  destruct (decide (product = k)) as [->|Hne].
  - rewrite lookup_insert_eq. by eexists.
  - by rewrite lookup_insert_ne.
Qed.

(** The products [run] looks at, in the order of its statements. *)
Definition traded_products : list string := [KELP; SQUID_INK; RAINFOREST_RESIN].

(** X25.  In [Trader.run] of round_v_7 only the final [logger.flush] can
    raise, as long as the trader's history holds its two products, which it
    does from [__init__] on and after every run: the strategies never raise,
    the history and the tick (advanced by one) are updated before the flush,
    and the dictionary handed to the flush, and returned when the flush
    returns, has one entry for each of KELP, SQUID_INK and RAINFOREST_RESIN
    that has a book in the state, in that order. *)
Theorem run_v7_raises_only_in_flush
    (calls : Library.calls) (self : RoundV7Trader.t) (state : TradingState) :
  is_Some (history self !! KELP) -> is_Some (history self !! SQUID_INK) ->
  exists self' res,
    run calls self state = (self', let* _ := Library.flush calls res in Ok res) /\
    res.*1 = filter (fun p => is_Some (order_depths state !! p)) traded_products /\
    tick self' = tick self + 1 /\
    is_Some (history self' !! KELP) /\ is_Some (history self' !! SQUID_INK).
Proof.
  intros [hk Hk] Hs. unfold run.
  destruct (run_pendulum_keys KELP state (position_get state KELP) (history self) [] hk Hk)
    as (h1 & res1 & -> & Hkeys1 & Hres1).
  destruct (Hkeys1 SQUID_INK Hs) as [hs Hs1].
  destruct (run_pendulum_keys SQUID_INK state (position_get state SQUID_INK) h1 res1 hs Hs1)
    as (h2 & res2 & -> & Hkeys2 & Hres2).
  assert (exists res,
    match order_depths state !! RAINFOREST_RESIN with
    | Some order_depth =>
        let* orders := resin_strategy order_depth 10000 (18 / 10)
                         (position_get state RAINFOREST_RESIN) 50 in
        Ok (RoundV5.dict_set res2 RAINFOREST_RESIN orders)
    | None => Ok res2
    end = Ok res /\
    res.*1 = filter (fun p => is_Some (order_depths state !! p)) traded_products)
    as (res & -> & Hdom).
  { unfold traded_products. rewrite !filter_cons, filter_nil.
    destruct (order_depths state !! KELP) as [kd|];
      destruct (order_depths state !! SQUID_INK) as [sd|];
      destruct (order_depths state !! RAINFOREST_RESIN) as [rd|];
      subst res1 res2.
    all: try (destruct (resin_strategy_v7_spec rd 10000 (18 / 10)
                          (position_get state RAINFOREST_RESIN) 50)
                as (takes & gives & -> & _)).
    all: cbn [Py.bind]; eexists; split; [reflexivity|].
    all: repeat match goal with
         | |- context [decide ?P] => destruct (decide P) as [?|Hn]
         end; try done.
    all: try (exfalso; apply Hn; by eexists).
    all: try (match goal with H : is_Some None |- _ => by destruct H end). }
  cbn [Py.bind]. eexists _, res. split; [done|]. split; [done|].
  cbn [tick history]. split; [done|].
  split; apply Hkeys2, Hkeys1; [by eexists|done].
Qed.

(** A fresh trader on a tick with a KELP and a SQUID_INK book, and a
    logger that returns. *)
Lemma run_v7_raises_only_in_flush_example :
  exists self' res,
    run Library.quiet init kelp_squid_state = (self', Ok res) /\
    res.*1 = [KELP; SQUID_INK] /\
    tick self' = 1 /\
    is_Some (history self' !! KELP) /\ is_Some (history self' !! SQUID_INK).
Proof.
  destruct (run_v7_raises_only_in_flush Library.quiet init kelp_squid_state)
    as (self' & res & Hrun & Hdom & Htick & Hkeys); [by eexists..|].
  exists self', res. split; [exact Hrun|]. split; [exact Hdom|]. split; [exact Htick|exact Hkeys].
Defined.

End TraderV7.

(** ** The strategies of round_v_5 one by one *)

Section TraderV5.
Import RoundV5.

(** A quote of [trade_resin]: between 1 and 10 units and no more than the
    room left, one to three ticks beyond the take width, and strictly
    better than the best price of its own side of the book, which is
    therefore not empty. *)
Definition resin_quote (od : OrderDepth) (position : Z) (o : Order) : Prop :=
  symbol o = RAINFOREST_RESIN /\
  ((1 <= quantity o <= 10 /\ quantity o <= resin_position_limit - position /\
    resin_fair_value - 4 <= price o <= resin_fair_value - 2 /\
    buy_orders od <> ∅ /\
    forall p, is_Some (buy_orders od !! p) -> p < price o) \/
   (1 <= - quantity o <= 10 /\ - quantity o <= resin_position_limit + position /\
    resin_fair_value + 2 <= price o <= resin_fair_value + 4 /\
    sell_orders od <> ∅ /\
    forall p, is_Some (sell_orders od !! p) -> price o < p)).

Definition round_quote (best_bid best_ask position : Z) (o : Order) : Prop :=
  symbol o = RAINFOREST_RESIN /\
  ((1 <= quantity o <= 10 /\ quantity o <= 50 - position /\
    9996 <= price o <= 9998 /\ best_bid < price o) \/
   (1 <= - quantity o <= 10 /\ - quantity o <= 50 + position /\
    10002 <= price o <= 10004 /\ price o < best_ask)).

Lemma resin_rounds_spec best_bid best_ask position :
  let orders :=
    foldl (resin_round RAINFOREST_RESIN best_bid best_ask position) [] [0; 1; 2] in
  Forall (round_quote best_bid best_ask position) orders /\
  (length orders <= 6)%nat /\
  total buy_quantity orders <= 30 /\ total sell_quantity orders <= 30 /\
  (position <= 20 -> total buy_quantity orders <= 50 - position) /\
  (-20 <= position -> total sell_quantity orders <= 50 + position).
Proof.
  cbn [foldl]. unfold resin_round, resin_fair_value, resin_take_width, resin_position_limit.
  destruct (Z.ltb_spec position 50), (Z.ltb_spec (- (50)) position);
    rewrite ?andb_true_r, ?andb_false_r.
  all: repeat match goal with
       | |- context [?a <? ?b] => destruct (Z.ltb_spec a b)
       end.
  all: cbn zeta; cbn [app length].
  all: split;
    [repeat (apply Forall_cons; split;
             [split; [reflexivity|cbn [quantity price]; first [left; lia|right; lia]]|]);
     apply Forall_nil_2|].
  all: split; [lia|].
  all: unfold total, buy_quantity, sell_quantity; cbn [foldr quantity].
  all: repeat match goal with
       | |- context [0 <? ?q] => destruct (Z.ltb_spec 0 q)
       end; lia.
Qed.

Lemma trade_resin_returns state od :
  order_depths state !! RAINFOREST_RESIN = Some od ->
  exists orders, trade_resin state = Ok orders.
Proof.
  intros Hod. unfold trade_resin, getitem. rewrite Hod. cbn [Py.bind].
  destruct (truthy (buy_orders od)) eqn:Hb.
  - destruct (truthy_py_max _ Hb) as [b ->]. cbn [Py.bind].
    destruct (truthy (sell_orders od)) eqn:Hs; [|by eexists].
    destruct (truthy_py_min _ Hs) as [a ->]. by eexists.
  - cbn [Py.bind]. destruct (truthy (sell_orders od)) eqn:Hs; [|by eexists].
    destruct (truthy_py_min _ Hs) as [a ->]. by eexists.
Qed.

(** X26.  [trade_resin] returns whenever the state holds a RESIN book
    ([KeyError] otherwise), and what it returns are quotes: at most six
    orders of 1 to 10 units each, each within the room left under the limit
    on its own, priced one to three ticks beyond the take width and strictly
    better than the best price of its side; with an empty side it does not
    quote that side at all.  The three quotes of a side are sized
    separately: together they stay within the room left when the position
    is at most 20 away from flat on that side, and below 30 units always. *)
Theorem trade_resin_quotes (state : TradingState) (od : OrderDepth) :
  order_depths state !! RAINFOREST_RESIN = Some od ->
  exists orders,
    trade_resin state = Ok orders /\
    Forall (resin_quote od (position_get state RAINFOREST_RESIN)) orders /\
    (length orders <= 6)%nat /\
    total buy_quantity orders <= 30 /\ total sell_quantity orders <= 30 /\
    (position_get state RAINFOREST_RESIN <= 20 ->
     total buy_quantity orders
       <= resin_position_limit - position_get state RAINFOREST_RESIN) /\
    (-20 <= position_get state RAINFOREST_RESIN ->
     total sell_quantity orders
       <= resin_position_limit + position_get state RAINFOREST_RESIN).
Proof.
  intros Hod. unfold trade_resin, getitem. rewrite Hod. cbn [Py.bind].
  assert (exists best_bid,
    (if truthy (buy_orders od) then py_max (keys (buy_orders od))
     else Ok (resin_fair_value - 2)) = Ok best_bid /\
    ((buy_orders od <> ∅ /\ forall p, is_Some (buy_orders od !! p) -> p <= best_bid) \/
     best_bid = resin_fair_value - 2)) as (best_bid & -> & Hbid).
  { destruct (truthy (buy_orders od)) eqn:Hb; [|by eexists; split; [|right]].
    destruct (truthy_py_max _ Hb) as [b Hbb]. exists b. split; [done|]. left.
    split; [intros He; apply truthy_false in He; congruence|].
    intros p Hp. apply py_max_Ok in Hbb as [_ Hmax]. by apply Hmax, elem_of_keys. }
  assert (exists best_ask,
    (if truthy (sell_orders od) then py_min (keys (sell_orders od))
     else Ok (resin_fair_value + 2)) = Ok best_ask /\
    ((sell_orders od <> ∅ /\ forall p, is_Some (sell_orders od !! p) -> best_ask <= p) \/
     best_ask = resin_fair_value + 2)) as (best_ask & -> & Hask).
  { destruct (truthy (sell_orders od)) eqn:Hs; [|by eexists; split; [|right]].
    destruct (truthy_py_min _ Hs) as [a Haa]. exists a. split; [done|]. left.
    split; [intros He; apply truthy_false in He; congruence|].
    intros p Hp. apply py_min_Ok in Haa as [_ Hmin]. by apply Hmin, elem_of_keys. }
  cbn [Py.bind]. eexists. split; [reflexivity|].
  destruct (resin_rounds_spec best_bid best_ask (position_get state RAINFOREST_RESIN))
    as (Hall & Hlen & Hb30 & Hs30 & Hbuy & Hsell).
  unfold resin_position_limit. repeat split; try done.
  eapply Forall_impl; [exact Hall|]. intros o [Hsym Hq]. split; [done|].
  unfold resin_fair_value, resin_position_limit in *.
  destruct Hq as [(Hq & Hroom & Hp & Hbetter)|(Hq & Hroom & Hp & Hbetter)].
  - left. destruct Hbid as [[Hne Hmax]| ->]; [|lia].
    repeat split; try done; try lia. intros p Hp'. specialize (Hmax p Hp'). lia.
  - right. destruct Hask as [[Hne Hmin]| ->]; [|lia].
    repeat split; try done; try lia. intros p Hp'. specialize (Hmin p Hp'). lia.
Qed.

(** A RESIN tick five units under the limit, on a wide book: the three
    bids of 5 units ask for 15. *)
Definition wide_resin_state : TradingState :=
  {| timestamp := 0;
     order_depths :=
       <[RAINFOREST_RESIN :=
           {| buy_orders := {[9990 := 10]}; sell_orders := {[10010 := -10]} |}]>
       (<[KELP := {| buy_orders := {[2000 := 10]}; sell_orders := {[2002 := -10]} |}]>
       (<[SQUID_INK := {| buy_orders := {[1900 := 5]}; sell_orders := {[1905 := -5]} |}]> ∅));
     position := {[RAINFOREST_RESIN := 45]} |}.

Lemma trade_resin_quotes_example :
  (exists orders,
    trade_resin wide_resin_state = Ok orders /\
    Forall (resin_quote {| buy_orders := {[9990 := 10]}; sell_orders := {[10010 := -10]} |}
              (position_get wide_resin_state RAINFOREST_RESIN)) orders /\
    (length orders <= 6)%nat /\
    total buy_quantity orders <= 30 /\ total sell_quantity orders <= 30 /\
    (position_get wide_resin_state RAINFOREST_RESIN <= 20 ->
     total buy_quantity orders
       <= resin_position_limit - position_get wide_resin_state RAINFOREST_RESIN) /\
    (-20 <= position_get wide_resin_state RAINFOREST_RESIN ->
     total sell_quantity orders
       <= resin_position_limit + position_get wide_resin_state RAINFOREST_RESIN)) /\
  total buy_quantity
    (match trade_resin wide_resin_state with Ok orders => orders | Raise _ => [] end) = 15.
Proof.
  split; [|vm_compute; reflexivity].
  apply (trade_resin_quotes wide_resin_state
           {| buy_orders := {[9990 := 10]}; sell_orders := {[10010 := -10]} |}).
  reflexivity.
Defined.

(** [trade_kelp] raises on a two-sided book, whatever the history. *)
Lemma trade_kelp_raises historical_data state od :
  order_depths state !! KELP = Some od ->
  buy_orders od <> ∅ -> sell_orders od <> ∅ ->
  exists historical_data' e, trade_kelp historical_data state = (historical_data', Raise e).
Proof.
  intros Hod Hb%not_empty_truthy Hs%not_empty_truthy. unfold trade_kelp, getitem. rewrite Hod.
  destruct (truthy_py_min _ Hs) as [a ->]. destruct (truthy_py_max _ Hb) as [b ->].
  simpl.
  repeat match goal with
  | |- context [hist_append ?h ?p ?n ?x] =>
      destruct (hist_append h p n x) as [? [[]|?]]
  end; eauto.
Qed.

(** X27.  On every tick whose KELP book has a bid and an ask, the
    dictionary [Trader.run] of round_v_5 builds holds no entry for KELP nor
    for SQUID_INK, whatever the history and the other books: [trade_kelp]
    raises and the one [try] block is left.  It holds RESIN's orders alone
    when [state.traderData] is empty or decodes and the state has a RESIN
    book, and it is empty otherwise (a [traderData] that fails to decode
    leaves the block before RESIN is traded).  [run] returns that dictionary
    unless [logger.flush] raises. *)
Theorem run_v5_only_resin_trades
    (calls : Library.calls) (historical_data : gmap string history)
    (state : TradingState) (kelp : OrderDepth) :
  order_depths state !! KELP = Some kelp ->
  buy_orders kelp <> ∅ -> sell_orders kelp <> ∅ ->
  exists res,
    (run calls historical_data state).2 = (let* _ := Library.flush calls res in Ok res) /\
    (forall e, Library.load calls = Raise e -> res = []) /\
    (Library.load calls = Ok tt -> order_depths state !! RAINFOREST_RESIN = None ->
     res = []) /\
    (Library.load calls = Ok tt -> is_Some (order_depths state !! RAINFOREST_RESIN) ->
     exists orders, trade_resin state = Ok orders /\ res = [(RAINFOREST_RESIN, orders)]).
Proof.
  intros Hk Hb Hs. unfold run, run_with, run_product.
  destruct (Library.load calls) as [[]|e0].
  2:{ exists []. split; [done|]. repeat split; try done. }
  rewrite Hk.
  destruct (order_depths state !! RAINFOREST_RESIN) as [od|] eqn:Hr.
  - destruct (trade_resin_returns state od Hr) as [orders Ho]. rewrite Ho.
    cbn [dict_set].
    destruct (trade_kelp_raises historical_data state kelp Hk Hb Hs) as (hd' & e & ->).
    exists [(RAINFOREST_RESIN, orders)]. split; [done|]. repeat split; try done.
    intros _ _. by exists orders.
  - destruct (trade_kelp_raises historical_data state kelp Hk Hb Hs) as (hd' & e & ->).
    exists []. split; [done|]. repeat split; try done.
Qed.

Lemma run_v5_only_resin_trades_example :
  (run Library.quiet init_historical_data wide_resin_state).2
    = Ok [(RAINFOREST_RESIN,
           [mkOrder RAINFOREST_RESIN 9998 5; mkOrder RAINFOREST_RESIN 10002 (-10);
            mkOrder RAINFOREST_RESIN 9997 5; mkOrder RAINFOREST_RESIN 10003 (-10);
            mkOrder RAINFOREST_RESIN 9996 5; mkOrder RAINFOREST_RESIN 10004 (-10)])] /\
  exists res,
    (run Library.quiet init_historical_data wide_resin_state).2 = Ok res /\
    (forall e, Library.load Library.quiet = Raise e -> res = []) /\
    (Library.load Library.quiet = Ok tt ->
     order_depths wide_resin_state !! RAINFOREST_RESIN = None -> res = []) /\
    (Library.load Library.quiet = Ok tt ->
     is_Some (order_depths wide_resin_state !! RAINFOREST_RESIN) ->
     exists orders,
       trade_resin wide_resin_state = Ok orders /\ res = [(RAINFOREST_RESIN, orders)]).
Proof.
  split; [reflexivity|].
  apply (run_v5_only_resin_trades Library.quiet init_historical_data wide_resin_state
           {| buy_orders := {[2000 := 10]}; sell_orders := {[2002 := -10]} |}).
  - reflexivity.
  - intros H. by apply (f_equal (fun m => m !! 2000)) in H.
  - intros H. by apply (f_equal (fun m => m !! 2002)) in H.
Defined.

Lemma hist_append_Ok historical_data product name hist xs x :
  historical_data !! product = Some hist -> hist !! name = Some xs ->
  hist_append historical_data product name x
    = (<[product := <[name := xs ++ [x]]> hist]> historical_data, Ok tt).
Proof. intros H1 H2. unfold hist_append. by rewrite H1, H2. Qed.

(** What [trade_squid] reads of the books: the best SQUID_INK bid and the
    best ask of the pair (KELP), each 0 when its side is empty. *)
Definition squid_bid (depth : OrderDepth) : Z :=
  py_max_default (keys (buy_orders depth)) 0.

Definition pair_ask (state : TradingState) : Z :=
  py_min_default
    (keys (sell_orders (default (mkOrderDepth ∅ ∅)
                          (order_depths state !! squid_pair_symbol)))) 0.

(** An order of [trade_squid]: one tick under the best bid to sell, one
    tick over it to buy, for the smaller of 10 and the distance of the
    position from the limit. *)
Definition squid_order (state : TradingState) (depth : OrderDepth) (o : Order) : Prop :=
  symbol o = SQUID_INK /\
  let max_size := Z.min (squid_position_limit - Z.abs (position_get state SQUID_INK)) 10 in
  (price o = squid_bid depth - 1 /\ quantity o = - max_size) \/
  (price o = squid_bid depth + 1 /\ quantity o = max_size).

(** X28.  [trade_squid], for a trader whose SQUID_INK history has its two
    lists, never raises when the state holds a SQUID_INK book, and returns
    at most one order: one tick away from the best SQUID_INK bid, for at
    most 10 units, and such that a position within the limit of 50 stays
    within it.  When the SQUID_INK book has no bid or the pair has no ask (or
    one of the two prices is 0) nothing is recorded and nothing is ordered.
    Otherwise the call appends the timestamp to the one list and the spread
    [squid_bid - hedge_ratio * pair_ask] to the other, order or no order,
    and removes nothing: the history is never trimmed, only the z-score
    reads a window of it. *)
Theorem trade_squid_within_limit
    (historical_data : gmap string history) (state : TradingState) (depth : OrderDepth)
    (hist : history) (timestamps spreads : list R) :
  order_depths state !! SQUID_INK = Some depth ->
  historical_data !! SQUID_INK = Some hist ->
  hist !! "timestamps" = Some timestamps -> hist !! "spreads" = Some spreads ->
  exists historical_data' orders,
    trade_squid historical_data state = (historical_data', Ok orders) /\
    (length orders <= 1)%nat /\
    Forall (squid_order state depth) orders /\
    (Z.abs (position_get state SQUID_INK) <= squid_position_limit ->
     Forall (fun o =>
       Z.abs (quantity o) <= 10 /\
       Z.abs (position_get state SQUID_INK + quantity o) <= squid_position_limit) orders) /\
    (squid_bid depth = 0 \/ pair_ask state = 0 ->
     historical_data' = historical_data /\ orders = []) /\
    (squid_bid depth <> 0 -> pair_ask state <> 0 ->
     historical_data'
       = <[SQUID_INK :=
             (<["spreads" :=
                  spreads ++ [(IZR (squid_bid depth)
                               - squid_hedge_ratio * IZR (pair_ask state))%R]]>
                (<["timestamps" := timestamps ++ [IZR (timestamp state)]]> hist)
              : history)]>
           historical_data).
Proof.
  intros Hod Hhd Hts Hsp. unfold trade_squid, getitem. rewrite Hod.
  fold (squid_bid depth). fold (pair_ask state).
  destruct (Z.eqb_spec (squid_bid depth) 0) as [Hb0|Hb0]; cbn [orb].
  { exists historical_data, []. split; [done|]. split; [simpl; lia|].
    split; [constructor|]. split; [constructor|]. split; [done|]. done. }
  destruct (Z.eqb_spec (pair_ask state) 0) as [Ha0|Ha0].
  { exists historical_data, []. split; [done|]. split; [simpl; lia|].
    split; [constructor|]. split; [constructor|]. split; [done|]. done. }
  rewrite (hist_append_Ok _ _ _ _ _ _ Hhd Hts). cbn beta iota.
  rewrite (hist_append_Ok _ SQUID_INK "spreads"
             (<["timestamps" := timestamps ++ [IZR (timestamp state)]]> hist) spreads);
    [|by rewrite lookup_insert_eq|by etrans; [apply lookup_insert_ne|exact Hsp]].
  cbn beta iota. rewrite insert_insert_eq.
  set (hd2 := <[SQUID_INK := _]> historical_data).
  unfold squid_order, squid_position_limit.
  set (max_size := Z.min (50 - Z.abs (position_get state SQUID_INK)) 10).
  assert (Hsize : Z.abs (position_get state SQUID_INK) <= 50 ->
                  0 <= max_size <= 10 /\
                  Z.abs (position_get state SQUID_INK + max_size) <= 50 /\
                  Z.abs (position_get state SQUID_INK + - max_size) <= 50)
    by (unfold max_size; lia).
  clearbody max_size.
  assert (Hhd2 : forall orders : list Order,
    squid_bid depth = 0 \/ pair_ask state = 0 -> hd2 = historical_data /\ orders = [])
    by (intros ? [?|?]; done).
  generalize (eq_refl hd2). unfold hd2 at 2. clearbody hd2. intros Heq.
  repeat match goal with
  | |- context [if ?c then _ else _] => destruct c
  end.
  all: eexists hd2, _; split; [reflexivity|].
  all: split; [simpl; lia|]; split; [|split; [|split; [apply Hhd2|intros _ _; rewrite Heq; reflexivity]]].
  all: try (by constructor).
  all: try (apply Forall_cons; split; [|constructor]; cbn [symbol price quantity]).
  all: try (split; [reflexivity|]; first [left; done|right; done]).
  all: intros Hpos; specialize (Hsize Hpos); apply Forall_cons; split; [|constructor];
    cbn [quantity]; lia.
Qed.

(** SQUID_INK five ticks after its spread to KELP sat at -102, with the
    trader long 45: the best bid has jumped to 2000, against a KELP ask of
    2002.  The spread of -2 is more than 2.1 standard deviations over the
    window, and the trader offers at 1999 the 5 units that separate it from
    the limit. *)
Definition stretched_book : OrderDepth :=
  {| buy_orders := {[2000 := 5]}; sell_orders := {[2005 := -5]} |}.

Definition stretched_state : TradingState :=
  {| timestamp := 500;
     order_depths :=
       <[KELP := {| buy_orders := {[2000 := 10]}; sell_orders := {[2002 := -10]} |}]>
       (<[SQUID_INK := stretched_book]> ∅);
     position := {[SQUID_INK := 45]} |}.

Definition stretched_hist : history :=
  <["timestamps" := [0; 100; 200; 300; 400]%R]>
    (<["spreads" := [-102; -102; -102; -102; -102]%R]> ∅).

Definition stretched_history : gmap string history := <[SQUID_INK := stretched_hist]> ∅.

Lemma stretched_window_std :
  Numpy.std [-102; -102; -102; -102; -102; IZR 2000 - squid_hedge_ratio * IZR 2002]%R
    = sqrt (12500 / 9).
Proof.
  unfold Numpy.std, Numpy.mean, Numpy.Rsum, squid_hedge_ratio.
  cbn [fmap list_fmap foldr length]. f_equal.
  replace (INR 6) with 6%R by (simpl; lra). field.
Qed.

Lemma stretched_window_mean :
  Numpy.mean [-102; -102; -102; -102; -102; IZR 2000 - squid_hedge_ratio * IZR 2002]%R
    = (- 256 / 3)%R.
Proof.
  unfold Numpy.mean, Numpy.Rsum, squid_hedge_ratio. cbn [foldr length].
  replace (INR 6) with 6%R by (simpl; lra). field.
Qed.

Lemma sqrt_12500_9 : (0 < sqrt (12500 / 9) < 39)%R.
Proof.
  split; [apply sqrt_lt_R0; lra|].
  replace 39%R with (sqrt (39 * 39)) by (apply sqrt_square; lra).
  apply sqrt_lt_1_alt. lra.
Qed.

Lemma trade_squid_within_limit_example :
  (trade_squid stretched_history stretched_state).2 = Ok [mkOrder SQUID_INK 1999 (-5)] /\
  exists historical_data' orders,
    trade_squid stretched_history stretched_state = (historical_data', Ok orders) /\
    (length orders <= 1)%nat /\
    Forall (squid_order stretched_state
              stretched_book) orders /\
    (Z.abs (position_get stretched_state SQUID_INK) <= squid_position_limit ->
     Forall (fun o =>
       Z.abs (quantity o) <= 10 /\
       Z.abs (position_get stretched_state SQUID_INK + quantity o)
         <= squid_position_limit) orders) /\
    (squid_bid stretched_book = 0 \/
     pair_ask stretched_state = 0 ->
     historical_data' = stretched_history /\ orders = []) /\
    (squid_bid stretched_book <> 0 ->
     pair_ask stretched_state <> 0 ->
     historical_data'
       = <[SQUID_INK :=
             (<["spreads" :=
                  [-102; -102; -102; -102; -102]%R
                  ++ [(IZR (squid_bid stretched_book)
                       - squid_hedge_ratio * IZR (pair_ask stretched_state))%R]]>
                (<["timestamps" :=
                     [0; 100; 200; 300; 400]%R ++ [IZR (timestamp stretched_state)]]>
                   stretched_hist)
              : history)]>
           stretched_history).
Proof.
  split.
  - unfold trade_squid.
    replace (getitem (order_depths stretched_state) SQUID_INK)
      with (Ok stretched_book)
      by reflexivity.
    replace (py_max_default (keys (buy_orders
               stretched_book)) 0)
      with 2000 by reflexivity.
    replace (py_min_default _ 0) with 2002 by reflexivity.
    cbn [Z.eqb Pos.eqb orb].
    rewrite (hist_append_Ok stretched_history SQUID_INK "timestamps" stretched_hist
               [0; 100; 200; 300; 400]%R) by reflexivity.
    cbn beta iota.
    rewrite (hist_append_Ok _ SQUID_INK "spreads"
               (<["timestamps" := [0; 100; 200; 300; 400]%R
                                  ++ [IZR (timestamp stretched_state)]]> stretched_hist)
               [-102; -102; -102; -102; -102]%R) by reflexivity.
    cbn beta iota.
    replace (default [] (default ∅ (_ !! SQUID_INK) !! "spreads"))
      with ([-102; -102; -102; -102; -102; IZR 2000 - squid_hedge_ratio * IZR 2002]%R)
      by reflexivity.
    cbn [length Nat.sub drop Nat.ltb Nat.leb squid_volatility_window].
    rewrite stretched_window_std, stretched_window_mean.
    destruct sqrt_12500_9 as [Hpos Hlt].
    destruct (Req_dec_T (sqrt (12500 / 9)) 0) as [H0|_]; [lra|].
    replace (position_get stretched_state SQUID_INK) with 45 by reflexivity.
    destruct (Rlt_dec squid_stop_loss _) as [_|Hn]; [reflexivity|].
    exfalso. apply Hn. unfold squid_stop_loss, squid_hedge_ratio.
    apply (Rmult_lt_reg_r (sqrt (12500 / 9))); [done|].
    set (s := sqrt (12500 / 9)) in *.
    replace ((2000 - 1 * 2002 - -256 / 3) / s * s)%R with (2000 - 1 * 2002 - -256 / 3)%R
      by (field; lra).
    lra.
  - apply (trade_squid_within_limit stretched_history stretched_state
             stretched_book
             stretched_hist [0; 100; 200; 300; 400]%R [-102; -102; -102; -102; -102]%R);
      reflexivity.
Defined.

End TraderV5.

(** ** The tutorial trader, alone and under the replay engine *)

Section Tutorial.
Import Backtester TradeTutorial.

Lemma py_floor_spec x : (IZR (py_floor x) <= x < IZR (py_floor x) + 1)%R.
Proof. unfold py_floor. destruct (base_Int_part x). lra. Qed.

Lemma py_ceil_spec x : (IZR (py_ceil x) - 1 < x <= IZR (py_ceil x))%R.
Proof.
  unfold py_ceil. destruct (base_Int_part (- x)). rewrite opp_IZR. lra.
Qed.

Lemma floor_lt_ceil x y : (x + 2 <= y)%R -> py_floor x + 2 <= py_ceil y.
Proof.
  intros Hxy. destruct (py_floor_spec x), (py_ceil_spec y).
  apply le_IZR. rewrite plus_IZR. lra.
Qed.

Lemma get_mid_price_returns ema product state e :
  ema !! product = Some e -> exists mid, get_mid_price ema product state = Ok mid.
Proof.
  intros He. unfold get_mid_price, getitem. rewrite He. cbn [Py.bind].
  destruct (order_depths state !! product) as [od|]; [|by eexists].
  destruct (truthy (buy_orders od)) eqn:Hb.
  - destruct (truthy_py_max _ Hb) as [b ->]. cbn [Py.bind].
    destruct (truthy (sell_orders od)) eqn:Hs; [|by eexists].
    destruct (truthy_py_min _ Hs) as [a ->]. by eexists.
  - cbn [Py.bind]. destruct (truthy (sell_orders od)) eqn:Hs; [|by eexists].
    destruct (truthy_py_min _ Hs) as [a ->]. by eexists.
Qed.

Lemma update_ema_prices_returns state products : forall ema,
  Forall (fun p => is_Some (ema !! p)) products ->
  exists ema',
    update_ema_prices ema state products = (ema', Ok tt) /\
    forall k, is_Some (ema !! k) -> is_Some (ema' !! k).
Proof.
  induction products as [|product rest IH]; intros ema Hall; cbn [update_ema_prices].
  - by exists ema.
  - apply Forall_cons in Hall as [[e He] Hall].
    destruct (get_mid_price_returns ema product state e He) as [mid ->].
    unfold getitem. rewrite He. cbn [Py.bind].
    destruct (IH (<[product := (ema_param * mid + (1 - ema_param) * e)%R]> ema))
      as (ema' & -> & Hkeys).
    + eapply Forall_impl; [exact Hall|]. intros p Hp. cbn beta.
      destruct (decide (product = p)) as [->|Hne].
      * rewrite lookup_insert_eq. by eexists.
      * by rewrite lookup_insert_ne.
    + exists ema'. split; [done|]. intros k Hk. apply Hkeys.
      destruct (decide (product = k)) as [->|Hne].
      * rewrite lookup_insert_eq. by eexists.
      * by rewrite lookup_insert_ne.
Qed.

(** The quotes of the two strategies. *)
Lemma resin_strategy_tutorial state :
  resin_strategy state
    = Ok [mkOrder RAINFOREST_RESIN 9999 (50 - position_get state RAINFOREST_RESIN);
          mkOrder RAINFOREST_RESIN 10001 (- (50) - position_get state RAINFOREST_RESIN)].
Proof. reflexivity. Qed.

Lemma kelp_strategy_tutorial ema state e :
  ema !! KELP = Some e ->
  exists bid ask,
    kelp_strategy ema state
      = Ok [mkOrder KELP bid (50 - position_get state KELP);
            mkOrder KELP ask (- (50) - position_get state KELP)] /\
    bid + 2 <= ask /\ (IZR bid <= e <= IZR ask)%R.
Proof.
  intros He. unfold kelp_strategy, getitem. rewrite He. cbn [Py.bind].
  replace (position_limit !! KELP) with (Some 50) by reflexivity. cbn [Py.bind app].
  destruct (position_get state KELP =? 0); [|destruct (0 <? position_get state KELP)].
  all: eexists _, _; split; [reflexivity|]; split; [apply floor_lt_ceil; lra|].
  - destruct (py_floor_spec (e - 1)), (py_ceil_spec (e + 1)). lra.
  - destruct (py_floor_spec (e - 2)), (py_ceil_spec e). lra.
  - destruct (py_floor_spec e), (py_ceil_spec (e + 2)). lra.
Qed.

Lemma run_tutorial_spec self state :
  is_Some (ema_prices self !! RAINFOREST_RESIN) -> is_Some (ema_prices self !! KELP) ->
  exists ema' bid ask e,
    run self state
      = ({| round := round self + 1; ema_prices := ema' |},
         Ok [(RAINFOREST_RESIN,
              [mkOrder RAINFOREST_RESIN 9999 (50 - position_get state RAINFOREST_RESIN);
               mkOrder RAINFOREST_RESIN 10001
                 (- (50) - position_get state RAINFOREST_RESIN)]);
             (KELP,
              [mkOrder KELP bid (50 - position_get state KELP);
               mkOrder KELP ask (- (50) - position_get state KELP)])]) /\
    is_Some (ema' !! RAINFOREST_RESIN) /\ ema' !! KELP = Some e /\
    bid + 2 <= ask /\ (IZR bid <= e <= IZR ask)%R.
Proof.
  intros Hr Hk. unfold run.
  destruct (update_ema_prices_returns state PRODUCTS (ema_prices self))
    as (ema' & -> & Hkeys).
  { repeat constructor; done. }
  destruct (Hkeys KELP Hk) as [e He].
  destruct (kelp_strategy_tutorial ema' state e He) as (bid & ask & Hq & Hgap & Hbr).
  exists ema', bid, ask, e. rewrite resin_strategy_tutorial, Hq. cbn [RoundV5.dict_set].
  replace (String.eqb RAINFOREST_RESIN KELP) with false by reflexivity.
  repeat split; try done; try lra. by apply Hkeys.
Qed.

(** X29.  [Trader.run] of tutorial_round/trade.py never raises for a
    trader that holds an EMA for its two products, which a run preserves.
    It always returns an entry for RAINFOREST_RESIN and one for KELP, book or
    no book, each a bid for [50 - position] units and an offer for
    [50 + position]: all the room under the limit on both sides.  RESIN is
    quoted at 9999 and 10001; the KELP bid and offer are at least two ticks
    apart and bracket the updated EMA. *)
Theorem run_tutorial_quotes (self : TradeTutorial.t) (state : TradingState) :
  is_Some (ema_prices self !! RAINFOREST_RESIN) -> is_Some (ema_prices self !! KELP) ->
  exists self' resin_bid resin_ask kelp_bid kelp_ask e,
    run self state
      = (self', Ok [(RAINFOREST_RESIN, [resin_bid; resin_ask]);
                    (KELP, [kelp_bid; kelp_ask])]) /\
    round self' = round self + 1 /\
    is_Some (ema_prices self' !! RAINFOREST_RESIN) /\ ema_prices self' !! KELP = Some e /\
    price resin_bid = 9999 /\ price resin_ask = 10001 /\
    quantity resin_bid = 50 - position_get state RAINFOREST_RESIN /\
    quantity resin_ask = - (50 + position_get state RAINFOREST_RESIN) /\
    quantity kelp_bid = 50 - position_get state KELP /\
    quantity kelp_ask = - (50 + position_get state KELP) /\
    price kelp_bid + 2 <= price kelp_ask /\
    (IZR (price kelp_bid) <= e <= IZR (price kelp_ask))%R.
Proof.
  intros Hr Hk.
  destruct (run_tutorial_spec self state Hr Hk)
    as (ema' & bid & ask & e & -> & Hr' & He & Hgap & Hbr).
  eexists _, _, _, _, _, e. split; [reflexivity|].
  cbn [round ema_prices price quantity]. repeat split; try done; try lia; lra.
Qed.

Lemma run_tutorial_quotes_example :
  exists self' resin_bid resin_ask kelp_bid kelp_ask e,
    run init kelp_squid_state
      = (self', Ok [(RAINFOREST_RESIN, [resin_bid; resin_ask]);
                    (KELP, [kelp_bid; kelp_ask])]) /\
    round self' = round init + 1 /\
    is_Some (ema_prices self' !! RAINFOREST_RESIN) /\ ema_prices self' !! KELP = Some e /\
    price resin_bid = 9999 /\ price resin_ask = 10001 /\
    quantity resin_bid = 50 - position_get kelp_squid_state RAINFOREST_RESIN /\
    quantity resin_ask = - (50 + position_get kelp_squid_state RAINFOREST_RESIN) /\
    quantity kelp_bid = 50 - position_get kelp_squid_state KELP /\
    quantity kelp_ask = - (50 + position_get kelp_squid_state KELP) /\
    price kelp_bid + 2 <= price kelp_ask /\
    (IZR (price kelp_bid) <= e <= IZR (price kelp_ask))%R.
Proof. apply (run_tutorial_quotes init kelp_squid_state); by eexists. Defined.

(** The books of a tick are those of the products that have a row. *)
Lemma build_tick_no_row group product :
  (forall row, row ∈ group -> row_product row <> product) ->
  (build_tick group).1 !! product = None.
Proof.
  unfold build_tick. intros Hrows.
  assert (forall acc, acc.1 !! product = None ->
                      (foldl add_row acc group).1 !! product = None) as Hfold.
  { induction group as [|row rest IH]; intros acc Hacc; [done|]. cbn [foldl].
    apply IH.
    - intros r Hr. apply Hrows. by right.
    - unfold add_row. cbn [fst]. rewrite lookup_insert_ne; [done|].
      apply Hrows. by left. }
  by apply Hfold.
Qed.

Lemma process_orders_no_book bt product o orders ods ts :
  ods !! product = None ->
  process_orders bt product (o :: orders) ods ts = Raise (KeyError (StrKey product)).
Proof. intros H. cbn [process_orders]. unfold getitem. by rewrite H. Qed.

Lemma process_result_no_book ods ts product o orders : forall res bt,
  ods !! product = None -> (product, o :: orders) ∈ res ->
  exists e, process_result bt res ods ts = Raise e.
Proof.
  induction res as [|[k v] res IH]; intros bt Hnone Hin.
  - by apply elem_of_nil in Hin.
  - cbn [process_result]. apply elem_of_cons in Hin as [[= <- <-]|Hin].
    + rewrite (process_orders_no_book bt product o orders ods ts Hnone). by eexists.
    + destruct (process_orders bt k v ods ts) as [bt1|e]; [|by eexists].
      cbn [Py.bind]. by apply IH.
Qed.

(** X30.  The replay engine needs a book for every product the trader
    orders: when the dictionary the trader returned holds an order for a
    product that has no row in the tick, the tick raises (the [KeyError] of
    [order_depths[product]], unless an earlier order raised already), and no
    row is written.  The tutorial trader orders both of its products on every
    tick, so a replay with it raises at the first tick that lacks a
    RAINFOREST_RESIN row or a KELP row. *)
Theorem replay_needs_a_row_per_ordered_product
    (bt : Backtester.t) (timestamp : Z) (group : list csv_row) :
  (forall res product o orders,
     (forall row, row ∈ group -> row_product row <> product) ->
     (product, o :: orders) ∈ res ->
     exists e, settle_tick bt timestamp group res = Raise e) /\
  (forall self rest,
     is_Some (ema_prices self !! RAINFOREST_RESIN) -> is_Some (ema_prices self !! KELP) ->
     (forall row, row ∈ group -> row_product row <> RAINFOREST_RESIN) \/
     (forall row, row ∈ group -> row_product row <> KELP) ->
     exists e,
       run_backtest_with TradeTutorial.run bt self ((timestamp, group) :: rest) = Raise e).
Proof.
  assert (Hsettle : forall res product o orders,
     (forall row, row ∈ group -> row_product row <> product) ->
     (product, o :: orders) ∈ res ->
     exists e, settle_tick bt timestamp group res = Raise e).
  { intros res product o orders Hrows Hin. unfold settle_tick.
    destruct (process_result_no_book (build_tick group).1 timestamp product o orders res bt)
      as [e ->]; [by apply build_tick_no_row|done|by eexists]. }
  split; [exact Hsettle|].
  intros self rest Hr Hk Hmissing. cbn [run_backtest_with].
  destruct (run_tutorial_spec self (make_state bt timestamp group) Hr Hk)
    as (ema' & bid & ask & e & -> & _).
  cbn [Py.bind].
  match goal with
  | |- context [settle_tick bt timestamp group ?res] =>
      assert (exists e, settle_tick bt timestamp group res = Raise e) as [e' ->]
  end.
  { destruct Hmissing as [Hrows|Hrows].
    - eapply Hsettle; [exact Hrows|]. left.
    - eapply Hsettle; [exact Hrows|]. right. left. }
  by eexists.
Qed.

(** One tick with a RAINFOREST_RESIN row only: the offer at 10001 fills
    against the bid at 10005, then the first KELP order finds no book. *)
Lemma replay_needs_a_row_per_ordered_product_example :
  run_backtest_with TradeTutorial.run Backtester.init TradeTutorial.init
    [(0, [rich_bid_row])] = Raise (KeyError (StrKey KELP)) /\
  exists e,
    run_backtest_with TradeTutorial.run Backtester.init TradeTutorial.init
      [(0, [rich_bid_row])] = Raise e.
Proof.
  split.
  - cbn [run_backtest_with].
    destruct (run_tutorial_spec TradeTutorial.init
                (make_state Backtester.init 0 [rich_bid_row]))
      as (ema' & bid & ask & e & -> & _); [by eexists..|].
    reflexivity.
  - apply (proj2 (replay_needs_a_row_per_ordered_product Backtester.init 0 [rich_bid_row])
             TradeTutorial.init []); [by eexists..|].
    right. intros row [->|[]%elem_of_nil]%elem_of_cons. done.
Defined.

End Tutorial.
